(** * jupytergis_lab.notebook.gis_document

    A shallow embedding of [gis_document.py]: the [GISDocument] widget with
    its four shared containers, the layer builders, the filter operations and
    the [ObjectFactoryManager], followed by the properties of the document
    model that the specification states about them. *)

From Stdlib Require Import Floats Ascii.
From stdpp Require Import gmap strings list fin_maps.

Local Open Scope string_scope.
Set Warnings "-register-all,-inexact-float".

(** ** Python values

    What the module stores, and all it passes around but the members of
    the two tag enumerations, is JSON-like data: what [json.loads] returns
    and what a [pycrdt] container hands back through [to_py()].  A Python [dict] keeps its insertion order and has one entry
    per key, so it is an association list that [dict_set] keeps duplicate
    free.  Numbers are only ever carried, never computed with. *)

Inductive json : Type :=
| JNull
| JBool (b : bool)
| JInt (z : Z)
| JFloat (f : float)
| JStr (s : string)
| JList (xs : list json)
| JDict (kvs : list (string * json)).

Abbreviation dict := (list (string * json)).

(** [d.get(k)] *)
Fixpoint dict_get (k : string) (d : dict) : option json :=
  match d with
  | [] => None
  | (k', v) :: d' => if String.eqb k k' then Some v else dict_get k d'
  end.

(** [k in d] *)
Definition dict_mem (k : string) (d : dict) : bool :=
  match dict_get k d with Some _ => true | None => false end.

(** [d[k] = v]: an existing key keeps its position, a new key goes last. *)
Fixpoint dict_set (k : string) (v : json) (d : dict) : dict :=
  match d with
  | [] => [(k, v)]
  | (k', v') :: d' =>
      if String.eqb k k' then (k, v) :: d' else (k', v') :: dict_set k v d'
  end.

(** A dict display [{k1: v1, ..., kn: vn}]: the entries are stored from left
    to right, so a key written twice keeps its first position and its last
    value. *)
Definition dict_literal (entries : dict) : dict :=
  fold_left (fun d kv => dict_set kv.1 kv.2 d) entries [].

(** [d.get(k, None)] *)
Definition dict_get_default (k : string) (d : dict) : json :=
  match dict_get k d with Some v => v | None => JNull end.

(** [x] for an argument annotated [str | None]. *)
Definition of_optional (o : option string) : json :=
  match o with Some s => JStr s | None => JNull end.

(** Truthiness, as tested by [if x and ...]. *)
Definition truthy (v : json) : bool :=
  match v with
  | JNull => false
  | JBool b => b
  | JInt z => negb (Z.eqb z 0)
  | JFloat f => negb (PrimFloat.eqb f 0%float)
  | JStr s => negb (String.eqb s "")
  | JList xs => match xs with [] => false | _ => true end
  | JDict kvs => match kvs with [] => false | _ => true end
  end.

(** ** Exceptions and results *)

Inductive exn : Type :=
| ValueError (msg : string)
| KeyError (key : string)
| TypeError
| AttributeError
| ValidationError (model : string)
| OSError.

(** [isinstance(e, ValueError)], the test of an [except ValueError]:
    pydantic's [ValidationError] is a subclass of [ValueError]. *)
Definition is_ValueError (e : exn) : bool :=
  match e with
  | ValueError _ | ValidationError _ => true
  | _ => false
  end.

Inductive result (A : Type) : Type :=
| Ok (a : A)
| Raise (e : exn).
Arguments Ok {A} a.
Arguments Raise {A} e.

(** [v[k]] with a string subscript: only a dict answers, with [KeyError] for
    a missing key; [None], numbers, strings and lists raise [TypeError]. *)
Definition getitem (v : json) (k : string) : result json :=
  match v with
  | JDict d => match dict_get k d with Some x => Ok x | None => Raise (KeyError k) end
  | _ => Raise TypeError
  end.

(** [v[k] = x] with a string subscript. *)
Definition setitem (v : json) (k : string) (x : json) : result json :=
  match v with
  | JDict d => Ok (JDict (dict_set k x d))
  | _ => Raise TypeError
  end.

(** [v.append(x)]: only a list has the method. *)
Definition append (v : json) (x : json) : result json :=
  match v with
  | JList xs => Ok (JList (xs ++ [x]))
  | _ => Raise AttributeError
  end.

(** ** The document and the monad of its methods

    [GISDocument.__init__] creates the four containers of the shared
    document.  A [pycrdt.Map] is keyed by strings; the entries of [layers]
    and [sources] are objects of the jGIS format, so they are dicts here.
    Reading an entry yields a copy: changing it has no effect on the
    container until the whole value is stored again. *)

Record GISDocument : Type := {
  _layers : gmap string dict;
  _sources : gmap string dict;
  _options : gmap string json;
  _layerTree : list json
}.

(** A method runs against the document and the number of identifiers drawn
    from [uuid4] so far.  An exception keeps whatever the method had already
    written. *)
Record State : Type := {
  ydoc : GISDocument;
  uuid_calls : nat
}.

Definition M (A : Type) : Type := State -> result A * State.

#[global] Instance M_ret : MRet M := fun A a st => (Ok a, st).

#[global] Instance M_bind : MBind M := fun A B f c st =>
  match c st with
  | (Ok a, st') => f a st'
  | (Raise e, st') => (Raise e, st')
  end.

Definition raise {A : Type} (e : exn) : M A := fun st => (Raise e, st).

Definition lift {A : Type} (r : result A) : M A := fun st => (r, st).

Definition get_doc : M GISDocument := fun st => (Ok (ydoc st), st).

Definition put_doc (d : GISDocument) : M unit := fun st =>
  (Ok tt, {| ydoc := d; uuid_calls := uuid_calls st |}).

(** ** The objects of [.objects]

    [gis_document.py] imports the two tag enumerations and one parameter
    class per tag from [.objects]; the file only uses the names below. *)

(** Modelled from the spec: the enumeration [LayerType] of [.objects] is not
    part of this file.  Its members are the ones the file names, and the
    value of a member (its wire form, the Layer Descriptor's [type]) is its
    name. *)
Inductive LayerType : Type :=
| RasterLayer | VectorLayer | VectorTileLayer
| HillshadeLayer | WebGlLayer | ImageLayer.

Definition LayerType_value (t : LayerType) : string :=
  match t with
  | RasterLayer => "RasterLayer"
  | VectorLayer => "VectorLayer"
  | VectorTileLayer => "VectorTileLayer"
  | HillshadeLayer => "HillshadeLayer"
  | WebGlLayer => "WebGlLayer"
  | ImageLayer => "ImageLayer"
  end.

(** Modelled from the spec: the enumeration [SourceType] of [.objects], as
    for [LayerType]. *)
Inductive SourceType : Type :=
| RasterSource | VectorTileSource | GeoJSONSource | ImageSource | VideoSource.

Definition SourceType_value (t : SourceType) : string :=
  match t with
  | RasterSource => "RasterSource"
  | VectorTileSource => "VectorTileSource"
  | GeoJSONSource => "GeoJSONSource"
  | ImageSource => "ImageSource"
  | VideoSource => "VideoSource"
  end.

(** [LayerType(tag)]: the member whose value is [tag], if any. *)
Definition LayerType_of (tag : string) : option LayerType :=
  List.find (fun t => String.eqb (LayerType_value t) tag)
    [RasterLayer; VectorLayer; VectorTileLayer; HillshadeLayer; WebGlLayer; ImageLayer].

Definition SourceType_of (tag : string) : option SourceType :=
  List.find (fun t => String.eqb (SourceType_value t) tag)
    [RasterSource; VectorTileSource; GeoJSONSource; ImageSource; VideoSource].

#[global] Instance LayerType_eq_dec : EqDecision LayerType.
Proof. solve_decision. Defined.

#[global] Instance SourceType_eq_dec : EqDecision SourceType.
Proof. solve_decision. Defined.

(** ** Raw descriptions

    The dict a caller hands to the factory.  The builders put a member of
    [LayerType] or [SourceType] under ["type"]; a member is an object of
    its own, equal to no string, not even to its value.  The other entries
    are plain data. *)
Inductive pyobj : Type :=
| Plain (v : json)
| OfLayerType (t : LayerType)
| OfSourceType (t : SourceType).

(** The keys of a raw description are written once each in the displays
    of this file, so a display is the list of its entries. *)
Abbreviation raw := (list (string * pyobj)).

(** [data.get(k)] *)
Fixpoint raw_get (k : string) (data : raw) : option pyobj :=
  match data with
  | [] => None
  | (k', x) :: data' => if String.eqb k k' then Some x else raw_get k data'
  end.

(** [data.get(k, None)] *)
Definition raw_get_default (k : string) (data : raw) : pyobj :=
  match raw_get k data with Some x => x | None => Plain JNull end.

(** [data[k]] *)
Definition raw_getitem (data : raw) (k : string) : result pyobj :=
  match raw_get k data with Some x => Ok x | None => Raise (KeyError k) end.

(** What [.json()] writes for a value: a member goes out as its value. *)
Definition to_json (x : pyobj) : json :=
  match x with
  | Plain v => v
  | OfLayerType t => JStr (LayerType_value t)
  | OfSourceType t => JStr (SourceType_value t)
  end.

(** A stored record read back as a raw description. *)
Definition raw_of_dict (d : dict) : raw := map (fun kv => (kv.1, Plain kv.2)) d.

(** ** The parameter classes *)

(** Modelled from the spec: a parameter class of [.objects] (a pydantic
    [BaseModel] such as [IRasterLayer]) is not part of this file.  The spec
    describes a shape as the list of its declared fields with per-field
    checks; [Model.__fields__] is that list and [check_field] the check of
    one field, which accepts or rejects a value; a conversion the class
    applies to a value it accepts (an int given for a float) is not
    modelled.  What the class does when it is called without one of its
    fields, or with a keyword it does not declare (its defaults, and
    whether it ignores, keeps or forbids extra keywords), is the class's
    own: [other_keywords]. *)
Record BaseModel : Type := {
  model_name : string;
  __fields__ : list string;
  check_field : string -> json -> bool;
  other_keywords : dict -> result dict
}.

(** The keywords are the declared fields, all of them and no other. *)
Definition exact_keywords (Model : BaseModel) (args : dict) : bool :=
  forallb (fun f => dict_mem f args) (__fields__ Model) &&
  forallb (fun kv => bool_decide (kv.1 ∈ __fields__ Model)) args.

(** [Model( **args)], and the dump of the instance.  Called with its
    declared fields the class checks each of them; the instance holds the
    declared fields, in their order, and a rejected field fails the whole
    construction. *)
Definition construct (Model : BaseModel) (args : dict) : result dict :=
  if exact_keywords Model args then
    if forallb (fun f => check_field Model f (dict_get_default f args)) (__fields__ Model)
    then Ok (map (fun f => (f, dict_get_default f args)) (__fields__ Model))
    else Raise (ValidationError (model_name Model))
  else other_keywords Model args.

(** The classes the module imports from [.objects]. *)
Record Objects : Type := {
  IRasterLayer : BaseModel;
  IVectorLayer : BaseModel;
  IVectorTileLayer : BaseModel;
  IHillshadeLayer : BaseModel;
  IWebGlLayer : BaseModel;
  IImageLayer : BaseModel;
  IVectorTileSource : BaseModel;
  IRasterSource : BaseModel;
  IGeoJSONSource : BaseModel;
  IImageSource : BaseModel;
  IVideoSource : BaseModel
}.

(** ** [JGISLayer] and [JGISSource]

    Both are pydantic models with [extra = "allow"]: the declared fields are
    validated against their annotations, and any further keyword is kept as
    it is.  [create_layer], the only place that builds a [JGISLayer], always
    passes [filters], as [None] when the raw description has none, so a
    layer has that one extra field.  [parent] is only remembered in a
    private attribute and never serialised, so it is left out. *)

Record JGISLayer : Type := {
  layer_name : string;
  layer_type : LayerType;
  layer_visible : bool;
  layer_parameters : dict;
  layer_filters : pyobj
}.

Record JGISSource : Type := {
  source_name : string;
  source_type : SourceType;
  source_parameters : dict
}.

(** [s.lower()], on the letters A to Z.  The result is only compared with
    ["jgis"] and with the words a boolean can be written as, and no
    character outside A to Z lowers to one of their letters, so the
    comparison comes out as in Python. *)
Definition lower_char (c : Ascii.ascii) : Ascii.ascii :=
  let n := Ascii.nat_of_ascii c in
  if (65 <=? n)%nat && (n <=? 90)%nat then Ascii.ascii_of_nat (n + 32) else c.

Fixpoint lower (s : string) : string :=
  match s with
  | EmptyString => EmptyString
  | String c s' => String (lower_char c) (lower s')
  end.

(** The validators pydantic 2 applies to the annotated fields.  [name: str]
    takes a string.  [visible: bool] takes a boolean and, converting, the
    numbers 0 and 1 and the usual words in any case.  [type: LayerType]
    takes a member of the enumeration or the value of one. *)
Definition str_validator (x : pyobj) : option string :=
  match x with
  | Plain (JStr s) => Some s
  | _ => None
  end.

Definition bool_validator (x : pyobj) : option bool :=
  match x with
  | Plain (JBool b) => Some b
  | Plain (JInt z) =>
      if Z.eqb z 0 then Some false else if Z.eqb z 1 then Some true else None
  | Plain (JFloat f) =>
      if PrimFloat.eqb f 0%float then Some false
      else if PrimFloat.eqb f 1%float then Some true else None
  | Plain (JStr s) =>
      if existsb (String.eqb (lower s)) ["0"; "off"; "f"; "false"; "n"; "no"]
      then Some false
      else if existsb (String.eqb (lower s)) ["1"; "on"; "t"; "true"; "y"; "yes"]
      then Some true else None
  | _ => None
  end.

Definition LayerType_validator (x : pyobj) : option LayerType :=
  match x with
  | OfLayerType t => Some t
  | Plain (JStr tag) => LayerType_of tag
  | _ => None
  end.

Definition SourceType_validator (x : pyobj) : option SourceType :=
  match x with
  | OfSourceType t => Some t
  | Plain (JStr tag) => SourceType_of tag
  | _ => None
  end.

(** [JGISLayer(parent=..., name=, visible=, type=, parameters=, filters=)];
    [parameters] is already an instance of a parameter class. *)
Definition JGISLayer_init (name visible object_type : pyobj) (parameters : dict)
    (filters : pyobj) : result JGISLayer :=
  match str_validator name, bool_validator visible, LayerType_validator object_type with
  | Some n, Some v, Some t =>
      Ok {| layer_name := n; layer_type := t; layer_visible := v;
            layer_parameters := parameters; layer_filters := filters |}
  | _, _, _ => Raise (ValidationError "JGISLayer")
  end.

Definition JGISSource_init (name object_type : pyobj) (parameters : dict)
    : result JGISSource :=
  match str_validator name, SourceType_validator object_type with
  | Some n, Some t =>
      Ok {| source_name := n; source_type := t; source_parameters := parameters |}
  | _, _ => Raise (ValidationError "JGISSource")
  end.

(** [json.loads(new_object.json())]: the record stored in the document, with
    the declared fields in their order and the extra ones after them.  The
    type is written as the value of the member. *)
Definition JGISLayer_json (l : JGISLayer) : dict :=
  [("name", JStr (layer_name l));
   ("type", JStr (LayerType_value (layer_type l)));
   ("visible", JBool (layer_visible l));
   ("parameters", JDict (layer_parameters l));
   ("filters", to_json (layer_filters l))].

Definition JGISSource_json (s : JGISSource) : dict :=
  [("name", JStr (source_name s));
   ("type", JStr (SourceType_value (source_type s)));
   ("parameters", JDict (source_parameters s))].

#[global] Instance result_ret : MRet result := fun A a => Ok a.

#[global] Instance result_bind : MBind result := fun A B f r =>
  match r with
  | Ok a => f a
  | Raise e => Raise e
  end.

(** ** [ObjectFactoryManager] *)

(** The keys of [_factories]: the module registers its classes under the
    members of the two enumerations; a caller can register under a string. *)
Inductive key : Type :=
| KStr (s : string)
| KLayerType (t : LayerType)
| KSourceType (t : SourceType).

#[global] Instance key_eq_dec : EqDecision key.
Proof. solve_decision. Defined.

#[global] Instance LayerType_countable : Countable LayerType.
Proof.
  refine (inj_countable'
    (fun t => match t with
              | RasterLayer => 0 | VectorLayer => 1 | VectorTileLayer => 2
              | HillshadeLayer => 3 | WebGlLayer => 4 | ImageLayer => 5
              end)%nat
    (fun n => match n with
              | 0 => RasterLayer | 1 => VectorLayer | 2 => VectorTileLayer
              | 3 => HillshadeLayer | 4 => WebGlLayer | _ => ImageLayer
              end)%nat _).
  by intros [].
Defined.

#[global] Instance SourceType_countable : Countable SourceType.
Proof.
  refine (inj_countable'
    (fun t => match t with
              | RasterSource => 0 | VectorTileSource => 1 | GeoJSONSource => 2
              | ImageSource => 3 | VideoSource => 4
              end)%nat
    (fun n => match n with
              | 0 => RasterSource | 1 => VectorTileSource | 2 => GeoJSONSource
              | 3 => ImageSource | _ => VideoSource
              end)%nat _).
  by intros [].
Defined.

#[global] Instance key_countable : Countable key.
Proof.
  refine (inj_countable'
    (fun k => match k with
              | KStr s => inl s
              | KLayerType t => inr (inl t)
              | KSourceType t => inr (inr t)
              end)
    (fun x => match x with
              | inl s => KStr s
              | inr (inl t) => KLayerType t
              | inr (inr t) => KSourceType t
              end) _).
  by intros [].
Defined.

(** [register_factory]: the first class registered under a tag stays. *)
Definition register_factory (shape_type : key) (cls : BaseModel)
    (_factories : gmap key BaseModel) : gmap key BaseModel :=
  match _factories !! shape_type with
  | Some _ => _factories
  | None => <[shape_type := cls]> _factories
  end.

(** [object_type and object_type in self._factories], then
    [self._factories[object_type]].  A member is true and is found under
    itself; a string is found under a string key; a list or a dict cannot
    be hashed, and no other value equals a key. *)
Definition lookup_factory (_factories : gmap key BaseModel) (object_type : pyobj)
    : result (option BaseModel) :=
  match object_type with
  | OfLayerType t => Ok (_factories !! KLayerType t)
  | OfSourceType t => Ok (_factories !! KSourceType t)
  | Plain v =>
      if truthy v then
        match v with
        | JStr tag => Ok (_factories !! KStr tag)
        | JList _ | JDict _ => Raise TypeError
        | _ => Ok None
        end
      else Ok None
  end.

(** [params.get(field, None)]: only a dict has the method. *)
Definition params_get (params : pyobj) (field : string) : result json :=
  match params with
  | Plain (JDict p) => Ok (dict_get_default field p)
  | _ => Raise AttributeError
  end.

(** [args = {}], then [args[field] = params.get(field, None)] for every
    [field] of [Model.__fields__]. *)
Definition extract_args (Model : BaseModel) (params : pyobj) : result dict :=
  fold_left
    (fun acc field =>
       args ← acc;
       v ← params_get params field;
       Ok (dict_set field v args))
    (__fields__ Model) (Ok []).

Definition create_layer (_factories : gmap key BaseModel) (data : raw)
    : result (option JGISLayer) :=
  let object_type := raw_get_default "type" data in
  let name := raw_get_default "name" data in
  let visible := default (Plain (JBool true)) (raw_get "visible" data) in
  let filters := raw_get_default "filters" data in
  found ← lookup_factory _factories object_type;
  match found with
  | Some Model =>
      params ← raw_getitem data "parameters";
      args ← extract_args Model params;
      obj_params ← construct Model args;
      l ← JGISLayer_init name visible object_type obj_params filters;
      Ok (Some l)
  | None => Ok None
  end.

Definition create_source (_factories : gmap key BaseModel) (data : raw)
    : result (option JGISSource) :=
  let object_type := raw_get_default "type" data in
  let name := raw_get_default "name" data in
  found ← lookup_factory _factories object_type;
  match found with
  | Some Model =>
      params ← raw_getitem data "parameters";
      args ← extract_args Model params;
      obj_params ← construct Model args;
      s ← JGISSource_init name object_type obj_params;
      Ok (Some s)
  | None => Ok None
  end.

(** [OBJECT_FACTORY]: the singleton after the eleven registrations at the
    end of the module, each under a member. *)
Definition OBJECT_FACTORY (objects : Objects) : gmap key BaseModel :=
  fold_left (fun fs tc => register_factory tc.1 tc.2 fs)
    [(KLayerType RasterLayer, IRasterLayer objects);
     (KLayerType VectorLayer, IVectorLayer objects);
     (KLayerType VectorTileLayer, IVectorTileLayer objects);
     (KLayerType HillshadeLayer, IHillshadeLayer objects);
     (KLayerType WebGlLayer, IWebGlLayer objects);
     (KLayerType ImageLayer, IImageLayer objects);
     (KSourceType VectorTileSource, IVectorTileSource objects);
     (KSourceType RasterSource, IRasterSource objects);
     (KSourceType GeoJSONSource, IGeoJSONSource objects);
     (KSourceType ImageSource, IImageSource objects);
     (KSourceType VideoSource, IVideoSource objects)]
    ∅.

(** ** [GISDocument] *)

Section GISDocument.

(** What the methods take from outside this file: the parameter classes of
    [.objects], the identifiers [str(uuid4())] returns (the n-th call yields
    [uuid4 n]), [get_source_layer_names] of [.utils], and the content of the
    file behind a path, read and parsed by [json.loads]. *)
Variable objects : Objects.
Variable uuid4 : nat -> string.
Variable get_source_layer_names : string -> result (list string).
Variable load_json_file : string -> result json.

Definition set_layers (d : GISDocument) (ls : gmap string dict) : GISDocument :=
  {| _layers := ls; _sources := _sources d;
     _options := _options d; _layerTree := _layerTree d |}.

Definition set_sources (d : GISDocument) (ss : gmap string dict) : GISDocument :=
  {| _layers := _layers d; _sources := ss;
     _options := _options d; _layerTree := _layerTree d |}.

Definition set_layerTree (d : GISDocument) (t : list json) : GISDocument :=
  {| _layers := _layers d; _sources := _sources d;
     _options := _options d; _layerTree := t |}.

(** [str(uuid4())] *)
Definition fresh_uuid : M string := fun st =>
  (Ok (uuid4 (uuid_calls st)),
   {| ydoc := ydoc st; uuid_calls := S (uuid_calls st) |}).

(** The [layers] and [layer_tree] properties: a snapshot of the container. *)
Definition layers : M (gmap string dict) := d ← get_doc; mret (_layers d).

Definition layer_tree : M (list json) := d ← get_doc; mret (_layerTree d).

(** [self._layers[layer_id] = layer] *)
Definition store_layer (layer_id : string) (layer : dict) : M unit :=
  d ← get_doc; put_doc (set_layers d (<[layer_id := layer]> (_layers d))).

Definition _add_source (new_object : option JGISSource) : M string :=
  _id ← fresh_uuid;
  obj_dict ← match new_object with
             | Some o => mret (JGISSource_json o)
             | None => raise AttributeError
             end;
  d ← get_doc;
  put_doc (set_sources d (<[_id := obj_dict]> (_sources d)));;
  mret _id.

Definition _add_layer (new_object : option JGISLayer) : M string :=
  _id ← fresh_uuid;
  obj_dict ← match new_object with
             | Some o => mret (JGISLayer_json o)
             | None => raise AttributeError
             end;
  d ← get_doc;
  put_doc (set_layers d (<[_id := obj_dict]> (_layers d)));;
  d ← get_doc;
  put_doc (set_layerTree d (_layerTree d ++ [JStr _id]));;
  mret _id.

(** [repr] of a string.  It is written in single quotes, or in double
    quotes when it holds a single quote and no double quote; the quote in
    use and the backslash get a backslash in front, a tab, a newline and a
    carriage return are written with their letter, and any other control
    character with its two hexadecimal digits.  The characters above 127
    are taken to be printable and written as they are. *)
Definition hex_digit (n : nat) : Ascii.ascii :=
  Ascii.ascii_of_nat (if (n <? 10)%nat then 48 + n else 87 + n).

Definition repr_char (quote : Ascii.ascii) (c : Ascii.ascii) : string :=
  let backslash := Ascii.ascii_of_nat 92 in
  let n := Ascii.nat_of_ascii c in
  if Ascii.eqb c quote || Ascii.eqb c backslash then String backslash (String c "")
  else if (n =? 9)%nat then String backslash "t"
  else if (n =? 10)%nat then String backslash "n"
  else if (n =? 13)%nat then String backslash "r"
  else if (n <? 32)%nat || (n =? 127)%nat then
    String backslash
      (String "x" (String (hex_digit (n / 16)) (String (hex_digit (n mod 16)) "")))
  else String c "".

Definition repr_str (s : string) : string :=
  let single := Ascii.ascii_of_nat 39 in
  let double := Ascii.ascii_of_nat 34 in
  let chars := String.list_ascii_of_string s in
  let quote :=
    if existsb (Ascii.eqb single) chars && negb (existsb (Ascii.eqb double) chars)
    then double else single in
  String quote (String.concat "" (map (repr_char quote) chars) ++ String quote "").

(** [repr] of a list of names, as an f-string prints it. *)
Definition repr_names (names : list string) : string :=
  "[" ++ String.concat ", " (map repr_str names) ++ "]".

(** [source_layer in source_layers], for names that are strings. *)
Definition name_in (source_layer : option string) (source_layers : list string) : bool :=
  match source_layer with
  | Some n => existsb (String.eqb n) source_layers
  | None => false
  end.

(** The one predicate and the shared operator a builder attaches to its
    layer, whether or not the caller gave them. *)
Definition initial_filters (logical_op feature operator : option string)
    (value : json) : json :=
  JDict (dict_literal
    [("appliedFilters",
      JList [JDict (dict_literal
        [("feature", of_optional feature);
         ("operator", of_optional operator);
         ("value", value)])]);
     ("logicalOp", of_optional logical_op)]).

Definition add_raster_layer (url name attribution : string) (opacity : json)
    : M string :=
  let source : raw :=
    [("type", OfSourceType RasterSource);
     ("name", Plain (JStr (name ++ " Source")));
     ("parameters", Plain (JDict (dict_literal
        [("url", JStr url);
         ("minZoom", JInt 0);
         ("maxZoom", JInt 24);
         ("attribution", JStr attribution);
         ("htmlAttribution", JStr attribution);
         ("provider", JStr "");
         ("bounds", JList []);
         ("urlParameters", JDict [])])))] in
  new_source ← lift (create_source (OBJECT_FACTORY objects) source);
  source_id ← _add_source new_source;
  let layer : raw :=
    [("type", OfLayerType RasterLayer);
     ("name", Plain (JStr name));
     ("visible", Plain (JBool true));
     ("parameters", Plain (JDict (dict_literal
        [("source", JStr source_id); ("opacity", opacity)])))] in
  new_layer ← lift (create_layer (OBJECT_FACTORY objects) layer);
  _add_layer new_layer.

Definition add_vectortile_layer (url name : string) (source_layer : option string)
    (attribution : string) (min_zoom max_zoom : Z) (type color : string)
    (opacity : json) (logical_op feature operator : option string) (value : json)
    : M string :=
  source_layers ← lift (get_source_layer_names url);
  let source_layer :=
    match source_layer, source_layers with
    | None, [only] => Some only
    | _, _ => source_layer
    end in
  if negb (name_in source_layer source_layers) then
    raise (ValueError ("source_layer should be one of " ++ repr_names source_layers))
  else
    let source : raw :=
      [("type", OfSourceType VectorTileSource);
       ("name", Plain (JStr (name ++ " Source")));
       ("parameters", Plain (JDict (dict_literal
          [("url", JStr url);
           ("minZoom", JInt min_zoom);
           ("maxZoom", JInt max_zoom);
           ("attribution", JStr attribution);
           ("htmlAttribution", JStr attribution);
           ("provider", JStr "");
           ("bounds", JList []);
           ("urlParameters", JDict [])])))] in
    new_source ← lift (create_source (OBJECT_FACTORY objects) source);
    source_id ← _add_source new_source;
    let layer : raw :=
      [("type", OfLayerType VectorTileLayer);
       ("name", Plain (JStr name));
       ("visible", Plain (JBool true));
       ("parameters", Plain (JDict (dict_literal
          [("source", JStr source_id);
           ("type", JStr type);
           ("opacity", opacity);
           ("sourceLayer", of_optional source_layer);
           ("color", JStr color);
           ("opacity", opacity)])));
       ("filters", Plain (initial_filters logical_op feature operator value))] in
    new_layer ← lift (create_layer (OBJECT_FACTORY objects) layer);
    _add_layer new_layer.

Definition add_geojson_layer (path : option string) (data : option dict)
    (name type color : string) (opacity : json)
    (logical_op feature operator : option string) (value : json) : M string :=
  match path, data with
  | None, None => raise (ValueError "Cannot create a GeoJSON layer without data")
  | Some _, Some _ =>
      raise (ValueError "Cannot set GeoJSON layer data and path at the same time")
  | _, _ =>
      parameters ← match path, data with
                   | Some p, _ =>
                       content ← lift (load_json_file p);
                       mret (dict_literal [("data", content)])
                   | None, Some d => mret (dict_literal [("data", JDict d)])
                   | None, None => mret []
                   end;
      let source : raw :=
        [("type", OfSourceType GeoJSONSource);
         ("name", Plain (JStr (name ++ " Source")));
         ("parameters", Plain (JDict parameters))] in
      new_source ← lift (create_source (OBJECT_FACTORY objects) source);
      source_id ← _add_source new_source;
      let layer : raw :=
        [("type", OfLayerType VectorLayer);
         ("name", Plain (JStr name));
         ("visible", Plain (JBool true));
         ("parameters", Plain (JDict (dict_literal
            [("source", JStr source_id);
             ("type", JStr type);
             ("color", JStr color);
             ("opacity", opacity)])));
         ("filters", Plain (initial_filters logical_op feature operator value))] in
      new_layer ← lift (create_layer (OBJECT_FACTORY objects) layer);
      _add_layer new_layer
  end.

(** [x is None] *)
Definition is_none (x : json) : bool :=
  match x with JNull => true | _ => false end.

Definition add_image_layer (url coordinates : json) (name : string) (opacity : json)
    : M string :=
  if is_none url || is_none coordinates then
    raise (ValueError "URL and Coordinates are required")
  else
    let source : raw :=
      [("type", OfSourceType ImageSource);
       ("name", Plain (JStr (name ++ " Source")));
       ("parameters", Plain (JDict (dict_literal
          [("url", url); ("coordinates", coordinates)])))] in
    new_source ← lift (create_source (OBJECT_FACTORY objects) source);
    source_id ← _add_source new_source;
    let layer : raw :=
      [("type", OfLayerType RasterLayer);
       ("name", Plain (JStr name));
       ("visible", Plain (JBool true));
       ("parameters", Plain (JDict (dict_literal
          [("source", JStr source_id); ("opacity", opacity)])))] in
    new_layer ← lift (create_layer (OBJECT_FACTORY objects) layer);
    _add_layer new_layer.

Definition add_video_layer (urls : json) (name : string) (coordinates opacity : json)
    : M string :=
  if is_none urls || is_none coordinates then
    raise (ValueError "URLs and Coordinates are required")
  else
    let source : raw :=
      [("type", OfSourceType VideoSource);
       ("name", Plain (JStr (name ++ " Source")));
       ("parameters", Plain (JDict (dict_literal
          [("urls", urls); ("coordinates", coordinates)])))] in
    new_source ← lift (create_source (OBJECT_FACTORY objects) source);
    source_id ← _add_source new_source;
    let layer : raw :=
      [("type", OfLayerType RasterLayer);
       ("name", Plain (JStr name));
       ("visible", Plain (JBool true));
       ("parameters", Plain (JDict (dict_literal
          [("source", JStr source_id); ("opacity", opacity)])))] in
    new_layer ← lift (create_layer (OBJECT_FACTORY objects) layer);
    _add_layer new_layer.

(** *** Filters *)

(** [{'feature': feature, 'operator': operator, 'value': value}] *)
Definition predicate (feature operator : string) (value : json) : json :=
  JDict (dict_literal
    [("feature", JStr feature); ("operator", JStr operator); ("value", value)]).

Definition add_filter (layer_id logical_op feature operator : string) (value : json)
    : M unit :=
  d ← get_doc;
  match _layers d !! layer_id with
  | None => raise (ValueError ("No layer found with ID: " ++ layer_id))
  | Some layer =>
      if negb (dict_mem "filters" layer) then
        let layer := dict_set "filters"
          (JDict (dict_literal
             [("appliedFilters", JList [predicate feature operator value]);
              ("logicalOp", JStr logical_op)])) layer in
        store_layer layer_id layer
      else
        filters ← lift (getitem (JDict layer) "filters");
        applied ← lift (getitem filters "appliedFilters");
        (* the list is the one [filters] holds, and [filters] the one
           [layer] holds: the changes show in [layer] *)
        applied ← lift (append applied (predicate feature operator value));
        filters ← lift (setitem filters "appliedFilters" applied);
        filters ← lift (setitem filters "logicalOp" (JStr logical_op));
        store_layer layer_id (dict_set "filters" filters layer)
  end.

(** [for f in v]: a list yields its items, a dict its keys and a string its
    characters; nothing else can be iterated. *)
Definition iterate (v : json) : result (list json) :=
  match v with
  | JList xs => Ok xs
  | JDict kvs => Ok (map (fun kv => JStr kv.1) kvs)
  | JStr s => Ok (map (fun c => JStr (String c "")) (String.list_ascii_of_string s))
  | _ => Raise TypeError
  end.

(** [v == feature] for a string [feature]. *)
Definition eq_str (v : json) (feature : string) : bool :=
  match v with
  | JStr s => String.eqb s feature
  | _ => false
  end.

(** [next((f for f in items if f['feature'] == feature), None)]: the first
    match with its position; the items after it are not looked at. *)
Fixpoint find_feature (feature : string) (items : list json)
    : result (option (nat * json)) :=
  match items with
  | [] => Ok None
  | f :: rest =>
      v ← getitem f "feature";
      if eq_str v feature then Ok (Some (0, f))
      else
        found ← find_feature feature rest;
        Ok (match found with
            | Some (i, g) => Some (S i, g)
            | None => None
            end)
  end.

Definition update_filter (layer_id logical_op feature operator : string) (value : json)
    : M unit :=
  d ← get_doc;
  match _layers d !! layer_id with
  | None => raise (ValueError ("No layer found with ID: " ++ layer_id))
  | Some layer =>
      if negb (dict_mem "filters" layer) then
        raise (ValueError ("No filters applied to layer: " ++ layer_id))
      else
        filters ← lift (getitem (JDict layer) "filters");
        applied ← lift (getitem filters "appliedFilters");
        items ← lift (iterate applied);
        found ← lift (find_feature feature items);
        match found with
        | None =>
            (* [feature] is [None] by now, and is printed as such *)
            raise (ValueError ("No feature found with ID: None in layer: " ++ layer_id))
        | Some (i, f) =>
            (* [f] is the dict the list holds: the change shows in [layer] *)
            f ← lift (setitem f "value" value);
            filters ← lift (setitem filters "appliedFilters" (JList (<[i := f]> items)));
            filters ← lift (setitem filters "logicalOp" (JStr logical_op));
            store_layer layer_id (dict_set "filters" filters layer)
        end
  end.

Definition clear_filters (layer_id : string) : M unit :=
  d ← get_doc;
  match _layers d !! layer_id with
  | None => raise (ValueError ("No layer found with ID: " ++ layer_id))
  | Some layer =>
      if negb (dict_mem "filters" layer) then
        raise (ValueError ("No filters applied to layer: " ++ layer_id))
      else
        filters ← lift (getitem (JDict layer) "filters");
        filters ← lift (setitem filters "appliedFilters" (JList []));
        store_layer layer_id (dict_set "filters" filters layer)
  end.

End GISDocument.

Arguments fresh_uuid uuid4 st /.
Arguments _add_source uuid4 new_object st /.
Arguments _add_layer uuid4 new_object st /.

(** ** Construction

    [GISDocument.__init__] and [_path_to_comm], with what they take from
    outside this file: [normalize_path] of [.utils], and [Path(path).name]
    of [pathlib], the last component of a path. *)

Section Construction.

Variable normalize_path : string -> string.
Variable Path_name : string -> string.

(** [s.split(".")]: the pieces between the dots, empty ones included. *)
Fixpoint split_dot (s : string) : list string :=
  match s with
  | EmptyString => [""]
  | String c s' =>
      if Ascii.eqb c "."%char then "" :: split_dot s'
      else match split_dot s' with
           | p :: ps => String c p :: ps
           | [] => [String c ""]
           end
  end.

(** [_path_to_comm]: the extension is the piece after the first dot of the
    file name; indexing a list that has no second piece raises inside the
    [try], which turns it into the [ValueError]. *)
Definition _path_to_comm (filePath : option string) : result dict :=
  match filePath with
  | None =>
      Ok (dict_literal
            [("path", JNull); ("format", JNull); ("contentType", JNull);
             ("createydoc", JBool true)])
  | Some filePath =>
      let path := normalize_path filePath in
      let file_name := Path_name path in
      match split_dot file_name !! 1%nat with
      | None => Raise (ValueError "Can not detect file extension!")
      | Some piece =>
          let ext := lower piece in
          if String.eqb ext "jgis" then
            Ok (dict_literal
                  [("path", JStr path); ("format", JStr "text");
                   ("contentType", JStr "jgis"); ("createydoc", JBool false)])
          else Raise (ValueError "File extension is not supported!")
      end
  end.

(** [self._options[key] = value] when [value is not None]. *)
Definition set_option (key : string) (value : option json)
    (options : gmap string json) : gmap string json :=
  match value with
  | Some v => <[key := v]> options
  | None => options
  end.

(** [GISDocument.__init__].  The widget's own constructor ([CommWidget])
    opens the comm with the metadata and hands back the shared document,
    [loaded] here: empty for a new document, and whatever the file behind
    [path] holds otherwise.  The result is the metadata sent and the
    document after the constructor's own writes. *)
Definition GISDocument_init (loaded : GISDocument) (path : option string)
    (latitude longitude zoom extent bearing pitch : option json)
    (projection : option string) : result (dict * GISDocument) :=
  comm_metadata ← _path_to_comm path;
  let metadata :=
    dict_literal (("ymodel_name", JStr "@jupytergis:widget") :: comm_metadata) in
  let options :=
    match path with
    | None =>
        set_option "projection" (JStr <$> projection)
          (set_option "pitch" pitch
             (set_option "bearing" bearing
                (set_option "zoom" zoom
                   (set_option "extent" extent
                      (set_option "longitude" longitude
                         (set_option "latitude" latitude (_options loaded)))))))
    | Some _ => _options loaded
    end in
  Ok (metadata,
      {| _layers := _layers loaded; _sources := _sources loaded;
         _options := options; _layerTree := _layerTree loaded |}).

End Construction.

(** ** [SingletonMeta]

    The metaclass keeps one instance per class in [_instances] and builds
    it, with the arguments of that call, only the first time the class is
    called.  [K] stands for classes and [I] for their instances; [make] is
    the class's own constructor, which may raise. *)

Section SingletonMeta.

Context {K I Args : Type} `{Countable K}.
Variable make : K -> Args -> result I.

Definition SingletonMeta_call (cls : K) (args : Args) (_instances : gmap K I)
    : result I * gmap K I :=
  match _instances !! cls with
  | Some instance => (Ok instance, _instances)
  | None =>
      match make cls args with
      | Ok instance => (Ok instance, <[cls := instance]> _instances)
      | Raise e => (Raise e, _instances)
      end
  end.

End SingletonMeta.

(** ** A concrete setting

    Parameter classes in the shape of the jGIS schemas, an identifier
    supply and a tile server, against which the statements below are run. *)
Module Sample.

Definition is_str (v : json) : bool :=
  match v with JStr _ => true | _ => false end.

(** A class whose [source] (or [url]) must be a string when declared, and
    whose other fields are optional.  It forbids keywords it does not
    declare and has no defaults: any call that is not made with exactly its
    fields fails. *)
Definition shape (name : string) (fields : list string) : BaseModel :=
  {| model_name := name;
     __fields__ := fields;
     check_field := fun f v =>
       if String.eqb f "source" then is_str v else true;
     other_keywords := fun _ => Raise (ValidationError name) |}.

Definition objects : Objects :=
  {| IRasterLayer := shape "IRasterLayer" ["source"; "opacity"];
     IVectorLayer := shape "IVectorLayer" ["source"; "type"; "color"; "opacity"];
     IVectorTileLayer :=
       shape "IVectorTileLayer" ["source"; "sourceLayer"; "type"; "color"; "opacity"];
     IHillshadeLayer := shape "IHillshadeLayer" ["source"; "shadowColor"];
     IWebGlLayer := shape "IWebGlLayer" ["source"; "opacity"; "color"];
     IImageLayer := shape "IImageLayer" ["source"; "opacity"];
     IVectorTileSource :=
       shape "IVectorTileSource"
         ["url"; "minZoom"; "maxZoom"; "attribution"; "provider"; "bounds";
          "urlParameters"];
     IRasterSource :=
       shape "IRasterSource"
         ["url"; "minZoom"; "maxZoom"; "attribution"; "htmlAttribution";
          "provider"; "bounds"; "urlParameters"];
     IGeoJSONSource := shape "IGeoJSONSource" ["path"; "data"; "valid"];
     IImageSource := shape "IImageSource" ["url"; "coordinates"];
     IVideoSource := shape "IVideoSource" ["urls"; "coordinates"] |}.

(** The n-th identifier: ["id-"] followed by n strokes. *)
Fixpoint strokes (n : nat) : string :=
  match n with O => "" | S m => "|" ++ strokes m end.

Definition uuid4 (n : nat) : string := "id-" ++ strokes n.

(** A tile server that exposes the single sub-layer ["water"]. *)
Definition get_source_layer_names (url : string) : result (list string) :=
  Ok ["water"].

Definition load_json_file (path : string) : result json :=
  Ok (JDict [("type", JStr "FeatureCollection"); ("features", JList [])]).

Definition empty_doc : GISDocument :=
  {| _layers := ∅; _sources := ∅; _options := ∅; _layerTree := [] |}.

Definition fresh : State := {| ydoc := empty_doc; uuid_calls := 0 |}.

(** A stored layer without a [filters] field. *)
Definition plain_layer : dict :=
  [("name", JStr "Base"); ("type", JStr "RasterLayer"); ("visible", JBool true);
   ("parameters", JDict [("source", JStr "s1"); ("opacity", JInt 1)])].


Definition doc_with (layer_id : string) (layer : dict) : State :=
  {| ydoc := set_layers empty_doc {[ layer_id := layer ]}; uuid_calls := 0 |}.

(** Classes as above, except that a raster layer insists on a numeric
    [opacity]. *)
Definition is_number (v : json) : bool :=
  match v with JInt _ | JFloat _ => true | _ => false end.

Definition strict_objects : Objects :=
  {| IRasterLayer :=
       {| model_name := "IRasterLayer";
          __fields__ := ["source"; "opacity"];
          check_field := fun f v =>
            if String.eqb f "source" then is_str v else is_number v;
          other_keywords := fun _ => Raise (ValidationError "IRasterLayer") |};
     IVectorLayer := IVectorLayer objects;
     IVectorTileLayer := IVectorTileLayer objects;
     IHillshadeLayer := IHillshadeLayer objects;
     IWebGlLayer := IWebGlLayer objects;
     IImageLayer := IImageLayer objects;
     IVectorTileSource := IVectorTileSource objects;
     IRasterSource := IRasterSource objects;
     IGeoJSONSource := IGeoJSONSource objects;
     IImageSource := IImageSource objects;
     IVideoSource := IVideoSource objects |}.

End Sample.

(** ** Vocabulary of the statements *)

(** What the factory builds from a parameter bag: the declared fields, in
    order, each with the bag's value or [None]. *)
Definition declared_fields (Model : BaseModel) (params : dict) : dict :=
  map (fun f => (f, dict_get_default f params)) (__fields__ Model).

(** The state after [self._layers[layer_id] = layer]. *)
Definition stored (st : State) (layer_id : string) (layer : dict) : State :=
  {| ydoc := set_layers (ydoc st) (<[layer_id := layer]> (_layers (ydoc st)));
     uuid_calls := uuid_calls st |}.

(** A predicate that [update_filter] passes over when it looks for
    [feature]: a dict whose [feature] entry is something else. *)
Definition other_feature (feature : string) (f : json) : bool :=
  match f with
  | JDict p =>
      match dict_get "feature" p with
      | Some v => negb (eq_str v feature)
      | None => false
      end
  | _ => false
  end.

(** The tail the five builders share: create and add the source, then
    create and add the layer that refers to it. *)
Definition add_source_then_layer (objects : Objects) (uuid4 : nat -> string)
    (source : raw) (layer : string -> raw) : M string :=
  new_source ← lift (create_source (OBJECT_FACTORY objects) source);
  source_id ← _add_source uuid4 new_source;
  new_layer ← lift (create_layer (OBJECT_FACTORY objects) (layer source_id));
  _add_layer uuid4 new_layer.

(** A string without a dot. *)
Fixpoint dot_free (s : string) : bool :=
  match s with
  | EmptyString => true
  | String c s' => negb (Ascii.eqb c "."%char) && dot_free s'
  end.

(** The entry of [options] after an optional argument has been applied. *)
Definition applied (value : option json) (before : option json) : option json :=
  match value with
  | Some v => Some v
  | None => before
  end.

(** What can be said of an operation on the filters of [layer_id] whatever
    it returns: a call that raises leaves the state as it found it; a call
    that returns has stored one value, under [layer_id], which was a key
    already, and that value differs from the old one in [filters] at most.
    Either way the keys of [layers] and all that is not the entry of
    [layer_id] are what they were. *)
Definition writes_filters_of (layer_id : string) (op : M unit) : Prop :=
  forall st r st',
    op st = (r, st') ->
    (forall e, r = Raise e -> st' = st) /\
    (r = Ok tt ->
     exists layer layer',
       _layers (ydoc st) !! layer_id = Some layer /\
       st' = stored st layer_id layer' /\
       forall k, k ≠ "filters" -> dict_get k layer' = dict_get k layer) /\
    dom (_layers (ydoc st')) = dom (_layers (ydoc st)) /\
    (forall other, other ≠ layer_id ->
       _layers (ydoc st') !! other = _layers (ydoc st) !! other) /\
    _sources (ydoc st') = _sources (ydoc st) /\
    _options (ydoc st') = _options (ydoc st) /\
    _layerTree (ydoc st') = _layerTree (ydoc st) /\
    uuid_calls st' = uuid_calls st.

(** A raw layer, given the id of its source, that names that source in its
    parameters. *)
Definition refers_to_source (layer : string -> raw) : Prop :=
  forall source_id, exists ps,
    raw_get "parameters" (layer source_id) = Some (Plain (JDict ps)) /\
    dict_get "source" ps = Some (JStr source_id).

(** A builder: it either raises at once, before it has done anything, or
    goes on as [add_source_then_layer] with a layer that refers to the
    source. *)
Definition builds_pair (objects : Objects) (uuid4 : nat -> string) (run : M string)
    : Prop :=
  forall st,
    (exists e, run st = (Raise e, st)) \/
    (exists source layer,
       run st = add_source_then_layer objects uuid4 source layer st /\
       refers_to_source layer).

(** What a builder that returns has done: it has drawn two identifiers, put
    the source under the first and the layer under the second, which it
    returns and which is now the last entry of [layerTree]; where the stored
    layer has a [source] parameter, it holds the first identifier. *)
Definition adds_source_and_layer (uuid4 : nat -> string) (run : M string) : Prop :=
  forall st _id st',
    run st = (Ok _id, st') ->
    let source_id := uuid4 (uuid_calls st) in
    _id = uuid4 (S (uuid_calls st)) /\
    uuid_calls st' = S (S (uuid_calls st)) /\
    (exists source,
       _sources (ydoc st') = <[source_id := source]> (_sources (ydoc st))) /\
    (exists layer ps,
       _layers (ydoc st') = <[_id := layer]> (_layers (ydoc st)) /\
       dict_get "parameters" layer = Some (JDict ps) /\
       forall v, dict_get "source" ps = Some v -> v = JStr source_id) /\
    _layerTree (ydoc st') = (_layerTree (ydoc st) ++ [JStr _id])%list /\
    _options (ydoc st') = _options (ydoc st).

(** What a builder that raises has done: no layer and no tree entry, and at
    most the source. *)
Definition leaves_at_most_the_source (uuid4 : nat -> string) (run : M string) : Prop :=
  forall st e st',
    run st = (Raise e, st') ->
    _layers (ydoc st') = _layers (ydoc st) /\
    _layerTree (ydoc st') = _layerTree (ydoc st) /\
    _options (ydoc st') = _options (ydoc st) /\
    (_sources (ydoc st') = _sources (ydoc st) \/
     exists source,
       _sources (ydoc st')
       = <[uuid4 (uuid_calls st) := source]> (_sources (ydoc st))).

(** The two ways a filter operation can end. *)
Definition raised_or_stored (layer_id : string) (st : State) (r : result unit)
    (st' : State) : Prop :=
  (st' = st /\ exists e, r = Raise e) \/
  (r = Ok tt /\
   exists layer layer',
     _layers (ydoc st) !! layer_id = Some layer /\
     st' = stored st layer_id layer' /\
     forall k, k ≠ "filters" -> dict_get k layer' = dict_get k layer).

(** ** Consistency of a document

    An entry of [layerTree] is the id of a stored layer (the builders add
    no groups), and a layer's [source] parameter, where it has one, is the
    id of a stored source. *)
Definition tree_entry_ok (d : GISDocument) (x : json) : Prop :=
  match x with
  | JStr layer_id => is_Some (_layers d !! layer_id)
  | _ => False
  end.

Definition source_ref_ok (d : GISDocument) (layer : dict) : Prop :=
  match dict_get "parameters" layer with
  | Some (JDict ps) =>
      match dict_get "source" ps with
      | Some (JStr source_id) => is_Some (_sources d !! source_id)
      | Some _ => False
      | None => True
      end
  | _ => True
  end.

Definition consistent (d : GISDocument) : Prop :=
  Forall (tree_entry_ok d) (_layerTree d) /\
  map_Forall (fun _ layer => source_ref_ok d layer) (_layers d).

#[global] Instance tree_entry_ok_dec (d : GISDocument) (x : json) :
  Decision (tree_entry_ok d x).
Proof. destruct x; cbn; apply _. Defined.

#[global] Instance source_ref_ok_dec (d : GISDocument) (layer : dict) :
  Decision (source_ref_ok d layer).
Proof. unfold source_ref_ok. repeat case_match; apply _. Defined.

#[global] Instance consistent_dec (d : GISDocument) : Decision (consistent d).
Proof. unfold consistent. apply _. Defined.

(** Nothing stored is lost between two documents: the ids of the layers and
    of the sources are still there, and the tree has only grown at its
    end. *)
Definition extends (d d' : GISDocument) : Prop :=
  dom (_layers d) ⊆ dom (_layers d') /\
  dom (_sources d) ⊆ dom (_sources d') /\
  _layerTree d `prefix_of` _layerTree d' /\
  _options d' = _options d.

(** The calls a user of [GISDocument] can make, and a session of them, in
    which a call that raises is followed by the next one. *)
Inductive call : Type :=
| AddRasterLayer (url name attribution : string) (opacity : json)
| AddVectorTileLayer (url name : string) (source_layer : option string)
    (attribution : string) (min_zoom max_zoom : Z) (type color : string)
    (opacity : json) (logical_op feature operator : option string) (value : json)
| AddGeoJSONLayer (path : option string) (data : option dict)
    (name type color : string) (opacity : json)
    (logical_op feature operator : option string) (value : json)
| AddImageLayer (url coordinates : json) (name : string) (opacity : json)
| AddVideoLayer (urls : json) (name : string) (coordinates opacity : json)
| AddFilter (layer_id logical_op feature operator : string) (value : json)
| UpdateFilter (layer_id logical_op feature operator : string) (value : json)
| ClearFilters (layer_id : string).

Section Session.

Variable objects : Objects.
Variable uuid4 : nat -> string.
Variable get_source_layer_names : string -> result (list string).
Variable load_json_file : string -> result json.

Definition perform (c : call) (st : State) : State :=
  match c with
  | AddRasterLayer url name attribution opacity =>
      (add_raster_layer objects uuid4 url name attribution opacity st).2
  | AddVectorTileLayer url name source_layer attribution min_zoom max_zoom type color
      opacity logical_op feature operator value =>
      (add_vectortile_layer objects uuid4 get_source_layer_names url name source_layer
         attribution min_zoom max_zoom type color opacity logical_op feature operator
         value st).2
  | AddGeoJSONLayer path data name type color opacity logical_op feature operator value =>
      (add_geojson_layer objects uuid4 load_json_file path data name type color opacity
         logical_op feature operator value st).2
  | AddImageLayer url coordinates name opacity =>
      (add_image_layer objects uuid4 url coordinates name opacity st).2
  | AddVideoLayer urls name coordinates opacity =>
      (add_video_layer objects uuid4 urls name coordinates opacity st).2
  | AddFilter layer_id logical_op feature operator value =>
      (add_filter layer_id logical_op feature operator value st).2
  | UpdateFilter layer_id logical_op feature operator value =>
      (update_filter layer_id logical_op feature operator value st).2
  | ClearFilters layer_id => (clear_filters layer_id st).2
  end.

Definition session (calls : list call) (st : State) : State :=
  fold_left (fun st c => perform c st) calls st.

End Session.

(** The documents a builder can leave, whatever it returns: the one it
    found, that one with the new source, or that one with the new source,
    the new layer and its tree entry. *)
Definition builder_step (uuid4 : nat -> string) (st st' : State) : Prop :=
  (ydoc st' = ydoc st /\ uuid_calls st <= uuid_calls st') \/
  (exists source,
     ydoc st'
     = set_sources (ydoc st)
         (<[uuid4 (uuid_calls st) := source]> (_sources (ydoc st))) /\
     uuid_calls st < uuid_calls st') \/
  (exists source layer ps,
     ydoc st'
     = set_layerTree
         (set_layers
            (set_sources (ydoc st)
               (<[uuid4 (uuid_calls st) := source]> (_sources (ydoc st))))
            (<[uuid4 (S (uuid_calls st)) := layer]> (_layers (ydoc st))))
         (_layerTree (ydoc st) ++ [JStr (uuid4 (S (uuid_calls st)))]) /\
     uuid_calls st' = S (S (uuid_calls st)) /\
     dict_get "parameters" layer = Some (JDict ps) /\
     forall v, dict_get "source" ps = Some v -> v = JStr (uuid4 (uuid_calls st))).

(** Every id under which a layer is stored is one of the identifiers drawn
    so far. *)
Definition drawn (uuid4 : nat -> string) (st : State) : Prop :=
  forall layer_id,
    is_Some (_layers (ydoc st) !! layer_id) ->
    exists n, n < uuid_calls st /\ layer_id = uuid4 n.

(** [layerTree] is a list of layer ids in which every stored layer occurs,
    once. *)
Definition lists_each_layer_once (d : GISDocument) : Prop :=
  exists ids,
    _layerTree d = map JStr ids /\
    NoDup ids /\
    forall layer_id, layer_id ∈ ids <-> is_Some (_layers d !! layer_id).

(** Registering a list of classes one after the other, as the end of the
    module does, and the class of the first registration of [tag] in such
    a list. *)
Definition register_all (regs : list (key * BaseModel))
    (_factories : gmap key BaseModel) : gmap key BaseModel :=
  fold_left (fun fs tc => register_factory tc.1 tc.2 fs) regs _factories.

Fixpoint first_registered (tag : key) (regs : list (key * BaseModel))
    : option BaseModel :=
  match regs with
  | [] => None
  | (shape_type, cls) :: regs' =>
      if bool_decide (shape_type = tag) then Some cls else first_registered tag regs'
  end.

(** A builder whose layers take filters: on the id it returns, [add_filter]
    succeeds and puts its predicate after the one the builder attached. *)
Definition takes_filters (logical_op feature operator : option string) (value : json)
    (build : M string) : Prop :=
  forall st _id st',
    build st = (Ok _id, st') ->
    forall lop f o v,
      exists layer',
        add_filter _id lop f o v st' = (Ok tt, stored st' _id layer') /\
        dict_get "filters" layer'
        = Some (JDict [("appliedFilters",
                        JList [JDict [("feature", of_optional feature);
                                      ("operator", of_optional operator);
                                      ("value", value)];
                               predicate f o v]);
                       ("logicalOp", JStr lop)]).

(** What [update_filter] does on the id a builder returns: asked for the
    feature the builder was given, it sets that predicate's value and the
    shared operator; asked for any other, it raises and writes nothing. *)
Definition updates_initial_filter (feature operator : option string) (build : M string)
    : Prop :=
  forall st _id st',
    build st = (Ok _id, st') ->
    forall lop f o v,
      if eq_str (of_optional feature) f then
        exists layer',
          update_filter _id lop f o v st' = (Ok tt, stored st' _id layer') /\
          dict_get "filters" layer'
          = Some (JDict [("appliedFilters",
                          JList [JDict [("feature", JStr f);
                                        ("operator", of_optional operator);
                                        ("value", v)]]);
                         ("logicalOp", JStr lop)])
      else
        update_filter _id lop f o v st'
        = (Raise (ValueError ("No feature found with ID: None in layer: " ++ _id)), st').

(** ** Properties *)

(** *** Dicts *)

Lemma dict_get_set_eq (k : string) (v : json) (d : dict) :
  dict_get k (dict_set k v d) = Some v.
Proof.
  induction d as [|[k' v'] d IH]; simpl.
  - by rewrite String.eqb_refl.
  - destruct (String.eqb k k') eqn:E; simpl.
    + by rewrite String.eqb_refl.
    + by rewrite E.
Qed.

Lemma dict_get_set_ne (k k' : string) (v : json) (d : dict) :
  k ≠ k' -> dict_get k' (dict_set k v d) = dict_get k' d.
Proof.
  intros Hne. induction d as [|[k0 v0] d IH]; simpl.
  - destruct (String.eqb k' k) eqn:E; [|done].
    apply String.eqb_eq in E. congruence.
  - destruct (String.eqb k k0) eqn:E; simpl.
    + apply String.eqb_eq in E. subst k0.
      destruct (String.eqb k' k) eqn:E'; [|done].
      apply String.eqb_eq in E'. congruence.
    + by rewrite IH.
Qed.

(** *** The monad *)

Lemma bind_ok {A B : Type} (c : M A) (f : A -> M B) (st st' : State) (b : B) :
  (c ≫= f) st = (Ok b, st') ->
  exists a st1, c st = (Ok a, st1) /\ f a st1 = (Ok b, st').
Proof.
  unfold mbind, M_bind. destruct (c st) as [[a|e] st1]; [eauto | discriminate].
Qed.

Lemma bind_run {A B : Type} (c : M A) (f : A -> M B) (st st1 : State) (a : A) :
  c st = (Ok a, st1) -> (c ≫= f) st = f a st1.
Proof. intros H. unfold mbind, M_bind. by rewrite H. Qed.

Lemma bind_raise {A B : Type} (c : M A) (f : A -> M B) (st st1 : State) (e : exn) :
  c st = (Raise e, st1) -> (c ≫= f) st = (Raise e, st1).
Proof. intros H. unfold mbind, M_bind. by rewrite H. Qed.

Lemma lift_ok {A : Type} (r : result A) (st st' : State) (a : A) :
  lift r st = (Ok a, st') -> r = Ok a /\ st' = st.
Proof. unfold lift. intros [= -> ->]. done. Qed.

(** *** The factory on an unknown tag *)

Lemma lookup_factory_unknown (_factories : gmap key BaseModel) (data : raw) :
  (raw_get "type" data = None \/
   exists tag,
     raw_get "type" data = Some (Plain (JStr tag)) /\ _factories !! KStr tag = None) ->
  lookup_factory _factories (raw_get_default "type" data) = Ok None.
Proof.
  unfold lookup_factory, raw_get_default.
  intros [-> | (tag & -> & Hno)]; [done|].
  simpl. rewrite Hno. by destruct (negb _).
Qed.

(** C1 (as amended).  A raw description whose type tag is missing, or is a
    string that the registration table does not hold, makes [create_source]
    and [create_layer] return [None]: no object is produced, and no error
    is raised by the factory itself.  Handing that result to [_add_source]
    or [_add_layer], as every builder does, raises [AttributeError] before
    anything is stored: the document is the same after the failed call, and
    so are the sizes of [sources] and [layers]. *)
Theorem unknown_type_creates_nothing
    (_factories : gmap key BaseModel) (uuid4 : nat -> string)
    (data : raw) (st : State) :
  (raw_get "type" data = None \/
   exists tag,
     raw_get "type" data = Some (Plain (JStr tag)) /\ _factories !! KStr tag = None) ->
  create_source _factories data = Ok None /\
  create_layer _factories data = Ok None /\
  (exists st',
      (lift (create_source _factories data) ≫= _add_source uuid4) st
        = (Raise AttributeError, st') /\
      ydoc st' = ydoc st /\
      size (_sources (ydoc st')) = size (_sources (ydoc st))) /\
  (exists st',
      (lift (create_layer _factories data) ≫= _add_layer uuid4) st
        = (Raise AttributeError, st') /\
      ydoc st' = ydoc st /\
      size (_layers (ydoc st')) = size (_layers (ydoc st)) /\
      length (_layerTree (ydoc st')) = length (_layerTree (ydoc st))).
Proof.
  intros Hunknown.
  assert (Hs : create_source _factories data = Ok None).
  { unfold create_source. by rewrite (lookup_factory_unknown _ _ Hunknown). }
  assert (Hl : create_layer _factories data = Ok None).
  { unfold create_layer. by rewrite (lookup_factory_unknown _ _ Hunknown). }
  repeat split; [done | done | |].
  - rewrite Hs. eexists. split; [reflexivity | done].
  - rewrite Hl. eexists. split; [reflexivity | done].
Qed.

Lemma unknown_type_creates_nothing_witness :
  let data := [("type", Plain (JStr "HeatmapLayer")); ("name", Plain (JStr "Heat"));
               ("parameters", Plain (JDict [("source", JStr "s1")]))] in
  create_source (OBJECT_FACTORY Sample.objects) data = Ok None /\
  create_layer (OBJECT_FACTORY Sample.objects) data = Ok None.
Proof.
  intros data.
  pose proof (unknown_type_creates_nothing
                (OBJECT_FACTORY Sample.objects) Sample.uuid4 data Sample.fresh) as H.
  destruct H as (Hs & Hl & _).
  - right. exists "HeatmapLayer". split; vm_compute; reflexivity.
  - split; assumption.
Defined.

(** C1 as stated fails: on a description tagged ["HeatmapLayer"], which the
    table does not hold, both factory methods return normally, with
    [None], instead of failing with an error. *)
Lemma unknown_type_raises_no_error :
  let data := [("type", Plain (JStr "HeatmapLayer")); ("name", Plain (JStr "Heat"));
               ("parameters", Plain (JDict [("source", JStr "s1")]))] in
  create_source (OBJECT_FACTORY Sample.objects) data = Ok None /\
  create_layer (OBJECT_FACTORY Sample.objects) data = Ok None /\
  (forall e, create_source (OBJECT_FACTORY Sample.objects) data <> Raise e) /\
  (forall e, create_layer (OBJECT_FACTORY Sample.objects) data <> Raise e).
Proof.
  intros data.
  assert (Hs : create_source (OBJECT_FACTORY Sample.objects) data = Ok None)
    by (vm_compute; reflexivity).
  assert (Hl : create_layer (OBJECT_FACTORY Sample.objects) data = Ok None)
    by (vm_compute; reflexivity).
  repeat split; try assumption; intros e; [rewrite Hs | rewrite Hl]; discriminate.
Qed.

(** *** Adding a source or a layer *)

Lemma _add_layer_some (uuid4 : nat -> string) (l : JGISLayer) (st : State) :
  _add_layer uuid4 (Some l) st =
    (Ok (uuid4 (uuid_calls st)),
     {| ydoc :=
          {| _layers := <[uuid4 (uuid_calls st) := JGISLayer_json l]> (_layers (ydoc st));
             _sources := _sources (ydoc st);
             _options := _options (ydoc st);
             _layerTree := _layerTree (ydoc st) ++ [JStr (uuid4 (uuid_calls st))] |};
        uuid_calls := S (uuid_calls st) |}).
Proof. reflexivity. Qed.

Lemma _add_source_some (uuid4 : nat -> string) (s : JGISSource) (st : State) :
  _add_source uuid4 (Some s) st =
    (Ok (uuid4 (uuid_calls st)),
     {| ydoc :=
          {| _layers := _layers (ydoc st);
             _sources := <[uuid4 (uuid_calls st) := JGISSource_json s]> (_sources (ydoc st));
             _options := _options (ydoc st);
             _layerTree := _layerTree (ydoc st) |};
        uuid_calls := S (uuid_calls st) |}).
Proof. reflexivity. Qed.

Lemma strokes_inj : Inj (=) (=) Sample.uuid4.
Proof.
  intros n m H. unfold Sample.uuid4 in H. cbn in H. injection H as H.
  revert m H. induction n as [|n IH]; intros [|m] H; cbn in H; try done.
  injection H as H. f_equal. by apply IH.
Qed.

(** C2. [_add_layer] on a layer descriptor draws the next identifier from
    [uuid4], stores the descriptor's record (its name, type, visibility,
    parameters and filters) under it in [layers], appends that identifier
    to the end of [layerTree], whose length grows by exactly one, and
    returns it; the identifier is a key of [layers] right after the call.
    The other layers, [sources] and [options] are left alone.  The
    identifier is fresh as far as [uuid4] is: if [uuid4] never returns the
    same identifier twice and the layers of the document were stored under
    identifiers drawn before, the new one was not a key of [layers], no
    layer is replaced, [layers] has one entry more, and the next call
    returns another identifier. *)
Theorem add_layer_stores_and_appends
    (uuid4 : nat -> string) (l : JGISLayer) (st : State) :
  let _id := uuid4 (uuid_calls st) in
  let record :=
    [("name", JStr (layer_name l));
     ("type", JStr (LayerType_value (layer_type l)));
     ("visible", JBool (layer_visible l));
     ("parameters", JDict (layer_parameters l));
     ("filters", to_json (layer_filters l))] in
  exists st',
    _add_layer uuid4 (Some l) st = (Ok _id, st') /\
    uuid_calls st' = S (uuid_calls st) /\
    _layers (ydoc st') = <[_id := record]> (_layers (ydoc st)) /\
    _layers (ydoc st') !! _id = Some record /\
    (forall other, other ≠ _id ->
       _layers (ydoc st') !! other = _layers (ydoc st) !! other) /\
    _layerTree (ydoc st') = (_layerTree (ydoc st) ++ [JStr _id])%list /\
    length (_layerTree (ydoc st')) = S (length (_layerTree (ydoc st))) /\
    last (_layerTree (ydoc st')) = Some (JStr _id) /\
    _sources (ydoc st') = _sources (ydoc st) /\
    _options (ydoc st') = _options (ydoc st) /\
    (Inj (=) (=) uuid4 -> drawn uuid4 st ->
       _layers (ydoc st) !! _id = None /\
       size (_layers (ydoc st')) = S (size (_layers (ydoc st))) /\
       drawn uuid4 st' /\
       forall l2, exists _id2 st'',
         _add_layer uuid4 (Some l2) st' = (Ok _id2, st'') /\ _id2 ≠ _id).
Proof.
  intros _id record. eexists. split; [apply _add_layer_some|]. simpl.
  split; [done|]. split; [done|]. split; [apply lookup_insert_eq|].
  split; [by intros other Hother; apply lookup_insert_ne|].
  split; [done|]. split; [rewrite length_app; simpl; lia|].
  split; [apply last_snoc|]. split; [done|]. split; [done|].
  intros Hinj Hdrawn.
  assert (Hfresh : _layers (ydoc st) !! _id = None).
  { destruct (_layers (ydoc st) !! _id) as [old|] eqn:Hold; [|done].
    destruct (Hdrawn _id) as (n & Hn & Heq); [by rewrite Hold|].
    apply Hinj in Heq. lia. }
  split; [exact Hfresh|]. split; [by apply map_size_insert_None|]. split.
  - intros k Hk. cbn in Hk. apply lookup_insert_is_Some in Hk as [<- | [_ Hk]].
    + exists (uuid_calls st). split; [cbn; lia | done].
    + destruct (Hdrawn k Hk) as (n & Hn & ->). exists n. split; [cbn; lia | done].
  - intros l2. eexists _, _. split; [apply _add_layer_some|]. cbn.
    intros Heq. apply Hinj in Heq. lia.
Qed.

Lemma add_layer_stores_and_appends_witness :
  let l := {| layer_name := "Base"; layer_type := RasterLayer; layer_visible := true;
              layer_parameters := [("source", JStr "id-"); ("opacity", JFloat 0.8)];
              layer_filters := Plain JNull |} in
  exists st',
    _add_layer Sample.uuid4 (Some l) (Sample.doc_with "L1" Sample.plain_layer)
      = (Ok "id-", st') /\
    _layers (ydoc st') !! "id-"
      = Some [("name", JStr "Base"); ("type", JStr "RasterLayer");
              ("visible", JBool true);
              ("parameters", JDict [("source", JStr "id-"); ("opacity", JFloat 0.8)]);
              ("filters", JNull)] /\
    _layers (ydoc st') !! "L1" = Some Sample.plain_layer /\
    _layerTree (ydoc st') = [JStr "id-"] /\
    (exists st0 _id2 st1,
       _add_layer Sample.uuid4 (Some l) Sample.fresh = (Ok "id-", st0) /\
       size (_layers (ydoc st0)) = 1%nat /\
       _add_layer Sample.uuid4 (Some l) st0 = (Ok _id2, st1) /\
       _id2 ≠ "id-").
Proof.
  intros l.
  destruct (add_layer_stores_and_appends Sample.uuid4 l
              (Sample.doc_with "L1" Sample.plain_layer))
    as (st' & Hrun & _ & _ & Hstored & Hothers & Htree & _).
  exists st'. split; [exact Hrun|]. split; [exact Hstored|].
  split; [by rewrite Hothers|]. split; [exact Htree|].
  destruct (add_layer_stores_and_appends Sample.uuid4 l Sample.fresh)
    as (st0 & Hrun0 & _ & _ & _ & _ & _ & _ & _ & _ & _ & Hfresh).
  destruct Hfresh as (_ & Hsize & _ & Hnext).
  - exact strokes_inj.
  - intros k Hk. cbn in Hk. rewrite lookup_empty in Hk. by destruct Hk.
  - destruct (Hnext l) as (_id2 & st1 & Hrun2 & Hother).
    exists st0, _id2, st1. split; [exact Hrun0|]. split; [exact Hsize|].
    split; [exact Hrun2 | exact Hother].
Defined.

(** *** Field extraction *)

Lemma extract_args_fold (params : dict) (fields : list string) (acc : dict) :
  fold_left
    (fun acc field =>
       args ← acc; v ← params_get (Plain (JDict params)) field;
       Ok (dict_set field v args))
    fields (Ok acc)
  = Ok (fold_left (fun args f => dict_set f (dict_get_default f params) args) fields acc).
Proof.
  revert acc. induction fields as [|f fields IH]; intros acc; simpl; [done|].
  apply IH.
Qed.

Lemma fold_set_absent (params : dict) (fields : list string) (acc : dict) (k : string) :
  k ∉ fields ->
  dict_get k (fold_left (fun args f => dict_set f (dict_get_default f params) args) fields acc)
  = dict_get k acc.
Proof.
  revert acc. induction fields as [|f fields IH]; intros acc Hk; simpl; [done|].
  apply not_elem_of_cons in Hk as [Hne Hk].
  rewrite IH; [|done]. by apply dict_get_set_ne.
Qed.

Lemma fold_set_present (params : dict) (fields : list string) (acc : dict) (k : string) :
  k ∈ fields ->
  dict_get k (fold_left (fun args f => dict_set f (dict_get_default f params) args) fields acc)
  = Some (dict_get_default k params).
Proof.
  revert acc. induction fields as [|f fields IH]; intros acc Hk; simpl.
  - by apply elem_of_nil in Hk.
  - destruct (decide (k ∈ fields)) as [Hin|Hout]; [by apply IH|].
    apply elem_of_cons in Hk as [->|Hin]; [|done].
    rewrite fold_set_absent; [|done]. apply dict_get_set_eq.
Qed.

Lemma dict_set_keys (k : string) (v : json) (d : dict) (kv : string * json) :
  kv ∈ dict_set k v d -> kv.1 = k \/ kv ∈ d.
Proof.
  induction d as [|[k' v'] d IH]; simpl.
  - intros ->%list_elem_of_singleton. by left.
  - destruct (String.eqb k k').
    + intros [->|Hin]%elem_of_cons; [by left|]. right. by right.
    + intros [->|Hin]%elem_of_cons; [right; by left|].
      destruct (IH Hin) as [?|?]; [by left|]. right. by right.
Qed.

Lemma fold_set_keys (params : dict) (fields : list string) (acc : dict)
    (kv : string * json) :
  kv ∈ fold_left (fun args f => dict_set f (dict_get_default f params) args) fields acc ->
  kv.1 ∈ fields \/ kv ∈ acc.
Proof.
  revert acc. induction fields as [|f fields IH]; intros acc; simpl; [by right|].
  intros [Hin | Hin]%IH; [left; by right|].
  apply dict_set_keys in Hin as [-> | Hin]; [left; by left | by right].
Qed.

Lemma fold_set_agree (params params' : dict) (fields : list string) (acc : dict) :
  (forall f, f ∈ fields -> dict_get f params' = dict_get f params) ->
  fold_left (fun args f => dict_set f (dict_get_default f params') args) fields acc
  = fold_left (fun args f => dict_set f (dict_get_default f params) args) fields acc.
Proof.
  revert acc. induction fields as [|f fields IH]; intros acc Hagree; simpl; [done|].
  unfold dict_get_default at 2. rewrite Hagree; [|by left].
  fold (dict_get_default f params). apply IH. intros g Hg. apply Hagree. by right.
Qed.

Lemma forallb_agree {A : Type} (p q : A -> bool) (l : list A) :
  (forall x, x ∈ l -> p x = q x) -> forallb p l = forallb q l.
Proof.
  induction l as [|x l IH]; intros H; simpl; [done|].
  rewrite H; [|by left]. rewrite IH; [done|]. intros y Hy. apply H. by right.
Qed.

Lemma map_agree {A B : Type} (g h : A -> B) (l : list A) :
  (forall x, x ∈ l -> g x = h x) -> map g l = map h l.
Proof.
  induction l as [|x l IH]; intros H; simpl; [done|].
  rewrite H; [|by left]. rewrite IH; [done|]. intros y Hy. apply H. by right.
Qed.

(** The keywords the loop collects are the declared fields and no other:
    the class is called as it expects. *)
Lemma exact_keywords_fold (Model : BaseModel) (params : dict) :
  exact_keywords Model
    (fold_left (fun args f => dict_set f (dict_get_default f params) args)
       (__fields__ Model) [])
  = true.
Proof.
  unfold exact_keywords. apply andb_true_intro. split.
  - apply forallb_forall. intros f Hf%list_elem_of_In.
    unfold dict_mem. by rewrite fold_set_present.
  - apply forallb_forall. intros kv Hkv%list_elem_of_In.
    apply bool_decide_eq_true.
    apply fold_set_keys in Hkv as [Hkv | Hkv]; [done | by apply elem_of_nil in Hkv].
Qed.

Lemma construct_fold (Model : BaseModel) (params : dict) :
  construct Model
    (fold_left (fun args f => dict_set f (dict_get_default f params) args)
       (__fields__ Model) [])
  = if forallb (fun f => check_field Model f (dict_get_default f params)) (__fields__ Model)
    then Ok (declared_fields Model params)
    else Raise (ValidationError (model_name Model)).
Proof.
  unfold construct, declared_fields. rewrite exact_keywords_fold.
  set (args := fold_left _ _ _).
  assert (Hargs : forall f, f ∈ __fields__ Model ->
                    dict_get_default f args = dict_get_default f params).
  { intros f Hf. unfold dict_get_default at 1. subst args.
    by rewrite fold_set_present. }
  rewrite (forallb_agree _ (fun f => check_field Model f (dict_get_default f params)));
    [|by intros f Hf; rewrite Hargs].
  rewrite (map_agree _ (fun f => (f, dict_get_default f params)));
    [done | by intros f Hf; rewrite Hargs].
Qed.

Lemma construct_extract (Model : BaseModel) (params : dict) :
  (args ← extract_args Model (Plain (JDict params)); construct Model args)
  = if forallb (fun f => check_field Model f (dict_get_default f params)) (__fields__ Model)
    then Ok (declared_fields Model params)
    else Raise (ValidationError (model_name Model)).
Proof.
  unfold extract_args. rewrite extract_args_fold. simpl. apply construct_fold.
Qed.

Lemma declared_fields_get (Model : BaseModel) (params : dict) (k : string) :
  dict_get k (declared_fields Model params)
  = if decide (k ∈ __fields__ Model) then Some (dict_get_default k params) else None.
Proof.
  unfold declared_fields.
  induction (__fields__ Model) as [|f fields IH].
  - destruct (decide (k ∈ [])) as [H|H]; [by apply elem_of_nil in H | done].
  - cbn [map dict_get]. destruct (String.eqb k f) eqn:E.
    + apply String.eqb_eq in E. subst f. rewrite decide_True; [done | by left].
    + rewrite IH. apply String.eqb_neq in E.
      destruct (decide (k ∈ fields)) as [H|H].
      * rewrite decide_True; [done | by right].
      * rewrite decide_False; [done|].
        intros [?|?]%elem_of_cons; done.
Qed.

Lemma declared_fields_keys (Model : BaseModel) (params : dict) :
  map fst (declared_fields Model params) = __fields__ Model.
Proof.
  unfold declared_fields. rewrite map_map. cbn. apply map_id.
Qed.

(** The factory on a description with a dict of parameters, once the class
    is found. *)
Lemma create_layer_found (_factories : gmap key BaseModel) (data : raw) (params : dict)
    (Model : BaseModel) :
  lookup_factory _factories (raw_get_default "type" data) = Ok (Some Model) ->
  raw_get "parameters" data = Some (Plain (JDict params)) ->
  create_layer _factories data =
    if forallb (fun f => check_field Model f (dict_get_default f params)) (__fields__ Model)
    then l ← JGISLayer_init (raw_get_default "name" data)
               (default (Plain (JBool true)) (raw_get "visible" data))
               (raw_get_default "type" data)
               (declared_fields Model params) (raw_get_default "filters" data);
         Ok (Some l)
    else Raise (ValidationError (model_name Model)).
Proof.
  intros Hfound Hparams.
  unfold create_layer, raw_getitem. rewrite Hfound, Hparams. simpl.
  pose proof (construct_extract Model params) as Hc.
  destruct (extract_args Model (Plain (JDict params))) as [args|e]; simpl in *.
  - rewrite Hc. by destruct (forallb _ _).
  - destruct (forallb _ _); [discriminate Hc | by injection Hc as ->].
Qed.

Lemma create_source_found (_factories : gmap key BaseModel) (data : raw) (params : dict)
    (Model : BaseModel) :
  lookup_factory _factories (raw_get_default "type" data) = Ok (Some Model) ->
  raw_get "parameters" data = Some (Plain (JDict params)) ->
  create_source _factories data =
    if forallb (fun f => check_field Model f (dict_get_default f params)) (__fields__ Model)
    then s ← JGISSource_init (raw_get_default "name" data) (raw_get_default "type" data)
               (declared_fields Model params);
         Ok (Some s)
    else Raise (ValidationError (model_name Model)).
Proof.
  intros Hfound Hparams.
  unfold create_source, raw_getitem. rewrite Hfound, Hparams. simpl.
  pose proof (construct_extract Model params) as Hc.
  destruct (extract_args Model (Plain (JDict params))) as [args|e]; simpl in *.
  - rewrite Hc. by destruct (forallb _ _).
  - destruct (forallb _ _); [discriminate Hc | by injection Hc as ->].
Qed.

Lemma JGISLayer_init_parameters (name visible object_type filters : pyobj)
    (parameters : dict) (l : JGISLayer) :
  JGISLayer_init name visible object_type parameters filters = Ok l ->
  layer_parameters l = parameters /\ layer_filters l = filters /\
  str_validator name = Some (layer_name l) /\
  bool_validator visible = Some (layer_visible l) /\
  LayerType_validator object_type = Some (layer_type l).
Proof.
  unfold JGISLayer_init.
  destruct (str_validator name) as [n|]; [|discriminate].
  destruct (bool_validator visible) as [v|]; [|discriminate].
  destruct (LayerType_validator object_type) as [t|]; [|discriminate].
  by intros [= <-].
Qed.

Lemma JGISSource_init_parameters (name object_type : pyobj)
    (parameters : dict) (s : JGISSource) :
  JGISSource_init name object_type parameters = Ok s ->
  source_parameters s = parameters /\
  str_validator name = Some (source_name s) /\
  SourceType_validator object_type = Some (source_type s).
Proof.
  unfold JGISSource_init.
  destruct (str_validator name) as [n|]; [|discriminate].
  destruct (SourceType_validator object_type) as [t|]; [|discriminate].
  by intros [= <-].
Qed.

Lemma create_layer_parameters (_factories : gmap key BaseModel) (data : raw)
    (params : dict) (Model : BaseModel) (l : JGISLayer) :
  lookup_factory _factories (raw_get_default "type" data) = Ok (Some Model) ->
  raw_get "parameters" data = Some (Plain (JDict params)) ->
  create_layer _factories data = Ok (Some l) ->
  layer_parameters l = declared_fields Model params /\
  layer_filters l = raw_get_default "filters" data /\
  str_validator (raw_get_default "name" data) = Some (layer_name l) /\
  bool_validator (default (Plain (JBool true)) (raw_get "visible" data))
    = Some (layer_visible l) /\
  LayerType_validator (raw_get_default "type" data) = Some (layer_type l).
Proof.
  intros Hfound Hparams Hok.
  rewrite (create_layer_found _ _ _ _ Hfound Hparams) in Hok.
  destruct (forallb _ _); [|discriminate].
  destruct (JGISLayer_init _ _ _ _ _) as [l'|e] eqn:Hinit; [|discriminate].
  injection Hok as <-. by apply JGISLayer_init_parameters in Hinit.
Qed.

Lemma create_source_parameters (_factories : gmap key BaseModel) (data : raw)
    (params : dict) (Model : BaseModel) (s : JGISSource) :
  lookup_factory _factories (raw_get_default "type" data) = Ok (Some Model) ->
  raw_get "parameters" data = Some (Plain (JDict params)) ->
  create_source _factories data = Ok (Some s) ->
  source_parameters s = declared_fields Model params /\
  str_validator (raw_get_default "name" data) = Some (source_name s) /\
  SourceType_validator (raw_get_default "type" data) = Some (source_type s).
Proof.
  intros Hfound Hparams Hok.
  rewrite (create_source_found _ _ _ _ Hfound Hparams) in Hok.
  destruct (forallb _ _); [|discriminate].
  destruct (JGISSource_init _ _ _) as [s'|e] eqn:Hinit; [|discriminate].
  injection Hok as <-. by apply JGISSource_init_parameters in Hinit.
Qed.

(** C3. For a raw description whose type tag is registered, with [Model]
    the class found, the factory calls [Model] with exactly the fields the
    class declares: a declared field is passed the value [raw.parameters]
    gives it, or [None] when the bag has no such key, and a key the class
    does not declare is not passed at all.  This holds of [create_layer]
    and of [create_source], which go on with what the class makes of these
    keywords.  So the parameters of the descriptor have the declared
    fields as their keys and no other, and undeclared keys play no part:
    two descriptions that agree on the declared fields get the same answer
    from the factory, whatever else their bags hold, so an extra key is
    dropped without any error. *)
Theorem factory_keeps_declared_fields
    (_factories : gmap key BaseModel) (data : raw) (params : dict) (Model : BaseModel) :
  lookup_factory _factories (raw_get_default "type" data) = Ok (Some Model) ->
  raw_get "parameters" data = Some (Plain (JDict params)) ->
  exists args,
    extract_args Model (Plain (JDict params)) = Ok args /\
    (forall f, f ∈ __fields__ Model ->
       dict_get f args = Some (default JNull (dict_get f params))) /\
    (forall k, k ∉ __fields__ Model -> dict_get k args = None) /\
    create_layer _factories data
      = (obj_params ← construct Model args;
         l ← JGISLayer_init (raw_get_default "name" data)
               (default (Plain (JBool true)) (raw_get "visible" data))
               (raw_get_default "type" data) obj_params
               (raw_get_default "filters" data);
         Ok (Some l)) /\
    create_source _factories data
      = (obj_params ← construct Model args;
         s ← JGISSource_init (raw_get_default "name" data)
               (raw_get_default "type" data) obj_params;
         Ok (Some s)) /\
    (forall l, create_layer _factories data = Ok (Some l) ->
       map fst (layer_parameters l) = __fields__ Model) /\
    (forall s, create_source _factories data = Ok (Some s) ->
       map fst (source_parameters s) = __fields__ Model) /\
    (forall data' params',
       raw_get "parameters" data' = Some (Plain (JDict params')) ->
       (forall k, k ≠ "parameters" -> raw_get k data' = raw_get k data) ->
       (forall f, f ∈ __fields__ Model -> dict_get f params' = dict_get f params) ->
       create_layer _factories data' = create_layer _factories data /\
       create_source _factories data' = create_source _factories data).
Proof.
  intros Hfound Hparams.
  set (collect := fun ps : dict =>
         fold_left (fun args f => dict_set f (dict_get_default f ps) args)
           (__fields__ Model) []).
  assert (Hloop : forall ps, extract_args Model (Plain (JDict ps)) = Ok (collect ps)).
  { intros ps. unfold extract_args. by rewrite extract_args_fold. }
  assert (Hlayer : forall d ps,
            lookup_factory _factories (raw_get_default "type" d) = Ok (Some Model) ->
            raw_get "parameters" d = Some (Plain (JDict ps)) ->
            create_layer _factories d
            = (obj_params ← construct Model (collect ps);
               l ← JGISLayer_init (raw_get_default "name" d)
                     (default (Plain (JBool true)) (raw_get "visible" d))
                     (raw_get_default "type" d) obj_params (raw_get_default "filters" d);
               Ok (Some l))).
  { intros d ps Hd Hps. unfold create_layer, raw_getitem.
    by rewrite Hd, Hps; cbn; rewrite Hloop. }
  assert (Hsource : forall d ps,
            lookup_factory _factories (raw_get_default "type" d) = Ok (Some Model) ->
            raw_get "parameters" d = Some (Plain (JDict ps)) ->
            create_source _factories d
            = (obj_params ← construct Model (collect ps);
               s ← JGISSource_init (raw_get_default "name" d)
                     (raw_get_default "type" d) obj_params;
               Ok (Some s))).
  { intros d ps Hd Hps. unfold create_source, raw_getitem.
    by rewrite Hd, Hps; cbn; rewrite Hloop. }
  exists (collect params).
  split; [apply Hloop|]. split; [|split; [|split; [|split; [|split; [|split]]]]].
  - intros f Hf. subst collect. cbn beta. rewrite fold_set_present; [|done].
    unfold dict_get_default. by destruct (dict_get f params).
  - intros k Hk. subst collect. cbn beta. by rewrite fold_set_absent.
  - by apply Hlayer.
  - by apply Hsource.
  - intros l Hok.
    destruct (create_layer_parameters _ _ _ _ _ Hfound Hparams Hok) as [-> _].
    apply declared_fields_keys.
  - intros s Hok.
    destruct (create_source_parameters _ _ _ _ _ Hfound Hparams Hok) as [-> _].
    apply declared_fields_keys.
  - intros data' params' Hparams' Hsame Hagree.
    assert (Hget : forall k, k ≠ "parameters" ->
              raw_get_default k data' = raw_get_default k data).
    { intros k Hk. unfold raw_get_default. by rewrite Hsame. }
    assert (Hfound' : lookup_factory _factories (raw_get_default "type" data')
                      = Ok (Some Model)).
    { by rewrite Hget. }
    assert (Hcollect : collect params' = collect params).
    { subst collect. cbn beta. by apply fold_set_agree. }
    rewrite (Hlayer data' params' Hfound' Hparams'), (Hlayer data params Hfound Hparams).
    rewrite (Hsource data' params' Hfound' Hparams'), (Hsource data params Hfound Hparams).
    rewrite Hcollect, !Hget, Hsame; done.
Qed.

Lemma factory_keeps_declared_fields_witness :
  let corners :=
    JList [JList [JFloat (-80.425); JFloat 46.437]; JList [JFloat (-71.516); JFloat 46.437];
           JList [JFloat (-71.516); JFloat 37.936]; JList [JFloat (-80.425); JFloat 37.936]] in
  let layer :=
    [("type", OfLayerType RasterLayer); ("name", Plain (JStr "Base"));
     ("parameters", Plain (JDict [("colour", JStr "red"); ("source", JStr "s1")]))] in
  let source :=
    [("type", OfSourceType ImageSource); ("name", Plain (JStr "Radar"));
     ("parameters",
      Plain (JDict [("coordinates", corners); ("credit", JStr "NOAA");
                    ("url", JStr "https://img.example/radar.gif")]))] in
  (exists l,
     create_layer (OBJECT_FACTORY Sample.objects) layer = Ok (Some l) /\
     map fst (layer_parameters l) = ["source"; "opacity"] /\
     dict_get "source" (layer_parameters l) = Some (JStr "s1") /\
     dict_get "colour" (layer_parameters l) = None) /\
  (exists s,
     create_source (OBJECT_FACTORY Sample.objects) source = Ok (Some s) /\
     map fst (source_parameters s) = ["url"; "coordinates"] /\
     dict_get "url" (source_parameters s) = Some (JStr "https://img.example/radar.gif") /\
     dict_get "credit" (source_parameters s) = None).
Proof.
  intros corners layer source. split.
  - destruct (factory_keeps_declared_fields (OBJECT_FACTORY Sample.objects) layer
                [("colour", JStr "red"); ("source", JStr "s1")]
                (IRasterLayer Sample.objects))
      as (args & _ & _ & _ & _ & _ & Hkeys & _); [reflexivity | reflexivity |].
    assert (Hl : exists l,
              create_layer (OBJECT_FACTORY Sample.objects) layer = Ok (Some l) /\
              dict_get "source" (layer_parameters l) = Some (JStr "s1") /\
              dict_get "colour" (layer_parameters l) = None).
    { eexists. repeat split; vm_compute; reflexivity. }
    destruct Hl as (l & Hl & Hsource & Hcolour). exists l.
    split; [exact Hl|]. split; [exact (Hkeys l Hl)|]. split; assumption.
  - destruct (factory_keeps_declared_fields (OBJECT_FACTORY Sample.objects) source
                [("coordinates", corners); ("credit", JStr "NOAA");
                 ("url", JStr "https://img.example/radar.gif")]
                (IImageSource Sample.objects))
      as (args & _ & _ & _ & _ & _ & _ & Hkeys & _); [reflexivity | reflexivity |].
    assert (Hs : exists s,
              create_source (OBJECT_FACTORY Sample.objects) source = Ok (Some s) /\
              dict_get "url" (source_parameters s)
                = Some (JStr "https://img.example/radar.gif") /\
              dict_get "credit" (source_parameters s) = None).
    { eexists. repeat split; vm_compute; reflexivity. }
    destruct Hs as (s & Hs & Hurl & Hcredit). exists s.
    split; [exact Hs|]. split; [exact (Hkeys s Hs)|]. split; assumption.
Defined.

(** *** Filters *)

(** Steps of a method run: unfold the monad and compute. *)
Ltac step :=
  unfold store_layer, get_doc, put_doc, lift, raise;
  unfold mbind, mret, M_bind, M_ret, result_bind, result_ret; cbn.

Lemma dict_mem_false (k : string) (d : dict) :
  dict_get k d = None -> dict_mem k d = false.
Proof. unfold dict_mem. by intros ->. Qed.

Lemma dict_mem_true (k : string) (d : dict) (v : json) :
  dict_get k d = Some v -> dict_mem k d = true.
Proof. unfold dict_mem. by intros ->. Qed.










(** *** The builders *)

Lemma add_source_then_layer_ok (objects : Objects) (uuid4 : nat -> string)
    (source : raw) (layer : string -> raw) (st st' : State) (_id : string) :
  add_source_then_layer objects uuid4 source layer st = (Ok _id, st') ->
  let source_id := uuid4 (uuid_calls st) in
  exists s l,
    create_source (OBJECT_FACTORY objects) source = Ok (Some s) /\
    create_layer (OBJECT_FACTORY objects) (layer source_id) = Ok (Some l) /\
    _id = uuid4 (S (uuid_calls st)) /\
    _sources (ydoc st') = <[source_id := JGISSource_json s]> (_sources (ydoc st)) /\
    _layers (ydoc st') = <[_id := JGISLayer_json l]> (_layers (ydoc st)) /\
    _layerTree (ydoc st') = (_layerTree (ydoc st) ++ [JStr _id])%list.
Proof.
  intros Hrun source_id. unfold add_source_then_layer in Hrun.
  apply bind_ok in Hrun as (new_source & st1 & Hsrc & Hrun).
  apply lift_ok in Hsrc as [Hsrc ->].
  apply bind_ok in Hrun as (sid & st2 & Hadd & Hrun).
  destruct new_source as [s|]; [|discriminate Hadd].
  rewrite _add_source_some in Hadd. injection Hadd as <- <-.
  apply bind_ok in Hrun as (new_layer & st3 & Hlay & Hrun).
  apply lift_ok in Hlay as [Hlay ->].
  destruct new_layer as [l|]; [|discriminate Hrun].
  rewrite _add_layer_some in Hrun. injection Hrun as <- <-.
  exists s, l. cbn. done.
Qed.

Lemma OBJECT_FACTORY_layers (objects : Objects) :
  lookup_factory (OBJECT_FACTORY objects) (OfLayerType RasterLayer)
    = Ok (Some (IRasterLayer objects)) /\
  lookup_factory (OBJECT_FACTORY objects) (OfLayerType VectorLayer)
    = Ok (Some (IVectorLayer objects)) /\
  lookup_factory (OBJECT_FACTORY objects) (OfLayerType VectorTileLayer)
    = Ok (Some (IVectorTileLayer objects)).
Proof. repeat split; vm_compute; reflexivity. Qed.

Lemma OBJECT_FACTORY_sources (objects : Objects) :
  lookup_factory (OBJECT_FACTORY objects) (OfSourceType ImageSource)
    = Ok (Some (IImageSource objects)) /\
  lookup_factory (OBJECT_FACTORY objects) (OfSourceType VideoSource)
    = Ok (Some (IVideoSource objects)).
Proof. repeat split; vm_compute; reflexivity. Qed.

Lemma name_in_elem (n : string) (names : list string) :
  name_in (Some n) names = true <-> n ∈ names.
Proof.
  unfold name_in. rewrite existsb_exists. split.
  - intros (x & Hx & E). apply String.eqb_eq in E. subst x.
    by apply list_elem_of_In.
  - intros H. exists n. split; [by apply list_elem_of_In | apply String.eqb_refl].
Qed.

(** C7. [add_geojson_layer] called with neither a path nor inline data, or
    with both, raises a [ValueError] (the spec's AmbiguousOrMissingInput)
    before it does anything else: the state after the failed call is the
    state before it, so [sources] and [layers] are untouched. *)
Theorem geojson_needs_exactly_one_input
    (objects : Objects) (uuid4 : nat -> string)
    (load_json_file : string -> result json)
    (path : option string) (data : option dict) (name type color : string)
    (opacity : json) (logical_op feature operator : option string) (value : json)
    (st : State) :
  (path = None /\ data = None) \/ (is_Some path /\ is_Some data) ->
  exists st',
    add_geojson_layer objects uuid4 load_json_file path data name type color opacity
        logical_op feature operator value st
      = (Raise (ValueError
                  (match path with
                   | None => "Cannot create a GeoJSON layer without data"
                   | Some _ => "Cannot set GeoJSON layer data and path at the same time"
                   end)), st') /\
    st' = st /\
    _sources (ydoc st') = _sources (ydoc st) /\
    _layers (ydoc st') = _layers (ydoc st) /\
    _layerTree (ydoc st') = _layerTree (ydoc st).
Proof.
  intros [[-> ->] | [[p ->] [d ->]]]; exists st; done.
Qed.

Lemma geojson_needs_exactly_one_input_witness :
  add_geojson_layer Sample.objects Sample.uuid4 Sample.load_json_file
      (Some "towns.json") (Some [("type", JStr "FeatureCollection")])
      "Towns" "circle" "#FF0000" (JInt 1) None None None JNull Sample.fresh
    = (Raise (ValueError "Cannot set GeoJSON layer data and path at the same time"),
       Sample.fresh) /\
  add_geojson_layer Sample.objects Sample.uuid4 Sample.load_json_file
      None None "Towns" "circle" "#FF0000" (JInt 1) None None None JNull Sample.fresh
    = (Raise (ValueError "Cannot create a GeoJSON layer without data"), Sample.fresh).
Proof.
  split.
  - destruct (geojson_needs_exactly_one_input Sample.objects Sample.uuid4
                Sample.load_json_file (Some "towns.json")
                (Some [("type", JStr "FeatureCollection")])
                "Towns" "circle" "#FF0000" (JInt 1) None None None JNull Sample.fresh)
      as (st' & Hrun & -> & _).
    + right. split; eexists; reflexivity.
    + exact Hrun.
  - destruct (geojson_needs_exactly_one_input Sample.objects Sample.uuid4
                Sample.load_json_file None None
                "Towns" "circle" "#FF0000" (JInt 1) None None None JNull Sample.fresh)
      as (st' & Hrun & -> & _).
    + left. split; reflexivity.
    + exact Hrun.
Defined.

(** C8. In [add_vectortile_layer], with [names] the sub-layers the source
    exposes: when no sub-layer is named and [names] has exactly one entry,
    the call is the call that names that entry, and it goes on to the
    factory with a raw layer whose [sourceLayer] is that entry.  When the
    named sub-layer is not in [names], or none is named and [names] does not
    have exactly one entry, the call raises ["source_layer should be one of
    ..."] with the state untouched: no source and no layer has been added. *)
Theorem vectortile_source_layer_is_checked
    (objects : Objects) (uuid4 : nat -> string)
    (get_source_layer_names : string -> result (list string))
    (url name attribution : string) (min_zoom max_zoom : Z) (type color : string)
    (opacity : json) (logical_op feature operator : option string) (value : json)
    (st : State) (names : list string) :
  get_source_layer_names url = Ok names ->
  let run := fun source_layer =>
    add_vectortile_layer objects uuid4 get_source_layer_names url name source_layer
      attribution min_zoom max_zoom type color opacity logical_op feature operator
      value st in
  let refused :=
    (Raise (ValueError ("source_layer should be one of " ++ repr_names names)), st) in
  (forall only, names = [only] ->
     run None = run (Some only) /\
     exists source layer,
       run None = add_source_then_layer objects uuid4 source layer st /\
       forall source_id, exists ps,
         raw_get "parameters" (layer source_id) = Some (Plain (JDict ps)) /\
         dict_get "sourceLayer" ps = Some (JStr only)) /\
  (forall n, n ∉ names -> run (Some n) = refused) /\
  (List.length names ≠ 1 -> run None = refused).
Proof.
  intros Hnames run refused. subst run refused. cbv beta.
  assert (Hlift : lift (get_source_layer_names url) st = (Ok names, st)).
  { unfold lift. by rewrite Hnames. }
  unfold add_vectortile_layer.
  split; [|split].
  - intros only ->. split.
    + by rewrite !(bind_run _ _ _ _ _ Hlift).
    + eexists _, (fun source_id => _). split.
      * rewrite (bind_run _ _ _ _ _ Hlift).
        cbn [name_in existsb]. rewrite String.eqb_refl. cbn [orb negb].
        unfold add_source_then_layer. reflexivity.
      * intros source_id. eexists. split; reflexivity.
  - intros n Hn. rewrite (bind_run _ _ _ _ _ Hlift).
    assert (Hout : name_in (Some n) names = false).
    { apply not_true_is_false. by rewrite name_in_elem. }
    rewrite Hout. reflexivity.
  - intros Hlen. rewrite (bind_run _ _ _ _ _ Hlift).
    destruct names as [|a [|b names]]; [reflexivity | by destruct Hlen | reflexivity].
Qed.

Lemma vectortile_source_layer_is_checked_witness :
  let run := fun source_layer =>
    add_vectortile_layer Sample.objects Sample.uuid4 Sample.get_source_layer_names
      "https://tiles.example/{z}/{x}/{y}.pbf" "Rivers" source_layer "" 0 24
      "line" "#FF0000" (JInt 1) None None None JNull Sample.fresh in
  run None = run (Some "water") /\
  run (Some "roads")
    = (Raise (ValueError "source_layer should be one of ['water']"), Sample.fresh).
Proof.
  intros run.
  destruct (vectortile_source_layer_is_checked Sample.objects Sample.uuid4
              Sample.get_source_layer_names
              "https://tiles.example/{z}/{x}/{y}.pbf" "Rivers" "" 0 24
              "line" "#FF0000" (JInt 1) None None None JNull Sample.fresh ["water"])
    as (Hauto & Hrefused & _).
  - reflexivity.
  - split.
    + apply (Hauto "water"). reflexivity.
    + apply Hrefused. rewrite list_elem_of_singleton. discriminate.
Defined.

(** What a builder leaves in the document when it returns: the layer's
    record under the identifier returned, with the filters it was given. *)
Ltac layer_stored Hrun :=
  let s := fresh "s" in
  let l := fresh "l" in
  let Hl := fresh "Hl" in
  let Hlayers := fresh "Hlayers" in
  let Hfilters := fresh "Hfilters" in
  apply add_source_then_layer_ok in Hrun as (s & l & _ & Hl & _ & _ & Hlayers & _);
  exists l; split;
  [ rewrite Hlayers; apply lookup_insert_eq
  | eapply create_layer_parameters in Hl as (_ & Hfilters & _);
    [exact Hfilters | apply OBJECT_FACTORY_layers | reflexivity] ].

Lemma vectortile_layer_stored
    (objects : Objects) (uuid4 : nat -> string)
    (get_source_layer_names : string -> result (list string))
    (url name : string) (source_layer : option string) (attribution : string)
    (min_zoom max_zoom : Z) (type color : string)
    (opacity : json) (logical_op feature operator : option string) (value : json)
    (st st' : State) (_id : string) :
  add_vectortile_layer objects uuid4 get_source_layer_names url name source_layer
      attribution min_zoom max_zoom type color opacity logical_op feature operator
      value st = (Ok _id, st') ->
  exists l,
    _layers (ydoc st') !! _id = Some (JGISLayer_json l) /\
    layer_filters l = Plain (initial_filters logical_op feature operator value).
Proof.
  intros Hrun. unfold add_vectortile_layer in Hrun.
  apply bind_ok in Hrun as (names & st1 & Hnames & Hrun).
  apply lift_ok in Hnames as [Hnames ->]. cbv zeta in Hrun.
  destruct (negb (name_in _ names)); [discriminate Hrun|].
  layer_stored Hrun.
Qed.

Lemma geojson_layer_stored
    (objects : Objects) (uuid4 : nat -> string)
    (load_json_file : string -> result json)
    (path : option string) (data : option dict) (name type color : string)
    (opacity : json) (logical_op feature operator : option string) (value : json)
    (st st' : State) (_id : string) :
  add_geojson_layer objects uuid4 load_json_file path data name type color opacity
      logical_op feature operator value st = (Ok _id, st') ->
  exists l,
    _layers (ydoc st') !! _id = Some (JGISLayer_json l) /\
    layer_filters l = Plain (initial_filters logical_op feature operator value).
Proof.
  intros Hrun. unfold add_geojson_layer in Hrun.
  destruct path as [p|], data as [d|]; try discriminate Hrun;
    apply bind_ok in Hrun as (parameters & st1 & _ & Hrun);
    layer_stored Hrun.
Qed.

(** C9. A layer created by [add_vectortile_layer] or [add_geojson_layer]
    with none of [logical_op], [feature], [operator] and [value] supplied
    still carries a [filters] field: its [appliedFilters] is a list of
    exactly one predicate whose [feature], [operator] and [value] are all
    [None], and its [logicalOp] is [None].  Such a layer is never stored
    without a [filters] field. *)
Theorem builders_attach_unset_filter
    (objects : Objects) (uuid4 : nat -> string)
    (get_source_layer_names : string -> result (list string))
    (load_json_file : string -> result json)
    (st st' : State) (_id : string) :
  let unset :=
    JDict [("appliedFilters",
            JList [JDict [("feature", JNull); ("operator", JNull); ("value", JNull)]]);
           ("logicalOp", JNull)] in
  (forall url name source_layer attribution min_zoom max_zoom type color opacity,
     add_vectortile_layer objects uuid4 get_source_layer_names url name source_layer
         attribution min_zoom max_zoom type color opacity None None None JNull st
       = (Ok _id, st') ->
     exists layer,
       _layers (ydoc st') !! _id = Some layer /\
       dict_get "filters" layer = Some unset) /\
  (forall path data name type color opacity,
     add_geojson_layer objects uuid4 load_json_file path data name type color opacity
         None None None JNull st
       = (Ok _id, st') ->
     exists layer,
       _layers (ydoc st') !! _id = Some layer /\
       dict_get "filters" layer = Some unset).
Proof.
  intros unset. split.
  - intros url name source_layer attribution min_zoom max_zoom type color opacity Hrun.
    apply vectortile_layer_stored in Hrun as (l & Hstored & Hfilters).
    exists (JGISLayer_json l). split; [exact Hstored|].
    cbn. by rewrite Hfilters.
  - intros path data name type color opacity Hrun.
    apply geojson_layer_stored in Hrun as (l & Hstored & Hfilters).
    exists (JGISLayer_json l). split; [exact Hstored|].
    cbn. by rewrite Hfilters.
Qed.

Lemma builders_attach_unset_filter_witness :
  let unset :=
    JDict [("appliedFilters",
            JList [JDict [("feature", JNull); ("operator", JNull); ("value", JNull)]]);
           ("logicalOp", JNull)] in
  (exists st' layer,
     add_vectortile_layer Sample.objects Sample.uuid4 Sample.get_source_layer_names
         "https://tiles.example/{z}/{x}/{y}.pbf" "Rivers" None "" 0 24
         "line" "#FF0000" (JInt 1) None None None JNull Sample.fresh
       = (Ok "id-|", st') /\
     _layers (ydoc st') !! "id-|" = Some layer /\
     dict_get "filters" layer = Some unset) /\
  (exists st' layer,
     add_geojson_layer Sample.objects Sample.uuid4 Sample.load_json_file
         (Some "towns.json") None "Towns" "circle" "#FF0000" (JInt 1)
         None None None JNull Sample.fresh
       = (Ok "id-|", st') /\
     _layers (ydoc st') !! "id-|" = Some layer /\
     dict_get "filters" layer = Some unset).
Proof.
  intros unset. split.
  - assert (Hrun : exists st',
              add_vectortile_layer Sample.objects Sample.uuid4
                  Sample.get_source_layer_names
                  "https://tiles.example/{z}/{x}/{y}.pbf" "Rivers" None "" 0 24
                  "line" "#FF0000" (JInt 1) None None None JNull Sample.fresh
                = (Ok "id-|", st')).
    { eexists. vm_compute. reflexivity. }
    destruct Hrun as [st' Hrun]. exists st'.
    destruct (builders_attach_unset_filter Sample.objects Sample.uuid4
                Sample.get_source_layer_names Sample.load_json_file
                Sample.fresh st' "id-|") as [Hvt _].
    destruct (Hvt _ _ _ _ _ _ _ _ _ Hrun) as (layer & Hstored & Hfilters).
    exists layer. repeat split; assumption.
  - assert (Hrun : exists st',
              add_geojson_layer Sample.objects Sample.uuid4 Sample.load_json_file
                  (Some "towns.json") None "Towns" "circle" "#FF0000" (JInt 1)
                  None None None JNull Sample.fresh
                = (Ok "id-|", st')).
    { eexists. vm_compute. reflexivity. }
    destruct Hrun as [st' Hrun]. exists st'.
    destruct (builders_attach_unset_filter Sample.objects Sample.uuid4
                Sample.get_source_layer_names Sample.load_json_file
                Sample.fresh st' "id-|") as [_ Hgj].
    destruct (Hgj _ _ _ _ _ _ Hrun) as (layer & Hstored & Hfilters).
    exists layer. repeat split; assumption.
Defined.

(** The layer stored by the image and video builders, which hand the
    factory the same raw layer. *)
Lemma raster_layer_over_source
    (objects : Objects) (uuid4 : nat -> string) (source : raw)
    (name : string) (opacity : json) (t : SourceType) (Model : BaseModel)
    (st st' : State) (_id : string) :
  raw_get "type" source = Some (OfSourceType t) ->
  lookup_factory (OBJECT_FACTORY objects) (OfSourceType t) = Ok (Some Model) ->
  (exists params, raw_get "parameters" source = Some (Plain (JDict params))) ->
  add_source_then_layer objects uuid4 source
      (fun source_id =>
         [("type", OfLayerType RasterLayer);
          ("name", Plain (JStr name));
          ("visible", Plain (JBool true));
          ("parameters", Plain (JDict (dict_literal
             [("source", JStr source_id); ("opacity", opacity)])))])
      st = (Ok _id, st') ->
  let source_id := uuid4 (uuid_calls st) in
  exists stored_source layer params,
    _sources (ydoc st') !! source_id = Some stored_source /\
    dict_get "type" stored_source = Some (JStr (SourceType_value t)) /\
    _layers (ydoc st') !! _id = Some layer /\
    dict_get "type" layer = Some (JStr "RasterLayer") /\
    dict_get "visible" layer = Some (JBool true) /\
    dict_get "name" layer = Some (JStr name) /\
    dict_get "parameters" layer = Some (JDict params) /\
    params = map (fun f => (f, dict_get_default f
                                 [("source", JStr source_id); ("opacity", opacity)]))
               (__fields__ (IRasterLayer objects)) /\
    (__fields__ (IRasterLayer objects) = ["source"; "opacity"] ->
     params = [("source", JStr source_id); ("opacity", opacity)]).
Proof.
  intros Htype Hfound [sparams Hsparams] Hrun source_id.
  assert (Hdefault : raw_get_default "type" source = OfSourceType t).
  { unfold raw_get_default. by rewrite Htype. }
  apply add_source_then_layer_ok in Hrun
    as (s & l & Hs & Hl & _ & Hsources & Hlayers & _).
  eapply create_source_parameters in Hs as (_ & _ & Htag);
    [|by rewrite Hdefault|done].
  rewrite Hdefault in Htag. injection Htag as Htag.
  eapply create_layer_parameters in Hl as (Hparams & _ & Hname & Hvisible & Hltag);
    [|apply OBJECT_FACTORY_layers | reflexivity].
  injection Hname as Hname. injection Hvisible as Hvisible. injection Hltag as Hltag.
  exists (JGISSource_json s), (JGISLayer_json l), (layer_parameters l).
  split; [rewrite Hsources; apply lookup_insert_eq|].
  split; [cbn; by rewrite <- Htag|].
  split; [rewrite Hlayers; apply lookup_insert_eq|].
  split; [cbn; by rewrite <- Hltag|].
  split; [cbn; by rewrite <- Hvisible|].
  split; [cbn; by rewrite <- Hname|].
  split; [reflexivity|].
  split; [exact Hparams|].
  intros Hfields. rewrite Hparams. unfold declared_fields. rewrite Hfields. reflexivity.
Qed.

(** C10. The layer that [add_image_layer] and [add_video_layer] put in the
    document is a raster layer: its [type] is [RasterLayer] for both, it is
    visible, and its parameters are what [IRasterLayer] keeps of the new
    source's id and the given opacity, which is exactly those two when the
    class declares [source] and [opacity].  Only the stored source tells an
    image ([ImageSource]) from a video ([VideoSource]). *)
Theorem image_and_video_layers_are_raster
    (objects : Objects) (uuid4 : nat -> string)
    (name : string) (opacity : json) (st st' : State) (_id : string) :
  let source_id := uuid4 (uuid_calls st) in
  let raster_over := fun source_type : SourceType =>
    exists source layer params,
      _sources (ydoc st') !! source_id = Some source /\
      dict_get "type" source = Some (JStr (SourceType_value source_type)) /\
      _layers (ydoc st') !! _id = Some layer /\
      dict_get "type" layer = Some (JStr (LayerType_value RasterLayer)) /\
      dict_get "visible" layer = Some (JBool true) /\
      dict_get "name" layer = Some (JStr name) /\
      dict_get "parameters" layer = Some (JDict params) /\
      params = map (fun f => (f, dict_get_default f
                                   [("source", JStr source_id); ("opacity", opacity)]))
                 (__fields__ (IRasterLayer objects)) /\
      (__fields__ (IRasterLayer objects) = ["source"; "opacity"] ->
       params = [("source", JStr source_id); ("opacity", opacity)]) in
  (forall url coordinates,
     add_image_layer objects uuid4 url coordinates name opacity st = (Ok _id, st') ->
     raster_over ImageSource) /\
  (forall urls coordinates,
     add_video_layer objects uuid4 urls name coordinates opacity st = (Ok _id, st') ->
     raster_over VideoSource).
Proof.
  intros source_id raster_over. subst raster_over. cbv beta. split.
  - intros url coordinates Hrun. unfold add_image_layer in Hrun.
    destruct (is_none url || is_none coordinates); [discriminate Hrun|].
    eapply raster_layer_over_source in Hrun;
      [exact Hrun | reflexivity | apply OBJECT_FACTORY_sources | by eexists].
  - intros urls coordinates Hrun. unfold add_video_layer in Hrun.
    destruct (is_none urls || is_none coordinates); [discriminate Hrun|].
    eapply raster_layer_over_source in Hrun;
      [exact Hrun | reflexivity | apply OBJECT_FACTORY_sources | by eexists].
Qed.

Lemma image_and_video_layers_are_raster_witness :
  let corners :=
    JList [JList [JFloat (-80.425); JFloat 46.437]; JList [JFloat (-71.516); JFloat 46.437];
           JList [JFloat (-71.516); JFloat 37.936]; JList [JFloat (-80.425); JFloat 37.936]] in
  (exists st' source layer,
     add_image_layer Sample.objects Sample.uuid4 (JStr "https://img.example/radar.gif")
         corners "Radar" (JFloat 0.8) Sample.fresh
       = (Ok "id-|", st') /\
     _sources (ydoc st') !! "id-" = Some source /\
     dict_get "type" source = Some (JStr "ImageSource") /\
     _layers (ydoc st') !! "id-|" = Some layer /\
     dict_get "type" layer = Some (JStr "RasterLayer") /\
     dict_get "visible" layer = Some (JBool true) /\
     dict_get "parameters" layer
       = Some (JDict [("source", JStr "id-"); ("opacity", JFloat 0.8)])) /\
  (exists st' source layer,
     add_video_layer Sample.objects Sample.uuid4
         (JList [JStr "https://vid.example/drone.mp4"; JStr "https://vid.example/drone.webm"])
         "Drone" corners (JFloat 0.8) Sample.fresh
       = (Ok "id-|", st') /\
     _sources (ydoc st') !! "id-" = Some source /\
     dict_get "type" source = Some (JStr "VideoSource") /\
     _layers (ydoc st') !! "id-|" = Some layer /\
     dict_get "type" layer = Some (JStr "RasterLayer") /\
     dict_get "visible" layer = Some (JBool true) /\
     dict_get "parameters" layer
       = Some (JDict [("source", JStr "id-"); ("opacity", JFloat 0.8)])).
Proof.
  intros corners. split.
  - assert (Hrun : exists st',
              add_image_layer Sample.objects Sample.uuid4
                  (JStr "https://img.example/radar.gif") corners "Radar" (JFloat 0.8)
                  Sample.fresh
                = (Ok "id-|", st')).
    { eexists. vm_compute. reflexivity. }
    destruct Hrun as [st' Hrun]. exists st'.
    destruct (image_and_video_layers_are_raster Sample.objects Sample.uuid4
                "Radar" (JFloat 0.8) Sample.fresh st' "id-|") as [Himage _].
    destruct (Himage _ _ Hrun)
      as (source & layer & params & Hs & Hst & Hl & Hlt & Hv & _ & Hp & _ & Hexact).
    exists source, layer. rewrite Hp, (Hexact eq_refl). repeat split; assumption.
  - assert (Hrun : exists st',
              add_video_layer Sample.objects Sample.uuid4
                  (JList [JStr "https://vid.example/drone.mp4";
                          JStr "https://vid.example/drone.webm"])
                  "Drone" corners (JFloat 0.8) Sample.fresh
                = (Ok "id-|", st')).
    { eexists. vm_compute. reflexivity. }
    destruct Hrun as [st' Hrun]. exists st'.
    destruct (image_and_video_layers_are_raster Sample.objects Sample.uuid4
                "Drone" (JFloat 0.8) Sample.fresh st' "id-|") as [_ Hvideo].
    destruct (Hvideo _ _ Hrun)
      as (source & layer & params & Hs & Hst & Hl & Hlt & Hv & _ & Hp & _ & Hexact).
    exists source, layer. rewrite Hp, (Hexact eq_refl). repeat split; assumption.
Defined.

(** *** Construction *)

Lemma append_empty (s : string) : s ++ "" = s.
Proof.
  induction s as [|c s IH]; [reflexivity|].
  change (String c (s ++ "") = String c s). by rewrite IH.
Qed.

Lemma split_dot_dot_free (s : string) :
  dot_free s = true -> split_dot s = [s].
Proof.
  induction s as [|c s IH]; [done|].
  cbn [split_dot dot_free]. intros [Hc Hs]%andb_true_iff. apply negb_true_iff in Hc.
  rewrite Hc, (IH Hs). done.
Qed.

Lemma split_dot_piece (a rest : string) :
  dot_free a = true -> split_dot (a ++ String "."%char rest) = a :: split_dot rest.
Proof.
  induction a as [|c a IH]; [done|].
  simpl. intros [Hc Ha]%andb_true_iff.
  apply negb_true_iff in Hc. rewrite Hc, (IH Ha). done.
Qed.

(** X1. [_path_to_comm] takes as extension the piece between the first and
    the second dot of the file name, lowered, and nothing after it: a file
    name [stem.piece] or [stem.piece.more] is accepted exactly when [piece]
    is ["jgis"] in any case, so ["map.jgis.bak"] passes and ["map.v2.jgis"]
    is refused as unsupported.  An accepted path is returned normalised,
    with [createydoc] false. *)
Theorem path_to_comm_reads_the_second_piece
    (normalize_path Path_name : string -> string)
    (filePath stem piece tail : string) :
  Path_name (normalize_path filePath) = stem ++ String "."%char (piece ++ tail) ->
  dot_free stem = true ->
  dot_free piece = true ->
  tail = "" \/ (exists more, tail = String "."%char more) ->
  _path_to_comm normalize_path Path_name (Some filePath) =
    if String.eqb (lower piece) "jgis"
    then Ok [("path", JStr (normalize_path filePath)); ("format", JStr "text");
             ("contentType", JStr "jgis"); ("createydoc", JBool false)]
    else Raise (ValueError "File extension is not supported!").
Proof.
  intros Hname Hstem Hpiece Htail. unfold _path_to_comm. cbv zeta.
  rewrite Hname, (split_dot_piece _ _ Hstem).
  assert (Hsecond : split_dot (piece ++ tail) !! 0%nat = Some piece).
  { destruct Htail as [-> | [more ->]].
    - rewrite append_empty. by rewrite (split_dot_dot_free _ Hpiece).
    - by rewrite (split_dot_piece _ _ Hpiece). }
  replace ((stem :: split_dot (piece ++ tail)) !! 1%nat) with (Some piece)
    by (symmetry; exact Hsecond).
  by destruct (String.eqb (lower piece) "jgis").
Qed.

Lemma path_to_comm_reads_the_second_piece_witness :
  let run := _path_to_comm (fun p => p) (fun p => p) in
  run (Some "map.JGIS")
    = Ok [("path", JStr "map.JGIS"); ("format", JStr "text");
          ("contentType", JStr "jgis"); ("createydoc", JBool false)] /\
  run (Some "map.jgis.bak")
    = Ok [("path", JStr "map.jgis.bak"); ("format", JStr "text");
          ("contentType", JStr "jgis"); ("createydoc", JBool false)] /\
  run (Some "map.v2.jgis") = Raise (ValueError "File extension is not supported!").
Proof.
  intros run. split; [|split].
  - apply (path_to_comm_reads_the_second_piece (fun p => p) (fun p => p)
             "map.JGIS" "map" "JGIS" ""); [reflexivity | reflexivity | reflexivity |].
    by left.
  - apply (path_to_comm_reads_the_second_piece (fun p => p) (fun p => p)
             "map.jgis.bak" "map" "jgis" ".bak"); [reflexivity | reflexivity | reflexivity |].
    right. by exists "bak".
  - apply (path_to_comm_reads_the_second_piece (fun p => p) (fun p => p)
             "map.v2.jgis" "map" "v2" ".jgis"); [reflexivity | reflexivity | reflexivity |].
    right. by exists "jgis".
Defined.

(** X2. A path whose file name has no dot makes [_path_to_comm] raise
    ["Can not detect file extension!"]: the missing second piece is caught
    inside the [try].  Without a path nothing is checked: the metadata has
    [path], [format] and [contentType] unset and [createydoc] true. *)
Theorem path_to_comm_needs_a_dot
    (normalize_path Path_name : string -> string) (filePath : string) :
  dot_free (Path_name (normalize_path filePath)) = true ->
  _path_to_comm normalize_path Path_name (Some filePath)
    = Raise (ValueError "Can not detect file extension!") /\
  _path_to_comm normalize_path Path_name None
    = Ok [("path", JNull); ("format", JNull); ("contentType", JNull);
          ("createydoc", JBool true)].
Proof.
  intros Hfree. split; [|reflexivity].
  unfold _path_to_comm. cbv zeta. by rewrite (split_dot_dot_free _ Hfree).
Qed.

Lemma path_to_comm_needs_a_dot_witness :
  _path_to_comm (fun p => p) (fun p => p) (Some "README")
    = Raise (ValueError "Can not detect file extension!").
Proof.
  apply (path_to_comm_needs_a_dot (fun p => p) (fun p => p) "README"). reflexivity.
Defined.

Lemma lookup_set_option (key key' : string) (value : option json)
    (options : gmap string json) :
  set_option key value options !! key' =
    if decide (key = key') then applied value (options !! key') else options !! key'.
Proof.
  unfold set_option, applied. destruct value as [v|].
  - rewrite lookup_insert. by destruct (decide (key = key')).
  - by destruct (decide (key = key')).
Qed.

(** X3. [GISDocument.__init__] applies the view options only to a document
    opened without a path.  With a path the shared document is left exactly
    as it was loaded, whatever options are passed, and the metadata says
    [createydoc] false.  Without a path every option that is given is stored
    under its name, the others and every other entry of [options] keep what
    they had, and [layers], [sources] and [layerTree] are not touched. *)
Theorem init_applies_options_without_path_only
    (normalize_path Path_name : string -> string) (loaded : GISDocument)
    (latitude longitude zoom extent bearing pitch : option json)
    (projection : option string) :
  (forall path metadata d,
     GISDocument_init normalize_path Path_name loaded (Some path)
         latitude longitude zoom extent bearing pitch projection
       = Ok (metadata, d) ->
     d = loaded /\
     dict_get "createydoc" metadata = Some (JBool false) /\
     dict_get "path" metadata = Some (JStr (normalize_path path))) /\
  (exists metadata d,
     GISDocument_init normalize_path Path_name loaded None
         latitude longitude zoom extent bearing pitch projection
       = Ok (metadata, d) /\
     dict_get "createydoc" metadata = Some (JBool true) /\
     dict_get "ymodel_name" metadata = Some (JStr "@jupytergis:widget") /\
     _layers d = _layers loaded /\
     _sources d = _sources loaded /\
     _layerTree d = _layerTree loaded /\
     _options d !! "latitude" = applied latitude (_options loaded !! "latitude") /\
     _options d !! "longitude" = applied longitude (_options loaded !! "longitude") /\
     _options d !! "extent" = applied extent (_options loaded !! "extent") /\
     _options d !! "zoom" = applied zoom (_options loaded !! "zoom") /\
     _options d !! "bearing" = applied bearing (_options loaded !! "bearing") /\
     _options d !! "pitch" = applied pitch (_options loaded !! "pitch") /\
     _options d !! "projection"
       = applied (JStr <$> projection) (_options loaded !! "projection") /\
     (forall key,
        key ∉ ["latitude"; "longitude"; "extent"; "zoom"; "bearing"; "pitch";
                "projection"] ->
        _options d !! key = _options loaded !! key)).
Proof.
  split.
  - intros path metadata d. unfold GISDocument_init, _path_to_comm. cbv zeta.
    destruct (split_dot _ !! 1%nat) as [piece|]; [|discriminate].
    destruct (String.eqb (lower piece) "jgis"); [|discriminate].
    cbn. intros [= <- <-]. by destruct loaded.
  - eexists _, _. split; [reflexivity|]. cbn [_layers _sources _layerTree _options].
    repeat split; try reflexivity;
      try (rewrite !lookup_set_option; reflexivity).
    intros key Hkey. rewrite !lookup_set_option.
    repeat (rewrite decide_False; [|intros <-; apply Hkey; set_solver]). done.
Qed.

Lemma init_applies_options_without_path_only_witness :
  let loaded :=
    {| _layers := {[ "L1" := Sample.plain_layer ]}; _sources := ∅;
       _options := {[ "zoom" := JInt 3 ]}; _layerTree := [JStr "L1"] |} in
  exists metadata,
    GISDocument_init (fun p => p) (fun p => p) loaded (Some "map.jgis")
        (Some (JFloat 48.5)) None (Some (JInt 9)) None None None None
      = Ok (metadata, loaded).
Proof.
  intros loaded.
  assert (Hrun : exists metadata d,
            GISDocument_init (fun p => p) (fun p => p) loaded (Some "map.jgis")
                (Some (JFloat 48.5)) None (Some (JInt 9)) None None None None
              = Ok (metadata, d)).
  { eexists _, _. reflexivity. }
  destruct Hrun as (metadata & d & Hrun). exists metadata.
  destruct (init_applies_options_without_path_only (fun p => p) (fun p => p) loaded
              (Some (JFloat 48.5)) None (Some (JInt 9)) None None None None)
    as [Hpath _].
  destruct (Hpath _ _ _ Hrun) as [<- _]. exact Hrun.
Defined.

(** *** [SingletonMeta] *)

(** X4. Once a class has been called successfully through [SingletonMeta],
    every later call of that class returns the instance made by the first
    call, whatever arguments it is given, and changes nothing in
    [_instances]; the first call leaves the entries of other classes as
    they were.  A constructor that raises leaves no entry behind. *)
Theorem singleton_returns_first_instance
    {K I Args : Type} `{Countable K} (make : K -> Args -> result I)
    (cls : K) (args : Args) (_instances : gmap K I) :
  (forall instance _instances',
     SingletonMeta_call make cls args _instances = (Ok instance, _instances') ->
     _instances' !! cls = Some instance /\
     (forall args', SingletonMeta_call make cls args' _instances'
                    = (Ok instance, _instances')) /\
     (forall cls', cls' ≠ cls -> _instances' !! cls' = _instances !! cls')) /\
  (forall e _instances',
     SingletonMeta_call make cls args _instances = (Raise e, _instances') ->
     _instances' = _instances /\ _instances !! cls = None).
Proof.
  unfold SingletonMeta_call. split.
  - intros instance _instances'.
    destruct (_instances !! cls) as [i|] eqn:Hcls.
    + intros [= <- <-]. split; [done|]. split; [|done].
      intros args'. by rewrite Hcls.
    + destruct (make cls args) as [i|e]; intros [= <- <-].
      split; [apply lookup_insert_eq|]. split.
      * intros args'. by rewrite lookup_insert_eq.
      * intros cls' Hne. by apply lookup_insert_ne.
  - intros e _instances'.
    destruct (_instances !! cls) as [i|]; [discriminate|].
    destruct (make cls args) as [i|e']; [discriminate|].
    by intros [= <- <-].
Qed.

Lemma singleton_returns_first_instance_witness :
  let make := fun (cls : string) (args : nat) =>
    if Nat.eqb args 0 then Raise TypeError else @Ok nat args in
  exists _instances',
    SingletonMeta_call make "ObjectFactoryManager" 7 ∅ = (Ok 7, _instances') /\
    SingletonMeta_call make "ObjectFactoryManager" 9 _instances' = (Ok 7, _instances') /\
    SingletonMeta_call make "ObjectFactoryManager" 0 _instances' = (Ok 7, _instances').
Proof.
  intros make.
  assert (Hrun : exists _instances',
            SingletonMeta_call make "ObjectFactoryManager" 7 ∅ = (Ok 7, _instances')).
  { eexists. reflexivity. }
  destruct Hrun as [_instances' Hrun]. exists _instances'.
  destruct (singleton_returns_first_instance make "ObjectFactoryManager" 7 ∅)
    as [Hfirst _].
  destruct (Hfirst _ _ Hrun) as (_ & Hagain & _).
  split; [exact Hrun|]. split; apply Hagain.
Defined.

(** *** Filters, whatever the stored layer looks like *)

Ltac raised := intros [= <- <-]; left; eauto.

Ltac stored_filters :=
  intros [= <- <-]; right; split; [done|]; eexists _, _; split; [done|];
  split; [reflexivity|]; intros ? ?; by apply dict_get_set_ne.

Lemma add_filter_outcome
    (layer_id logical_op feature operator : string) (value : json)
    (st st' : State) (r : result unit) :
  add_filter layer_id logical_op feature operator value st = (r, st') ->
  raised_or_stored layer_id st r st'.
Proof.
  unfold add_filter, raised_or_stored. step.
  destruct (_layers (ydoc st) !! layer_id) as [layer|] eqn:Hlayer; [|raised].
  destruct (dict_mem "filters" layer); cbn; [|stored_filters].
  destruct (dict_get "filters" layer) as [filters|]; cbn; [|raised].
  destruct (getitem filters "appliedFilters") as [applied|]; cbn; [|raised].
  destruct (append applied _) as [applied'|]; cbn; [|raised].
  destruct (setitem filters "appliedFilters" applied') as [filters1|]; cbn; [|raised].
  destruct (setitem filters1 "logicalOp" _) as [filters2|]; cbn; [|raised].
  stored_filters.
Qed.

Lemma update_filter_outcome
    (layer_id logical_op feature operator : string) (value : json)
    (st st' : State) (r : result unit) :
  update_filter layer_id logical_op feature operator value st = (r, st') ->
  raised_or_stored layer_id st r st'.
Proof.
  unfold update_filter, raised_or_stored. step.
  destruct (_layers (ydoc st) !! layer_id) as [layer|] eqn:Hlayer; [|raised].
  destruct (dict_mem "filters" layer); cbn; [|raised].
  destruct (dict_get "filters" layer) as [filters|]; cbn; [|raised].
  destruct (getitem filters "appliedFilters") as [applied|]; cbn; [|raised].
  destruct (iterate applied) as [items|]; cbn; [|raised].
  destruct (find_feature feature items) as [[[i f]|]|]; cbn; [|raised|raised].
  destruct (setitem f "value" value) as [f'|]; cbn; [|raised].
  destruct (setitem filters "appliedFilters" _) as [filters1|]; cbn; [|raised].
  destruct (setitem filters1 "logicalOp" _) as [filters2|]; cbn; [|raised].
  stored_filters.
Qed.

Lemma clear_filters_outcome (layer_id : string) (st st' : State) (r : result unit) :
  clear_filters layer_id st = (r, st') ->
  raised_or_stored layer_id st r st'.
Proof.
  unfold clear_filters, raised_or_stored. step.
  destruct (_layers (ydoc st) !! layer_id) as [layer|] eqn:Hlayer; [|raised].
  destruct (dict_mem "filters" layer); cbn; [|raised].
  destruct (dict_get "filters" layer) as [filters|]; cbn; [|raised].
  destruct (setitem filters "appliedFilters" _) as [filters1|]; cbn; [|raised].
  stored_filters.
Qed.

Lemma raised_or_stored_frame (layer_id : string) (op : M unit) :
  (forall st r st', op st = (r, st') -> raised_or_stored layer_id st r st') ->
  writes_filters_of layer_id op.
Proof.
  intros Hop st r st' Hrun.
  destruct (Hop _ _ _ Hrun) as [[-> [e ->]] | [-> (layer & layer' & Hlayer & -> & Hkeep)]].
  - repeat split; try done.
  - repeat split; try done.
    + by exists layer, layer'.
    + cbn. apply dom_insert_lookup_L. by rewrite Hlayer.
    + intros other Hother. cbn. by apply lookup_insert_ne.
Qed.

(** X5. The three filter operations are all or nothing, on any stored
    data: a call that raises, for whatever reason, leaves the document as
    it was, and a call that returns has replaced the value of one existing
    layer, changing nothing of it but [filters].  None of them adds or
    removes a layer, touches another layer, [sources], [options] or
    [layerTree], or draws an identifier. *)
Theorem filter_operations_write_one_layer_or_nothing
    (layer_id logical_op feature operator : string) (value : json) :
  writes_filters_of layer_id (add_filter layer_id logical_op feature operator value) /\
  writes_filters_of layer_id (update_filter layer_id logical_op feature operator value) /\
  writes_filters_of layer_id (clear_filters layer_id).
Proof.
  split; [|split]; apply raised_or_stored_frame; intros st r st'.
  - apply add_filter_outcome.
  - apply update_filter_outcome.
  - apply clear_filters_outcome.
Qed.

(** *** Filter operations in sequence *)

Lemma add_filter_first_run
    (layer_id logical_op feature operator : string) (value : json)
    (st : State) (layer : dict) :
  _layers (ydoc st) !! layer_id = Some layer ->
  dict_get "filters" layer = None ->
  add_filter layer_id logical_op feature operator value st
  = (Ok tt,
     stored st layer_id
       (dict_set "filters"
          (JDict [("appliedFilters", JList [predicate feature operator value]);
                  ("logicalOp", JStr logical_op)]) layer)).
Proof.
  intros Hlayer Hnone. unfold add_filter. step.
  by rewrite Hlayer, (dict_mem_false _ _ Hnone).
Qed.

Lemma add_filter_next_run
    (layer_id logical_op feature operator : string) (value : json)
    (st : State) (layer filters : dict) (applied : list json) :
  _layers (ydoc st) !! layer_id = Some layer ->
  dict_get "filters" layer = Some (JDict filters) ->
  dict_get "appliedFilters" filters = Some (JList applied) ->
  add_filter layer_id logical_op feature operator value st
  = (Ok tt,
     stored st layer_id
       (dict_set "filters"
          (JDict (dict_set "logicalOp" (JStr logical_op)
                    (dict_set "appliedFilters"
                       (JList (applied ++ [predicate feature operator value]))
                       filters))) layer)).
Proof.
  intros Hlayer Hfilters Happlied. unfold add_filter. step.
  rewrite Hlayer, (dict_mem_true _ _ _ Hfilters). cbn.
  rewrite Hfilters. cbn. by rewrite Happlied.
Qed.

Lemma update_filter_head_run
    (layer_id logical_op feature operator : string) (value : json)
    (st : State) (layer filters p : dict) (rest : list json) :
  _layers (ydoc st) !! layer_id = Some layer ->
  dict_get "filters" layer = Some (JDict filters) ->
  dict_get "appliedFilters" filters = Some (JList (JDict p :: rest)) ->
  dict_get "feature" p = Some (JStr feature) ->
  update_filter layer_id logical_op feature operator value st
  = (Ok tt,
     stored st layer_id
       (dict_set "filters"
          (JDict (dict_set "logicalOp" (JStr logical_op)
                    (dict_set "appliedFilters"
                       (JList (JDict (dict_set "value" value p) :: rest))
                       filters))) layer)).
Proof.
  intros Hlayer Hfilters Happlied Hp. unfold update_filter. step.
  rewrite Hlayer, (dict_mem_true _ _ _ Hfilters). cbn.
  rewrite Hfilters. cbn. rewrite Happlied. cbn. rewrite Hp. cbn.
  by rewrite String.eqb_refl.
Qed.

Lemma clear_filters_run (layer_id : string) (st : State) (layer filters : dict) :
  _layers (ydoc st) !! layer_id = Some layer ->
  dict_get "filters" layer = Some (JDict filters) ->
  clear_filters layer_id st
  = (Ok tt,
     stored st layer_id
       (dict_set "filters" (JDict (dict_set "appliedFilters" (JList []) filters)) layer)).
Proof.
  intros Hlayer Hfilters. unfold clear_filters. step.
  rewrite Hlayer, (dict_mem_true _ _ _ Hfilters). cbn.
  by rewrite Hfilters.
Qed.

Lemma stored_lookup (st : State) (layer_id : string) (layer : dict) :
  _layers (ydoc (stored st layer_id layer)) !! layer_id = Some layer.
Proof. cbn. apply lookup_insert_eq. Qed.

Lemma stored_twice (st : State) (layer_id : string) (layer layer' : dict) :
  stored (stored st layer_id layer) layer_id layer' = stored st layer_id layer'.
Proof. unfold stored, set_layers. cbn. by rewrite insert_insert_eq. Qed.

(** X6. On a layer that has no [filters] field yet: two [add_filter] calls
    leave the two predicates in call order under the second call's
    [logicalOp]; [add_filter] followed by [update_filter] on the same
    feature leaves one predicate with the new value and the operator of
    the [add_filter] call, the operator passed to [update_filter] being
    ignored; and after [clear_filters] a new [add_filter] starts again
    from a list of one.  Each sequence ends with one stored layer that
    differs from the original in [filters] only. *)
Theorem filter_calls_compose
    (layer_id : string) (st : State) (layer : dict)
    (op1 f1 o1 op2 f2 o2 : string) (v1 v2 : json) :
  _layers (ydoc st) !! layer_id = Some layer ->
  dict_get "filters" layer = None ->
  let ends_with := fun (calls : M unit) (filters : json) =>
    exists layer',
      calls st = (Ok tt, stored st layer_id layer') /\
      dict_get "filters" layer' = Some filters /\
      forall k, k ≠ "filters" -> dict_get k layer' = dict_get k layer in
  ends_with
    (add_filter layer_id op1 f1 o1 v1;; add_filter layer_id op2 f2 o2 v2)
    (JDict [("appliedFilters", JList [predicate f1 o1 v1; predicate f2 o2 v2]);
            ("logicalOp", JStr op2)]) /\
  ends_with
    (add_filter layer_id op1 f1 o1 v1;; update_filter layer_id op2 f1 o2 v2)
    (JDict [("appliedFilters", JList [predicate f1 o1 v2]);
            ("logicalOp", JStr op2)]) /\
  ends_with
    (add_filter layer_id op1 f1 o1 v1;; clear_filters layer_id;;
     add_filter layer_id op2 f2 o2 v2)
    (JDict [("appliedFilters", JList [predicate f2 o2 v2]);
            ("logicalOp", JStr op2)]).
Proof.
  intros Hlayer Hnone ends_with. subst ends_with. cbv beta.
  pose proof (add_filter_first_run layer_id op1 f1 o1 v1 st layer Hlayer Hnone) as Hfirst.
  set (layer1 := dict_set "filters" _ layer) in Hfirst.
  assert (Hfilters1 : dict_get "filters" layer1
            = Some (JDict [("appliedFilters", JList [predicate f1 o1 v1]);
                           ("logicalOp", JStr op1)]))
    by apply dict_get_set_eq.
  assert (Hkeep1 : forall k, k ≠ "filters" -> dict_get k layer1 = dict_get k layer)
    by (intros k Hk; by apply dict_get_set_ne).
  split; [|split].
  - eexists. split; [|split].
    + rewrite (bind_run _ _ _ _ _ Hfirst).
      rewrite (add_filter_next_run _ _ _ _ _ _ _ _ _ (stored_lookup _ _ _) Hfilters1 eq_refl).
      by rewrite stored_twice.
    + by rewrite dict_get_set_eq.
    + intros k Hk. rewrite dict_get_set_ne; auto.
  - eexists. split; [|split].
    + rewrite (bind_run _ _ _ _ _ Hfirst).
      rewrite (update_filter_head_run _ _ _ _ _ _ _ _ _ _
                 (stored_lookup _ _ _) Hfilters1 eq_refl eq_refl).
      by rewrite stored_twice.
    + by rewrite dict_get_set_eq.
    + intros k Hk. rewrite dict_get_set_ne; auto.
  - eexists. split; [|split].
    + rewrite (bind_run _ _ _ _ _ Hfirst).
      pose proof (clear_filters_run layer_id _ _ _ (stored_lookup st layer_id layer1)
                    Hfilters1) as Hclear.
      rewrite stored_twice in Hclear.
      rewrite (bind_run _ _ _ _ _ Hclear).
      rewrite (add_filter_next_run layer_id op2 f2 o2 v2 _ _
                 [("appliedFilters", JList []); ("logicalOp", JStr op1)] []
                 (stored_lookup _ _ _) (dict_get_set_eq _ _ _) eq_refl).
      by rewrite stored_twice.
    + by rewrite dict_get_set_eq.
    + intros k Hk. rewrite !dict_get_set_ne; auto.
Qed.

Lemma filter_calls_compose_witness :
  exists layer',
    (add_filter "L1" "all" "name" "==" (JStr "Oslo");;
     update_filter "L1" "any" "name" "!=" (JStr "Bergen"))
      (Sample.doc_with "L1" Sample.plain_layer)
    = (Ok tt, stored (Sample.doc_with "L1" Sample.plain_layer) "L1" layer') /\
    dict_get "filters" layer'
    = Some (JDict [("appliedFilters", JList [predicate "name" "==" (JStr "Bergen")]);
                   ("logicalOp", JStr "any")]).
Proof.
  destruct (filter_calls_compose "L1" (Sample.doc_with "L1" Sample.plain_layer)
              Sample.plain_layer "all" "name" "==" "any" "name" "!="
              (JStr "Oslo") (JStr "Bergen"))
    as (_ & (layer' & Hrun & Hfilters & _) & _).
  - vm_compute. reflexivity.
  - reflexivity.
  - exists layer'. split; assumption.
Defined.

(** *** Layers stored without filters to speak of *)

Lemma null_filters_refuse
    (layer_id logical_op feature operator : string) (value : json)
    (st : State) (layer : dict) :
  _layers (ydoc st) !! layer_id = Some layer ->
  dict_get "filters" layer = Some JNull ->
  add_filter layer_id logical_op feature operator value st = (Raise TypeError, st) /\
  update_filter layer_id logical_op feature operator value st = (Raise TypeError, st) /\
  clear_filters layer_id st = (Raise TypeError, st).
Proof.
  intros Hlayer Hnull. unfold add_filter, update_filter, clear_filters. step.
  rewrite Hlayer, (dict_mem_true _ _ _ Hnull). cbn. rewrite Hnull. done.
Qed.

Lemma raster_layer_stored
    (objects : Objects) (uuid4 : nat -> string)
    (url name attribution : string) (opacity : json) (st st' : State) (_id : string) :
  add_raster_layer objects uuid4 url name attribution opacity st = (Ok _id, st') ->
  exists l,
    _layers (ydoc st') !! _id = Some (JGISLayer_json l) /\ layer_filters l = Plain JNull.
Proof.
  intros Hrun. unfold add_raster_layer in Hrun. layer_stored Hrun.
Qed.

Lemma image_layer_stored
    (objects : Objects) (uuid4 : nat -> string)
    (url coordinates : json) (name : string) (opacity : json)
    (st st' : State) (_id : string) :
  add_image_layer objects uuid4 url coordinates name opacity st = (Ok _id, st') ->
  exists l,
    _layers (ydoc st') !! _id = Some (JGISLayer_json l) /\ layer_filters l = Plain JNull.
Proof.
  intros Hrun. unfold add_image_layer in Hrun.
  destruct (is_none url || is_none coordinates); [discriminate Hrun|].
  layer_stored Hrun.
Qed.

Lemma video_layer_stored
    (objects : Objects) (uuid4 : nat -> string)
    (urls : json) (name : string) (coordinates opacity : json)
    (st st' : State) (_id : string) :
  add_video_layer objects uuid4 urls name coordinates opacity st = (Ok _id, st') ->
  exists l,
    _layers (ydoc st') !! _id = Some (JGISLayer_json l) /\ layer_filters l = Plain JNull.
Proof.
  intros Hrun. unfold add_video_layer in Hrun.
  destruct (is_none urls || is_none coordinates); [discriminate Hrun|].
  layer_stored Hrun.
Qed.

(** X7. The raster, image and video builders pass no [filters] to the
    factory, which hands [None] on to [JGISLayer]: the layer such a builder
    returns is stored with a [filters] entry, and that entry is [None].
    For the filter operations the entry is there, so they go on to
    subscript it: on that layer [add_filter], [update_filter] and
    [clear_filters] all raise [TypeError] and leave the document as it
    is. *)
Theorem raster_kind_layers_refuse_filters
    (objects : Objects) (uuid4 : nat -> string) (name : string) (opacity : json)
    (st st' : State) (_id : string)
    (logical_op feature operator : string) (value : json) :
  let refused :=
    (exists layer,
       _layers (ydoc st') !! _id = Some layer /\
       dict_get "filters" layer = Some JNull) /\
    add_filter _id logical_op feature operator value st' = (Raise TypeError, st') /\
    update_filter _id logical_op feature operator value st' = (Raise TypeError, st') /\
    clear_filters _id st' = (Raise TypeError, st') in
  (forall url attribution,
     add_raster_layer objects uuid4 url name attribution opacity st = (Ok _id, st') ->
     refused) /\
  (forall url coordinates,
     add_image_layer objects uuid4 url coordinates name opacity st = (Ok _id, st') ->
     refused) /\
  (forall urls coordinates,
     add_video_layer objects uuid4 urls name coordinates opacity st = (Ok _id, st') ->
     refused).
Proof.
  intros refused. subst refused.
  assert (Hnone : forall l,
            _layers (ydoc st') !! _id = Some (JGISLayer_json l) ->
            layer_filters l = Plain JNull ->
            (exists layer,
               _layers (ydoc st') !! _id = Some layer /\
               dict_get "filters" layer = Some JNull) /\
            add_filter _id logical_op feature operator value st' = (Raise TypeError, st') /\
            update_filter _id logical_op feature operator value st'
              = (Raise TypeError, st') /\
            clear_filters _id st' = (Raise TypeError, st')).
  { intros l Hstored Hnull.
    assert (Hfilters : dict_get "filters" (JGISLayer_json l) = Some JNull).
    { cbn. by rewrite Hnull. }
    split; [by exists (JGISLayer_json l)|].
    by apply (null_filters_refuse _ _ _ _ _ _ _ Hstored). }
  split; [|split].
  - intros url attribution Hrun.
    apply raster_layer_stored in Hrun as (l & Hstored & Hnull). by apply (Hnone l).
  - intros url coordinates Hrun.
    apply image_layer_stored in Hrun as (l & Hstored & Hnull). by apply (Hnone l).
  - intros urls coordinates Hrun.
    apply video_layer_stored in Hrun as (l & Hstored & Hnull). by apply (Hnone l).
Qed.

Lemma raster_kind_layers_refuse_filters_witness :
  exists st' layer,
    add_raster_layer Sample.objects Sample.uuid4 "https://tiles.example/{z}/{x}/{y}.png"
        "Base" "" (JFloat 0.8) Sample.fresh
      = (Ok "id-|", st') /\
    _layers (ydoc st') !! "id-|" = Some layer /\
    dict_get "filters" layer = Some JNull /\
    add_filter "id-|" "all" "name" "==" (JStr "Oslo") st' = (Raise TypeError, st') /\
    update_filter "id-|" "all" "name" "==" (JStr "Oslo") st' = (Raise TypeError, st') /\
    clear_filters "id-|" st' = (Raise TypeError, st').
Proof.
  assert (Hrun : exists st',
            add_raster_layer Sample.objects Sample.uuid4
                "https://tiles.example/{z}/{x}/{y}.png" "Base" "" (JFloat 0.8)
                Sample.fresh
              = (Ok "id-|", st')).
  { eexists. vm_compute. reflexivity. }
  destruct Hrun as [st' Hrun]. exists st'.
  destruct (raster_kind_layers_refuse_filters Sample.objects Sample.uuid4 "Base"
              (JFloat 0.8) Sample.fresh st' "id-|" "all" "name" "==" (JStr "Oslo"))
    as [Hraster _].
  destruct (Hraster _ _ Hrun) as ((layer & Hstored & Hnull) & Hadd & Hupdate & Hclear).
  exists layer. repeat split; assumption.
Defined.

(** *** What the builders leave behind *)

Lemma add_source_then_layer_cases (objects : Objects) (uuid4 : nat -> string)
    (source : raw) (layer : string -> raw) (st : State) :
  add_source_then_layer objects uuid4 source layer st =
  match create_source (OBJECT_FACTORY objects) source with
  | Raise e => (Raise e, st)
  | Ok None => (Raise AttributeError, {| ydoc := ydoc st; uuid_calls := S (uuid_calls st) |})
  | Ok (Some s) =>
      let with_source :=
        set_sources (ydoc st)
          (<[uuid4 (uuid_calls st) := JGISSource_json s]> (_sources (ydoc st))) in
      match create_layer (OBJECT_FACTORY objects) (layer (uuid4 (uuid_calls st))) with
      | Raise e => (Raise e, {| ydoc := with_source; uuid_calls := S (uuid_calls st) |})
      | Ok None =>
          (Raise AttributeError,
           {| ydoc := with_source; uuid_calls := S (S (uuid_calls st)) |})
      | Ok (Some l) =>
          (Ok (uuid4 (S (uuid_calls st))),
           {| ydoc :=
                set_layerTree
                  (set_layers with_source
                     (<[uuid4 (S (uuid_calls st)) := JGISLayer_json l]>
                        (_layers (ydoc st))))
                  (_layerTree (ydoc st) ++ [JStr (uuid4 (S (uuid_calls st)))]);
              uuid_calls := S (S (uuid_calls st)) |})
      end
  end.
Proof.
  unfold add_source_then_layer.
  unfold mbind at 1, M_bind at 1, lift at 1.
  destruct (create_source _ source) as [[s|]|e]; [|reflexivity|reflexivity].
  unfold mbind at 1, M_bind at 1. rewrite _add_source_some.
  unfold mbind at 1, M_bind at 1, lift at 1. cbn [ydoc uuid_calls].
  destruct (create_layer _ _) as [[l|]|e]; reflexivity.
Qed.

(** The parameters the factory leaves in a layer come from the raw ones:
    a field it keeps has the raw value. *)
Lemma create_layer_keeps_raw (_factories : gmap key BaseModel) (data : raw) (ps : dict)
    (l : JGISLayer) (k : string) (v : json) :
  raw_get "parameters" data = Some (Plain (JDict ps)) ->
  create_layer _factories data = Ok (Some l) ->
  dict_get k (layer_parameters l) = Some v ->
  v = dict_get_default k ps.
Proof.
  intros Hps Hok Hk.
  destruct (lookup_factory _factories (raw_get_default "type" data))
    as [[Model|]|e] eqn:Hfound.
  - destruct (create_layer_parameters _ _ _ _ _ Hfound Hps Hok) as [Hparams _].
    rewrite Hparams, declared_fields_get in Hk.
    destruct (decide _); congruence.
  - unfold create_layer in Hok. by rewrite Hfound in Hok.
  - unfold create_layer in Hok. by rewrite Hfound in Hok.
Qed.

Lemma builds_pair_succeeds (objects : Objects) (uuid4 : nat -> string) (run : M string) :
  builds_pair objects uuid4 run -> adds_source_and_layer uuid4 run.
Proof.
  intros Hshape st _id st' Hrun source_id.
  destruct (Hshape st) as [[e He] | (source & layer & Heq & Hrefers)]; [congruence|].
  rewrite Heq, add_source_then_layer_cases in Hrun.
  destruct (create_source _ source) as [[s|]|e]; try discriminate Hrun.
  cbv zeta in Hrun.
  destruct (create_layer _ _) as [[l|]|e] eqn:Hl; try discriminate Hrun.
  injection Hrun as <- <-. cbn.
  destruct (Hrefers (uuid4 (uuid_calls st))) as (ps & Hps & Hsource).
  repeat split; [by eexists|].
  exists (JGISLayer_json l), (layer_parameters l). repeat split.
  intros v Hv. rewrite (create_layer_keeps_raw _ _ _ _ _ _ Hps Hl Hv).
  unfold dict_get_default. by rewrite Hsource.
Qed.

Lemma builds_pair_fails (objects : Objects) (uuid4 : nat -> string) (run : M string) :
  builds_pair objects uuid4 run -> leaves_at_most_the_source uuid4 run.
Proof.
  intros Hshape st e st' Hrun.
  destruct (Hshape st) as [[e' He] | (source & layer & Heq & _)].
  { rewrite He in Hrun. injection Hrun as <- <-. repeat split. by left. }
  rewrite Heq, add_source_then_layer_cases in Hrun.
  destruct (create_source _ source) as [[s|]|e1].
  - cbv zeta in Hrun.
    destruct (create_layer _ _) as [[l|]|e2]; [discriminate Hrun| |];
      injection Hrun as <- <-; cbn; repeat split; right; by eexists.
  - injection Hrun as <- <-. repeat split. by left.
  - injection Hrun as <- <-. repeat split. by left.
Qed.

Ltac goes_on :=
  right; eexists _, (fun source_id => _); split;
  [ unfold add_source_then_layer; reflexivity
  | intros ?; eexists; split; reflexivity ].

Lemma add_raster_layer_builds (objects : Objects) (uuid4 : nat -> string)
    (url name attribution : string) (opacity : json) :
  builds_pair objects uuid4 (add_raster_layer objects uuid4 url name attribution opacity).
Proof. intros st. unfold add_raster_layer. goes_on. Qed.

Lemma add_vectortile_layer_builds (objects : Objects) (uuid4 : nat -> string)
    (get_source_layer_names : string -> result (list string))
    (url name : string) (source_layer : option string) (attribution : string)
    (min_zoom max_zoom : Z) (type color : string) (opacity : json)
    (logical_op feature operator : option string) (value : json) :
  builds_pair objects uuid4
    (add_vectortile_layer objects uuid4 get_source_layer_names url name source_layer
       attribution min_zoom max_zoom type color opacity logical_op feature operator
       value).
Proof.
  intros st. unfold add_vectortile_layer.
  destruct (get_source_layer_names url) as [names|e] eqn:Hnames.
  - rewrite (bind_run _ _ st st names) by reflexivity.
    cbv zeta. destruct (negb (name_in _ names)); [left; by eexists|].
    goes_on.
  - left. exists e. by apply bind_raise.
Qed.

Lemma add_geojson_layer_builds (objects : Objects) (uuid4 : nat -> string)
    (load_json_file : string -> result json)
    (path : option string) (data : option dict) (name type color : string)
    (opacity : json) (logical_op feature operator : option string) (value : json) :
  builds_pair objects uuid4
    (add_geojson_layer objects uuid4 load_json_file path data name type color opacity
       logical_op feature operator value).
Proof.
  intros st. unfold add_geojson_layer.
  destruct path as [p|], data as [d|]; try (left; by eexists).
  - destruct (load_json_file p) as [content|e] eqn:Hload.
    + rewrite (bind_run _ _ st st (dict_literal [("data", content)]))
        by reflexivity.
      goes_on.
    + left. exists e. reflexivity.
  - rewrite (bind_run _ _ st st (dict_literal [("data", JDict d)])) by reflexivity.
    goes_on.
Qed.

Lemma add_image_layer_builds (objects : Objects) (uuid4 : nat -> string)
    (url coordinates : json) (name : string) (opacity : json) :
  builds_pair objects uuid4 (add_image_layer objects uuid4 url coordinates name opacity).
Proof.
  intros st. unfold add_image_layer.
  destruct (is_none url || is_none coordinates); [left; by eexists|]. goes_on.
Qed.

Lemma add_video_layer_builds (objects : Objects) (uuid4 : nat -> string)
    (urls : json) (name : string) (coordinates opacity : json) :
  builds_pair objects uuid4 (add_video_layer objects uuid4 urls name coordinates opacity).
Proof.
  intros st. unfold add_video_layer.
  destruct (is_none urls || is_none coordinates); [left; by eexists|]. goes_on.
Qed.

(** X8. Each of the five builders, when it returns, has drawn exactly two
    identifiers: the source is stored under the first, the layer under the
    second, which is the id returned and the new last entry of
    [layerTree]; [options] is untouched, and a [source] parameter in the
    stored layer holds the id of the source just stored. *)
Theorem builders_add_source_then_layer
    (objects : Objects) (uuid4 : nat -> string)
    (get_source_layer_names : string -> result (list string))
    (load_json_file : string -> result json) :
  (forall url name attribution opacity,
     adds_source_and_layer uuid4
       (add_raster_layer objects uuid4 url name attribution opacity)) /\
  (forall url name source_layer attribution min_zoom max_zoom type color opacity
          logical_op feature operator value,
     adds_source_and_layer uuid4
       (add_vectortile_layer objects uuid4 get_source_layer_names url name source_layer
          attribution min_zoom max_zoom type color opacity logical_op feature operator
          value)) /\
  (forall path data name type color opacity logical_op feature operator value,
     adds_source_and_layer uuid4
       (add_geojson_layer objects uuid4 load_json_file path data name type color opacity
          logical_op feature operator value)) /\
  (forall url coordinates name opacity,
     adds_source_and_layer uuid4
       (add_image_layer objects uuid4 url coordinates name opacity)) /\
  (forall urls name coordinates opacity,
     adds_source_and_layer uuid4
       (add_video_layer objects uuid4 urls name coordinates opacity)).
Proof.
  split; [|split; [|split; [|split]]]; intros; apply (builds_pair_succeeds objects).
  - apply add_raster_layer_builds.
  - apply add_vectortile_layer_builds.
  - apply add_geojson_layer_builds.
  - apply add_image_layer_builds.
  - apply add_video_layer_builds.
Qed.

Lemma builders_add_source_then_layer_witness :
  exists st',
    add_raster_layer Sample.objects Sample.uuid4 "https://tiles.example/{z}/{x}/{y}.png"
        "Base" "" (JFloat 0.8) Sample.fresh
      = (Ok "id-|", st') /\
    uuid_calls st' = 2%nat /\
    _layerTree (ydoc st') = [JStr "id-|"] /\
    exists source, _sources (ydoc st') = {[ "id-" := source ]}.
Proof.
  assert (Hrun : exists st',
            add_raster_layer Sample.objects Sample.uuid4
                "https://tiles.example/{z}/{x}/{y}.png" "Base" "" (JFloat 0.8)
                Sample.fresh
              = (Ok "id-|", st')).
  { eexists. vm_compute. reflexivity. }
  destruct Hrun as [st' Hrun]. exists st'.
  destruct (builders_add_source_then_layer Sample.objects Sample.uuid4
              Sample.get_source_layer_names Sample.load_json_file) as [Hraster _].
  destruct (Hraster _ _ _ _ _ _ _ Hrun) as (_ & Hcalls & [source Hsource] & _ & Htree & _).
  split; [exact Hrun|]. split; [exact Hcalls|]. split; [exact Htree|].
  exists source. rewrite Hsource. reflexivity.
Defined.

(** X9. A builder that raises has stored no layer and no tree entry,
    whichever of its steps failed, and has left [options] alone; [sources]
    is either untouched or holds the source the call had already added
    when creating the layer failed.  So a failed call can leave a source
    behind that no layer refers to. *)
Theorem failed_builders_leave_at_most_the_source
    (objects : Objects) (uuid4 : nat -> string)
    (get_source_layer_names : string -> result (list string))
    (load_json_file : string -> result json) :
  (forall url name attribution opacity,
     leaves_at_most_the_source uuid4
       (add_raster_layer objects uuid4 url name attribution opacity)) /\
  (forall url name source_layer attribution min_zoom max_zoom type color opacity
          logical_op feature operator value,
     leaves_at_most_the_source uuid4
       (add_vectortile_layer objects uuid4 get_source_layer_names url name source_layer
          attribution min_zoom max_zoom type color opacity logical_op feature operator
          value)) /\
  (forall path data name type color opacity logical_op feature operator value,
     leaves_at_most_the_source uuid4
       (add_geojson_layer objects uuid4 load_json_file path data name type color opacity
          logical_op feature operator value)) /\
  (forall url coordinates name opacity,
     leaves_at_most_the_source uuid4
       (add_image_layer objects uuid4 url coordinates name opacity)) /\
  (forall urls name coordinates opacity,
     leaves_at_most_the_source uuid4
       (add_video_layer objects uuid4 urls name coordinates opacity)).
Proof.
  split; [|split; [|split; [|split]]]; intros; apply (builds_pair_fails objects).
  - apply add_raster_layer_builds.
  - apply add_vectortile_layer_builds.
  - apply add_geojson_layer_builds.
  - apply add_image_layer_builds.
  - apply add_video_layer_builds.
Qed.

Lemma failed_builders_leave_at_most_the_source_witness :
  exists st',
    add_raster_layer Sample.strict_objects Sample.uuid4
        "https://tiles.example/{z}/{x}/{y}.png" "Base" "" (JStr "high") Sample.fresh
      = (Raise (ValidationError "IRasterLayer"), st') /\
    is_Some (_sources (ydoc st') !! "id-") /\
    _layers (ydoc st') = ∅ /\
    _layerTree (ydoc st') = [].
Proof.
  assert (Hrun : exists st',
            add_raster_layer Sample.strict_objects Sample.uuid4
                "https://tiles.example/{z}/{x}/{y}.png" "Base" "" (JStr "high")
                Sample.fresh
              = (Raise (ValidationError "IRasterLayer"), st') /\
            is_Some (_sources (ydoc st') !! "id-")).
  { eexists. split; [vm_compute; reflexivity|]. vm_compute. by eexists. }
  destruct Hrun as (st' & Hrun & Hsource). exists st'.
  destruct (failed_builders_leave_at_most_the_source Sample.strict_objects Sample.uuid4
              Sample.get_source_layer_names Sample.load_json_file) as [Hraster _].
  destruct (Hraster _ _ _ _ _ _ _ Hrun) as (Hlayers & Htree & _).
  split; [exact Hrun|]. split; [exact Hsource|]. split; assumption.
Defined.

(** X10. For [add_geojson_layer] a path is only a way to supply the data.
    The file is read and parsed, and the call goes on as the call with
    inline data does: it hands the factory a raw source whose parameters
    are the one entry [data], holding the content of the file.  The path is
    not among them, so it reaches neither the class nor the document.
    When the file parses to an object the call is the call with that
    object as inline data, and when reading or parsing fails the error
    comes out with the state untouched. *)
Theorem geojson_path_is_read_into_data
    (objects : Objects) (uuid4 : nat -> string)
    (load_json_file : string -> result json)
    (path name type color : string) (opacity : json)
    (logical_op feature operator : option string) (value : json) (st : State) :
  let run := fun path data =>
    add_geojson_layer objects uuid4 load_json_file path data name type color opacity
      logical_op feature operator value st in
  (forall d, load_json_file path = Ok (JDict d) ->
     run (Some path) None = run None (Some d)) /\
  (forall e, load_json_file path = Raise e ->
     run (Some path) None = (Raise e, st)) /\
  (forall content,
     load_json_file path = Ok content ->
     exists layer,
       refers_to_source layer /\
       run (Some path) None
       = add_source_then_layer objects uuid4
           [("type", OfSourceType GeoJSONSource);
            ("name", Plain (JStr (name ++ " Source")));
            ("parameters", Plain (JDict [("data", content)]))]
           layer st).
Proof.
  intros run. subst run. cbv beta. unfold add_geojson_layer.
  split; [|split].
  - intros d Hload.
    rewrite (bind_run _ _ st st (dict_literal [("data", JDict d)]))
      by (unfold mbind, M_bind, lift; by rewrite Hload).
    by rewrite (bind_run _ _ st st (dict_literal [("data", JDict d)])) by reflexivity.
  - intros e Hload. apply bind_raise, bind_raise. unfold lift. by rewrite Hload.
  - intros content Hload.
    rewrite (bind_run _ _ st st (dict_literal [("data", content)]))
      by (unfold mbind, M_bind, lift; by rewrite Hload).
    eexists (fun source_id => _). split; [|unfold add_source_then_layer; reflexivity].
    intros source_id. eexists. split; reflexivity.
Qed.

Lemma geojson_path_is_read_into_data_witness :
  let towns := [("type", JStr "FeatureCollection"); ("features", JList [])] in
  exists st',
    add_geojson_layer Sample.objects Sample.uuid4 Sample.load_json_file
        (Some "towns.json") None "Towns" "circle" "#FF0000" (JInt 1)
        None None None JNull Sample.fresh
      = (Ok "id-|", st') /\
    add_geojson_layer Sample.objects Sample.uuid4 Sample.load_json_file
        None (Some towns) "Towns" "circle" "#FF0000" (JInt 1)
        None None None JNull Sample.fresh
      = (Ok "id-|", st').
Proof.
  intros towns.
  assert (Hrun : exists st',
            add_geojson_layer Sample.objects Sample.uuid4 Sample.load_json_file
                None (Some towns) "Towns" "circle" "#FF0000" (JInt 1)
                None None None JNull Sample.fresh
              = (Ok "id-|", st')).
  { eexists. vm_compute. reflexivity. }
  destruct Hrun as (st' & Hrun). exists st'.
  destruct (geojson_path_is_read_into_data Sample.objects Sample.uuid4
              Sample.load_json_file "towns.json" "Towns" "circle" "#FF0000" (JInt 1)
              None None None JNull Sample.fresh) as (Hsame & _ & _).
  split; [|exact Hrun]. rewrite <- Hrun. by apply Hsame.
Defined.

(** *** Sessions *)

Lemma builds_pair_step (objects : Objects) (uuid4 : nat -> string) (run : M string) :
  builds_pair objects uuid4 run -> forall st, builder_step uuid4 st (run st).2.
Proof.
  intros Hshape st.
  destruct (Hshape st) as [[e ->] | (source & layer & -> & Hrefers)]; [by left|].
  rewrite add_source_then_layer_cases.
  destruct (create_source _ source) as [[s|]|e];
    [|left; cbn; split; [done|lia]|by left].
  cbv zeta. destruct (create_layer _ _) as [[l|]|e] eqn:Hl.
  - right. right.
    destruct (Hrefers (uuid4 (uuid_calls st))) as (ps & Hps & Hsource).
    exists (JGISSource_json s), (JGISLayer_json l), (layer_parameters l).
    split; [reflexivity|]. split; [reflexivity|]. split; [reflexivity|].
    intros v Hv. rewrite (create_layer_keeps_raw _ _ _ _ _ _ Hps Hl Hv).
    unfold dict_get_default. by rewrite Hsource.
  - right. left. eexists. cbn. split; [reflexivity|lia].
  - right. left. eexists. cbn. split; [reflexivity|lia].
Qed.

Lemma tree_entry_ok_mono (d d' : GISDocument) (x : json) :
  (forall k, is_Some (_layers d !! k) -> is_Some (_layers d' !! k)) ->
  tree_entry_ok d x -> tree_entry_ok d' x.
Proof. intros Hmono. destruct x; cbn; auto. Qed.

Lemma source_ref_ok_mono (d d' : GISDocument) (layer : dict) :
  (forall k, is_Some (_sources d !! k) -> is_Some (_sources d' !! k)) ->
  source_ref_ok d layer -> source_ref_ok d' layer.
Proof. intros Hmono. unfold source_ref_ok. repeat case_match; auto. Qed.

Lemma is_Some_insert_mono {V : Type} (m : gmap string V) (i k : string) (x : V) :
  is_Some (m !! k) -> is_Some (<[i := x]> m !! k).
Proof. intros H. rewrite lookup_insert_is_Some. destruct (decide (i = k)); auto. Qed.

Lemma builder_step_consistent (uuid4 : nat -> string) (st st' : State) :
  builder_step uuid4 st st' -> consistent (ydoc st) -> consistent (ydoc st').
Proof.
  intros [[-> _] | [[source [-> _]] | (source & layer & ps & -> & _ & Hps & Hsource)]];
    [done| |]; intros [Htree Hlayers]; split; cbn.
  - eapply Forall_impl; [exact Htree|]. intros x. by apply tree_entry_ok_mono.
  - eapply map_Forall_impl; [exact Hlayers|]. intros k l. apply source_ref_ok_mono.
    intros k'. cbn. apply is_Some_insert_mono.
  - apply Forall_app. split.
    + eapply Forall_impl; [exact Htree|]. intros x. apply tree_entry_ok_mono.
      intros k. cbn. apply is_Some_insert_mono.
    + apply Forall_singleton. cbn. rewrite lookup_insert_eq. by eexists.
  - apply map_Forall_insert_2.
    + unfold source_ref_ok. rewrite Hps.
      destruct (dict_get "source" ps) as [v|] eqn:Hv; [|done].
      rewrite (Hsource v eq_refl). cbn. rewrite lookup_insert_eq. by eexists.
    + eapply map_Forall_impl; [exact Hlayers|]. intros k l. apply source_ref_ok_mono.
      intros k'. cbn. apply is_Some_insert_mono.
Qed.

Lemma raised_or_stored_consistent (layer_id : string) (st st' : State) (r : result unit) :
  raised_or_stored layer_id st r st' -> consistent (ydoc st) -> consistent (ydoc st').
Proof.
  intros [[-> _] | [_ (layer & layer' & Hlayer & -> & Hkeep)]]; [done|].
  intros [Htree Hlayers]. split; cbn.
  - eapply Forall_impl; [exact Htree|]. intros x. apply tree_entry_ok_mono.
    intros k. cbn. apply is_Some_insert_mono.
  - apply map_Forall_insert_2; [|exact Hlayers].
    pose proof (map_Forall_lookup_1 _ _ _ _ Hlayers Hlayer) as Hold.
    unfold source_ref_ok in *. by rewrite Hkeep.
Qed.

Lemma perform_cases (objects : Objects) (uuid4 : nat -> string)
    (get_source_layer_names : string -> result (list string))
    (load_json_file : string -> result json) (c : call) (st : State) :
  let st' := perform objects uuid4 get_source_layer_names load_json_file c st in
  builder_step uuid4 st st' \/
  exists layer_id r, raised_or_stored layer_id st r st'.
Proof.
  destruct c; cbn.
  - left. apply (builds_pair_step objects), add_raster_layer_builds.
  - left. apply (builds_pair_step objects), add_vectortile_layer_builds.
  - left. apply (builds_pair_step objects), add_geojson_layer_builds.
  - left. apply (builds_pair_step objects), add_image_layer_builds.
  - left. apply (builds_pair_step objects), add_video_layer_builds.
  - right. destruct (add_filter _ _ _ _ _ st) as [r st'] eqn:Hrun.
    exists layer_id, r. exact (add_filter_outcome _ _ _ _ _ _ _ _ Hrun).
  - right. destruct (update_filter _ _ _ _ _ st) as [r st'] eqn:Hrun.
    exists layer_id, r. exact (update_filter_outcome _ _ _ _ _ _ _ _ Hrun).
  - right. destruct (clear_filters _ st) as [r st'] eqn:Hrun.
    exists layer_id, r. exact (clear_filters_outcome _ _ _ _ Hrun).
Qed.

(** X11. Consistency is an invariant of the public methods.  If every
    entry of [layerTree] is the id of a stored layer and every layer's
    [source] parameter the id of a stored source, this is still so after
    any sequence of builder and filter calls, whatever each call returns
    or raises; in particular it holds of every document built from an
    empty one. *)
Theorem sessions_keep_the_document_consistent
    (objects : Objects) (uuid4 : nat -> string)
    (get_source_layer_names : string -> result (list string))
    (load_json_file : string -> result json) (calls : list call) (st : State) :
  consistent (ydoc st) ->
  consistent
    (ydoc (session objects uuid4 get_source_layer_names load_json_file calls st)).
Proof.
  revert st. induction calls as [|c calls IH]; intros st Hst; [done|].
  cbn. apply IH.
  destruct (perform_cases objects uuid4 get_source_layer_names load_json_file c st)
    as [Hstep | (layer_id & r & Hstep)].
  - by apply (builder_step_consistent uuid4 st).
  - by apply (raised_or_stored_consistent layer_id st _ r).
Qed.

Lemma sessions_keep_the_document_consistent_witness :
  consistent
    (ydoc (session Sample.strict_objects Sample.uuid4 Sample.get_source_layer_names
             Sample.load_json_file
             [AddRasterLayer "https://tiles.example/{z}/{x}/{y}.png" "Base" "" (JStr "high");
              AddGeoJSONLayer (Some "towns.json") None "Towns" "circle" "#FF0000"
                (JInt 1) None None None JNull;
              AddFilter "id-|||" "all" "name" "==" (JStr "Oslo");
              ClearFilters "id-"]
             Sample.fresh)).
Proof.
  apply sessions_keep_the_document_consistent.
  split; [constructor | apply map_Forall_empty].
Defined.

(** *** Nothing is removed *)

Lemma extends_trans (d1 d2 d3 : GISDocument) :
  extends d1 d2 -> extends d2 d3 -> extends d1 d3.
Proof.
  intros (Hl & Hs & Ht & Ho) (Hl' & Hs' & Ht' & Ho'). repeat split.
  - by transitivity (dom (_layers d2)).
  - by transitivity (dom (_sources d2)).
  - by transitivity (_layerTree d2).
  - congruence.
Qed.

Lemma builder_step_extends (uuid4 : nat -> string) (st st' : State) :
  builder_step uuid4 st st' -> extends (ydoc st) (ydoc st').
Proof.
  intros [[-> _] | [[source [-> _]] | (source & layer & ps & -> & _)]];
    repeat split; cbn; try done.
  - apply dom_insert_subseteq.
  - apply dom_insert_subseteq.
  - apply dom_insert_subseteq.
  - by apply prefix_app_r.
Qed.

Lemma raised_or_stored_extends (layer_id : string) (st st' : State) (r : result unit) :
  raised_or_stored layer_id st r st' -> extends (ydoc st) (ydoc st').
Proof.
  intros [[-> _] | [_ (layer & layer' & Hlayer & -> & _)]]; repeat split; cbn; try done.
  apply dom_insert_subseteq.
Qed.

(** X12. No call removes anything.  After any sequence of builder and
    filter calls, whatever each of them returned or raised, every id that
    had a layer still has one, every id that had a source still has one,
    [layerTree] starts with the entries it had, in their order, and
    [options] is what it was. *)
Theorem sessions_remove_nothing
    (objects : Objects) (uuid4 : nat -> string)
    (get_source_layer_names : string -> result (list string))
    (load_json_file : string -> result json) (calls : list call) (st : State) :
  extends (ydoc st)
    (ydoc (session objects uuid4 get_source_layer_names load_json_file calls st)).
Proof.
  revert st. induction calls as [|c calls IH]; intros st; [by repeat split|].
  cbn. eapply extends_trans; [|apply IH].
  destruct (perform_cases objects uuid4 get_source_layer_names load_json_file c st)
    as [Hstep | (layer_id & r & Hstep)].
  - by apply (builder_step_extends uuid4).
  - by apply (raised_or_stored_extends layer_id st _ r).
Qed.

(** *** The tree and the layers *)

Lemma lists_each_layer_once_size (d : GISDocument) :
  lists_each_layer_once d -> List.length (_layerTree d) = size (_layers d).
Proof.
  intros (ids & -> & Hnodup & Hids).
  rewrite length_map, <- size_dom, <- (size_list_to_set (C := gset string)); [|done].
  f_equal. apply set_eq. intros k.
  by rewrite elem_of_list_to_set, Hids, elem_of_dom.
Qed.

Lemma builder_step_numbered (uuid4 : nat -> string) (st st' : State) :
  Inj (=) (=) uuid4 ->
  builder_step uuid4 st st' ->
  drawn uuid4 st /\ lists_each_layer_once (ydoc st) ->
  drawn uuid4 st' /\ lists_each_layer_once (ydoc st').
Proof.
  intros Hinj
    [[Hdoc Hcalls] | [[source [Hdoc Hcalls]] | (source & layer & ps & Hdoc & Hcalls & _)]]
    [Hdrawn Honce].
  - rewrite Hdoc. split; [|done].
    intros k Hk. rewrite Hdoc in Hk.
    destruct (Hdrawn k Hk) as (n & Hn & ->). exists n. split; [lia|done].
  - split.
    + intros k Hk. rewrite Hdoc in Hk. cbn in Hk.
      destruct (Hdrawn k Hk) as (n & Hn & ->). exists n. split; [lia|done].
    + rewrite Hdoc. destruct Honce as (ids & Htree & Hnodup & Hids).
      exists ids. cbn. split; [done|]. split; [done|]. exact Hids.
  - split.
    + intros k Hk. rewrite Hdoc in Hk. cbn in Hk.
      apply lookup_insert_is_Some in Hk as [<- | [_ Hk]].
      * exists (S (uuid_calls st)). split; [lia|done].
      * destruct (Hdrawn k Hk) as (n & Hn & ->). exists n. split; [lia|done].
    + rewrite Hdoc. destruct Honce as (ids & Htree & Hnodup & Hids).
      exists (ids ++ [uuid4 (S (uuid_calls st))])%list. cbn. split; [|split].
      * by rewrite Htree, map_app.
      * apply NoDup_app. split; [done|]. split; [|apply NoDup_singleton].
        intros k Hk ->%list_elem_of_singleton.
        apply Hids, Hdrawn in Hk as (n & Hn & Heq).
        apply Hinj in Heq. lia.
      * intros k. rewrite elem_of_app, list_elem_of_singleton, lookup_insert_is_Some, Hids.
        split.
        -- intros [Hk | ->]; [|by left].
           destruct (decide (uuid4 (S (uuid_calls st)) = k)); [by left | by right].
        -- intros [<- | [_ Hk]]; [by right | by left].
Qed.

Lemma raised_or_stored_numbered (uuid4 : nat -> string) (layer_id : string)
    (st st' : State) (r : result unit) :
  raised_or_stored layer_id st r st' ->
  drawn uuid4 st /\ lists_each_layer_once (ydoc st) ->
  drawn uuid4 st' /\ lists_each_layer_once (ydoc st').
Proof.
  intros [[-> _] | [_ (layer & layer' & Hlayer & -> & _)]]; [done|].
  assert (Hsame : forall k,
            is_Some (<[layer_id := layer']> (_layers (ydoc st)) !! k)
            <-> is_Some (_layers (ydoc st) !! k)).
  { intros k. rewrite lookup_insert_is_Some. split.
    - intros [<- | [_ Hk]]; [by rewrite Hlayer | done].
    - intros Hk. destruct (decide (layer_id = k)); [by left | by right]. }
  intros [Hdrawn (ids & Htree & Hnodup & Hids)]. split.
  - intros k Hk. cbn in Hk. apply Hsame in Hk. by apply Hdrawn.
  - exists ids. cbn. repeat split; try done; intros Hk.
    + by apply Hsame, Hids.
    + by apply Hids, Hsame.
Qed.

(** X13. Provided [uuid4] never returns the same identifier twice, the
    tree and the layers stay in step: if every layer was stored under a
    drawn identifier and [layerTree] lists each stored layer once, this is
    still so after any sequence of builder and filter calls, and
    [layerTree] then has as many entries as there are layers. *)
Theorem layer_tree_lists_each_layer_once
    (objects : Objects) (uuid4 : nat -> string)
    (get_source_layer_names : string -> result (list string))
    (load_json_file : string -> result json) (calls : list call) (st : State) :
  Inj (=) (=) uuid4 ->
  drawn uuid4 st ->
  lists_each_layer_once (ydoc st) ->
  drawn uuid4 (session objects uuid4 get_source_layer_names load_json_file calls st) /\
  lists_each_layer_once
    (ydoc (session objects uuid4 get_source_layer_names load_json_file calls st)) /\
  List.length
    (_layerTree
       (ydoc (session objects uuid4 get_source_layer_names load_json_file calls st)))
  = size
      (_layers
         (ydoc (session objects uuid4 get_source_layer_names load_json_file calls st))).
Proof.
  intros Hinj Hdrawn Honce.
  assert (Hboth : drawn uuid4
                    (session objects uuid4 get_source_layer_names load_json_file calls st) /\
                  lists_each_layer_once
                    (ydoc (session objects uuid4 get_source_layer_names load_json_file
                             calls st))).
  { revert st Hdrawn Honce. induction calls as [|c calls IH]; intros st Hdrawn Honce;
      [done|].
    cbn.
    destruct (perform_cases objects uuid4 get_source_layer_names load_json_file c st)
      as [Hstep | (layer_id & r & Hstep)].
    - destruct (builder_step_numbered uuid4 st _ Hinj Hstep (conj Hdrawn Honce)).
      by apply IH.
    - destruct (raised_or_stored_numbered uuid4 layer_id st _ r Hstep (conj Hdrawn Honce)).
      by apply IH. }
  destruct Hboth as [Hd Ho]. split; [done|]. split; [done|].
  by apply lists_each_layer_once_size.
Qed.

Lemma layer_tree_lists_each_layer_once_witness :
  let st' :=
    session Sample.strict_objects Sample.uuid4 Sample.get_source_layer_names
      Sample.load_json_file
      [AddRasterLayer "https://tiles.example/{z}/{x}/{y}.png" "Base" "" (JStr "high");
       AddGeoJSONLayer (Some "towns.json") None "Towns" "circle" "#FF0000"
         (JInt 1) None None None JNull;
       AddImageLayer (JStr "https://img.example/a.png") (JList []) "Photo" (JInt 1);
       ClearFilters "id-|||"]
      Sample.fresh in
  lists_each_layer_once (ydoc st') /\
  List.length (_layerTree (ydoc st')) = size (_layers (ydoc st')).
Proof.
  apply (layer_tree_lists_each_layer_once Sample.strict_objects Sample.uuid4
           Sample.get_source_layer_names Sample.load_json_file).
  - exact strokes_inj.
  - intros k Hk. cbn in Hk. rewrite lookup_empty in Hk. by destruct Hk.
  - exists []. repeat split; [constructor| |].
    + by intros ?%elem_of_nil.
    + cbn. rewrite lookup_empty. by intros [].
Defined.

(** *** What a ValueError of the image and video builders means *)

Lemma JGISLayer_init_raises (name visible object_type filters : pyobj)
    (parameters : dict) (e : exn) :
  JGISLayer_init name visible object_type parameters filters = Raise e ->
  e = ValidationError "JGISLayer".
Proof. unfold JGISLayer_init. repeat case_match; congruence. Qed.

Lemma JGISSource_init_raises (name object_type : pyobj) (parameters : dict) (e : exn) :
  JGISSource_init name object_type parameters = Raise e ->
  e = ValidationError "JGISSource".
Proof. unfold JGISSource_init. repeat case_match; congruence. Qed.

Lemma create_source_value_error (_factories : gmap key BaseModel) (data : raw)
    (ps : dict) (e : exn) :
  raw_get "parameters" data = Some (Plain (JDict ps)) ->
  create_source _factories data = Raise e ->
  is_ValueError e = true ->
  exists model, e = ValidationError model.
Proof.
  intros Hps Hraise Hvalue.
  destruct (lookup_factory _factories (raw_get_default "type" data))
    as [[Model|]|e'] eqn:Hfound.
  - rewrite (create_source_found _ _ _ _ Hfound Hps) in Hraise.
    destruct (forallb _ _); [|injection Hraise as <-; by eexists].
    destruct (JGISSource_init _ _ _) as [s|e1] eqn:Hinit; [discriminate Hraise|].
    injection Hraise as <-. apply JGISSource_init_raises in Hinit. by eexists.
  - unfold create_source in Hraise. by rewrite Hfound in Hraise.
  - unfold create_source in Hraise. rewrite Hfound in Hraise. cbn in Hraise.
    injection Hraise as <-. unfold lookup_factory in Hfound.
    destruct (raw_get_default "type" data) as [v| |]; try discriminate Hfound.
    destruct (truthy v); [|discriminate Hfound].
    destruct v; try discriminate Hfound; injection Hfound as <-; discriminate Hvalue.
Qed.

Lemma create_layer_value_error (_factories : gmap key BaseModel) (data : raw)
    (ps : dict) (e : exn) :
  raw_get "parameters" data = Some (Plain (JDict ps)) ->
  create_layer _factories data = Raise e ->
  is_ValueError e = true ->
  exists model, e = ValidationError model.
Proof.
  intros Hps Hraise Hvalue.
  destruct (lookup_factory _factories (raw_get_default "type" data))
    as [[Model|]|e'] eqn:Hfound.
  - rewrite (create_layer_found _ _ _ _ Hfound Hps) in Hraise.
    destruct (forallb _ _); [|injection Hraise as <-; by eexists].
    destruct (JGISLayer_init _ _ _ _ _) as [l|e1] eqn:Hinit; [discriminate Hraise|].
    injection Hraise as <-. apply JGISLayer_init_raises in Hinit. by eexists.
  - unfold create_layer in Hraise. by rewrite Hfound in Hraise.
  - unfold create_layer in Hraise. rewrite Hfound in Hraise. cbn in Hraise.
    injection Hraise as <-. unfold lookup_factory in Hfound.
    destruct (raw_get_default "type" data) as [v| |]; try discriminate Hfound.
    destruct (truthy v); [|discriminate Hfound].
    destruct v; try discriminate Hfound; injection Hfound as <-; discriminate Hvalue.
Qed.

Lemma add_source_then_layer_value_error (objects : Objects) (uuid4 : nat -> string)
    (source : raw) (layer : string -> raw) (st st' : State) (e : exn) :
  (exists ps, raw_get "parameters" source = Some (Plain (JDict ps))) ->
  refers_to_source layer ->
  add_source_then_layer objects uuid4 source layer st = (Raise e, st') ->
  is_ValueError e = true ->
  exists model, e = ValidationError model.
Proof.
  intros [ps Hps] Hlayer Hraise Hvalue.
  rewrite add_source_then_layer_cases in Hraise.
  destruct (create_source _ source) as [[s|]|e1] eqn:Hs.
  - cbv zeta in Hraise.
    destruct (create_layer _ _) as [[l|]|e2] eqn:Hl; try discriminate Hraise.
    + injection Hraise as <- _. discriminate Hvalue.
    + injection Hraise as -> _.
      destruct (Hlayer (uuid4 (uuid_calls st))) as (lps & Hlps & _).
      by apply (create_layer_value_error _ _ _ _ Hlps Hl).
  - injection Hraise as <- _. discriminate Hvalue.
  - injection Hraise as -> _. by apply (create_source_value_error _ _ _ _ Hps Hs).
Qed.

(** X15. A [ValueError] out of [add_image_layer] is one of two things.
    With [url] or [coordinates] [None] it is the builder's own, raised
    before an identifier is drawn or anything is written.  With both given
    it is a validation error of the factory, pydantic's [ValidationError]
    being a [ValueError]: catching [ValueError] does not tell a missing
    argument from a rejected one.  The same holds of [add_video_layer]
    with [urls]. *)
Theorem image_and_video_builders_check_for_none
    (objects : Objects) (uuid4 : nat -> string) :
  (forall url coordinates name opacity st,
     (is_none url || is_none coordinates = true ->
      add_image_layer objects uuid4 url coordinates name opacity st
      = (Raise (ValueError "URL and Coordinates are required"), st)) /\
     (forall e st',
        add_image_layer objects uuid4 url coordinates name opacity st = (Raise e, st') ->
        is_ValueError e = true ->
        (is_none url || is_none coordinates = true /\
         e = ValueError "URL and Coordinates are required" /\ st' = st) \/
        (is_none url || is_none coordinates = false /\
         exists model, e = ValidationError model))) /\
  (forall urls name coordinates opacity st,
     (is_none urls || is_none coordinates = true ->
      add_video_layer objects uuid4 urls name coordinates opacity st
      = (Raise (ValueError "URLs and Coordinates are required"), st)) /\
     (forall e st',
        add_video_layer objects uuid4 urls name coordinates opacity st = (Raise e, st') ->
        is_ValueError e = true ->
        (is_none urls || is_none coordinates = true /\
         e = ValueError "URLs and Coordinates are required" /\ st' = st) \/
        (is_none urls || is_none coordinates = false /\
         exists model, e = ValidationError model))).
Proof.
  split.
  - intros url coordinates name opacity st. unfold add_image_layer.
    destruct (is_none url || is_none coordinates).
    + split; [done|]. intros e st' [= <- <-] _. by left.
    + split; [done|]. intros e st' Hraise Hvalue. right. split; [done|].
      eapply add_source_then_layer_value_error; [| |exact Hraise|exact Hvalue].
      * by eexists.
      * intros source_id. eexists. split; reflexivity.
  - intros urls name coordinates opacity st. unfold add_video_layer.
    destruct (is_none urls || is_none coordinates).
    + split; [done|]. intros e st' [= <- <-] _. by left.
    + split; [done|]. intros e st' Hraise Hvalue. right. split; [done|].
      eapply add_source_then_layer_value_error; [| |exact Hraise|exact Hvalue].
      * by eexists.
      * intros source_id. eexists. split; reflexivity.
Qed.

Lemma image_and_video_builders_check_for_none_witness :
  let corners :=
    JList [JList [JFloat (-80.425); JFloat 46.437]; JList [JFloat (-71.516); JFloat 46.437];
           JList [JFloat (-71.516); JFloat 37.936]; JList [JFloat (-80.425); JFloat 37.936]] in
  add_image_layer Sample.strict_objects Sample.uuid4 JNull corners "Radar" (JFloat 0.8)
      Sample.fresh
    = (Raise (ValueError "URL and Coordinates are required"), Sample.fresh) /\
  exists e st',
    add_image_layer Sample.strict_objects Sample.uuid4
        (JStr "https://img.example/radar.gif") corners "Radar" (JStr "high") Sample.fresh
      = (Raise e, st') /\
    is_ValueError e = true /\
    exists model, e = ValidationError model.
Proof.
  intros corners.
  destruct (image_and_video_builders_check_for_none Sample.strict_objects Sample.uuid4)
    as [Himage _].
  split; [by apply Himage|].
  assert (Hrun : exists e st',
            add_image_layer Sample.strict_objects Sample.uuid4
                (JStr "https://img.example/radar.gif") corners "Radar" (JStr "high")
                Sample.fresh
              = (Raise e, st') /\
            is_ValueError e = true).
  { eexists _, _. split; vm_compute; reflexivity. }
  destruct Hrun as (e & st' & Hrun & Hvalue). exists e, st'.
  split; [exact Hrun|]. split; [exact Hvalue|].
  destruct (Himage (JStr "https://img.example/radar.gif") corners "Radar" (JStr "high")
              Sample.fresh) as [_ Hkinds].
  destruct (Hkinds e st' Hrun Hvalue) as [(Hnone & _) | (_ & Hmodel)];
    [discriminate Hnone | exact Hmodel].
Defined.

(** *** Registration *)

Lemma register_factory_lookup (shape_type tag : key) (cls : BaseModel)
    (_factories : gmap key BaseModel) :
  register_factory shape_type cls _factories !! tag
  = match _factories !! tag with
    | Some kept => Some kept
    | None => if bool_decide (shape_type = tag) then Some cls else None
    end.
Proof.
  unfold register_factory.
  destruct (decide (shape_type = tag)) as [->|Hne].
  - rewrite bool_decide_eq_true_2; [|done].
    destruct (_factories !! tag) as [kept|] eqn:Hkept; [by rewrite Hkept|].
    by rewrite lookup_insert_eq.
  - rewrite bool_decide_eq_false_2; [|done].
    destruct (_factories !! shape_type).
    + by destruct (_factories !! tag).
    + rewrite lookup_insert_ne; [|done]. by destruct (_factories !! tag).
Qed.

Lemma register_all_lookup (regs : list (key * BaseModel))
    (_factories : gmap key BaseModel) (tag : key) :
  register_all regs _factories !! tag
  = match _factories !! tag with
    | Some kept => Some kept
    | None => first_registered tag regs
    end.
Proof.
  revert _factories. induction regs as [|[shape_type cls] regs IH]; intros _factories.
  - cbn. by destruct (_factories !! tag).
  - cbn. unfold register_all in IH. rewrite IH, register_factory_lookup.
    destruct (_factories !! tag); [done|]. by destruct (bool_decide (shape_type = tag)).
Qed.

(** X16. A registration never replaces an earlier one.  After any
    sequence of [register_factory] calls on any table, a tag the table
    already had keeps its class, and any other tag has the class of the
    first call that registered it; the table built at the end of the
    module is such a sequence on the empty table. *)
Theorem first_registration_wins (regs : list (key * BaseModel))
    (_factories : gmap key BaseModel) (tag : key) (objects : Objects) :
  register_all regs _factories !! tag
  = match _factories !! tag with
    | Some kept => Some kept
    | None => first_registered tag regs
    end /\
  OBJECT_FACTORY objects
  = register_all
      [(KLayerType RasterLayer, IRasterLayer objects);
       (KLayerType VectorLayer, IVectorLayer objects);
       (KLayerType VectorTileLayer, IVectorTileLayer objects);
       (KLayerType HillshadeLayer, IHillshadeLayer objects);
       (KLayerType WebGlLayer, IWebGlLayer objects);
       (KLayerType ImageLayer, IImageLayer objects);
       (KSourceType VectorTileSource, IVectorTileSource objects);
       (KSourceType RasterSource, IRasterSource objects);
       (KSourceType GeoJSONSource, IGeoJSONSource objects);
       (KSourceType ImageSource, IImageSource objects);
       (KSourceType VideoSource, IVideoSource objects)]
      ∅.
Proof. split; [apply register_all_lookup | reflexivity]. Qed.

(** *** Stored records and the factory *)

(** X14. What the document stores cannot be handed back to the factory.
    A stored record carries its type as a string, the value of the member,
    and [OBJECT_FACTORY] holds its classes under the members themselves,
    so no string is a key of it.  For the record of any layer or source,
    read back as a raw description, [create_layer] and [create_source]
    therefore return [None]: no object, and no error either, as for an
    unknown tag. *)
Theorem stored_records_are_unknown_to_the_factory (objects : Objects) :
  (forall tag, OBJECT_FACTORY objects !! KStr tag = None) /\
  (forall l,
     create_layer (OBJECT_FACTORY objects) (raw_of_dict (JGISLayer_json l)) = Ok None) /\
  (forall s,
     create_source (OBJECT_FACTORY objects) (raw_of_dict (JGISSource_json s)) = Ok None).
Proof.
  assert (Hstrings : forall tag, OBJECT_FACTORY objects !! KStr tag = None).
  { intros tag. unfold OBJECT_FACTORY.
    change (fold_left _ ?regs ∅) with (register_all regs ∅).
    rewrite register_all_lookup, lookup_empty. reflexivity. }
  assert (Hlookup : forall tag,
            lookup_factory (OBJECT_FACTORY objects) (Plain (JStr tag)) = Ok None).
  { intros tag. unfold lookup_factory. rewrite Hstrings. by destruct (truthy _). }
  split; [exact Hstrings|]. split.
  - intros l. unfold create_layer.
    change (raw_get_default "type" (raw_of_dict (JGISLayer_json l)))
      with (Plain (JStr (LayerType_value (layer_type l)))).
    by rewrite Hlookup.
  - intros s. unfold create_source.
    change (raw_get_default "type" (raw_of_dict (JGISSource_json s)))
      with (Plain (JStr (SourceType_value (source_type s)))).
    by rewrite Hlookup.
Qed.

(** *** Filters on the layers the builders make *)

Lemma initial_filters_take (layer_id : string) (l : JGISLayer) (st : State)
    (logical_op feature operator : option string) (value : json)
    (lop f o : string) (v : json) :
  _layers (ydoc st) !! layer_id = Some (JGISLayer_json l) ->
  layer_filters l = Plain (initial_filters logical_op feature operator value) ->
  exists layer',
    add_filter layer_id lop f o v st = (Ok tt, stored st layer_id layer') /\
    dict_get "filters" layer'
    = Some (JDict [("appliedFilters",
                    JList [JDict [("feature", of_optional feature);
                                  ("operator", of_optional operator);
                                  ("value", value)];
                           predicate f o v]);
                   ("logicalOp", JStr lop)]).
Proof.
  intros Hstored Hfilters. eexists. split.
  - eapply (add_filter_next_run layer_id lop f o v st (JGISLayer_json l)).
    + exact Hstored.
    + cbn. rewrite Hfilters. reflexivity.
    + reflexivity.
  - rewrite dict_get_set_eq. reflexivity.
Qed.

(** X17. A layer made by [add_vectortile_layer] or [add_geojson_layer]
    takes filters at once: [add_filter] on the returned id never raises,
    and it appends.  The predicate the builder attached stays first in
    [appliedFilters], also when the layer was built without filter
    arguments and that predicate is the one of three [None]s; the new
    predicate comes second and [logicalOp] is the one just given. *)
Theorem vector_layers_take_filters
    (objects : Objects) (uuid4 : nat -> string)
    (get_source_layer_names : string -> result (list string))
    (load_json_file : string -> result json) :
  (forall url name source_layer attribution min_zoom max_zoom type color opacity
          logical_op feature operator value,
     takes_filters logical_op feature operator value
       (add_vectortile_layer objects uuid4 get_source_layer_names url name source_layer
          attribution min_zoom max_zoom type color opacity logical_op feature operator
          value)) /\
  (forall path data name type color opacity logical_op feature operator value,
     takes_filters logical_op feature operator value
       (add_geojson_layer objects uuid4 load_json_file path data name type color opacity
          logical_op feature operator value)).
Proof.
  split; intros; intros st _id st' Hrun lop f o v.
  - apply vectortile_layer_stored in Hrun as (l & Hstored & Hfilters).
    by eapply initial_filters_take.
  - apply geojson_layer_stored in Hrun as (l & Hstored & Hfilters).
    by eapply initial_filters_take.
Qed.

Lemma vector_layers_take_filters_witness :
  exists st' layer',
    add_geojson_layer Sample.objects Sample.uuid4 Sample.load_json_file
        (Some "towns.json") None "Towns" "circle" "#FF0000" (JInt 1)
        None None None JNull Sample.fresh
      = (Ok "id-|", st') /\
    add_filter "id-|" "all" "name" "==" (JStr "Oslo") st'
      = (Ok tt, stored st' "id-|" layer') /\
    dict_get "filters" layer'
    = Some (JDict [("appliedFilters",
                    JList [JDict [("feature", JNull); ("operator", JNull);
                                  ("value", JNull)];
                           JDict [("feature", JStr "name"); ("operator", JStr "==");
                                  ("value", JStr "Oslo")]]);
                   ("logicalOp", JStr "all")]).
Proof.
  assert (Hrun : exists st',
            add_geojson_layer Sample.objects Sample.uuid4 Sample.load_json_file
                (Some "towns.json") None "Towns" "circle" "#FF0000" (JInt 1)
                None None None JNull Sample.fresh
              = (Ok "id-|", st')).
  { eexists. vm_compute. reflexivity. }
  destruct Hrun as [st' Hrun]. exists st'.
  destruct (vector_layers_take_filters Sample.objects Sample.uuid4
              Sample.get_source_layer_names Sample.load_json_file) as [_ Hgeojson].
  destruct (Hgeojson _ _ _ _ _ _ _ _ _ _ _ _ _ Hrun "all" "name" "==" (JStr "Oslo"))
    as (layer' & Hadd & Hfilters).
  exists layer'. split; [exact Hrun|]. split; [exact Hadd|]. exact Hfilters.
Defined.

Lemma initial_filters_update (layer_id : string) (l : JGISLayer) (st : State)
    (logical_op feature operator : option string) (value : json)
    (lop f o : string) (v : json) :
  _layers (ydoc st) !! layer_id = Some (JGISLayer_json l) ->
  layer_filters l = Plain (initial_filters logical_op feature operator value) ->
  if eq_str (of_optional feature) f then
    exists layer',
      update_filter layer_id lop f o v st = (Ok tt, stored st layer_id layer') /\
      dict_get "filters" layer'
      = Some (JDict [("appliedFilters",
                      JList [JDict [("feature", JStr f);
                                    ("operator", of_optional operator);
                                    ("value", v)]]);
                     ("logicalOp", JStr lop)])
  else
    update_filter layer_id lop f o v st
    = (Raise (ValueError ("No feature found with ID: None in layer: " ++ layer_id)), st).
Proof.
  intros Hstored Hfilters.
  destruct (eq_str (of_optional feature) f) eqn:Hsame.
  - destruct feature as [f'|]; [|discriminate Hsame].
    cbn in Hsame. apply String.eqb_eq in Hsame as ->.
    eexists. split.
    + eapply (update_filter_head_run layer_id lop f o v st (JGISLayer_json l)).
      * exact Hstored.
      * cbn. rewrite Hfilters. reflexivity.
      * reflexivity.
      * reflexivity.
    + rewrite dict_get_set_eq. reflexivity.
  - unfold update_filter. step. rewrite Hstored. cbn. rewrite Hfilters. cbn.
    by rewrite Hsame.
Qed.

(** X18. [update_filter] on the id returned by [add_vectortile_layer] or
    [add_geojson_layer] reaches the predicate the builder attached only by
    the feature the builder was given: then the value is replaced, the
    operator stays the builder's (the one passed to [update_filter] is
    ignored) and [logicalOp] is the new one.  For any other feature, and
    for every feature when the layer was built without one, it raises
    [ValueError] and leaves the document as it was. *)
Theorem update_filter_on_built_layers
    (objects : Objects) (uuid4 : nat -> string)
    (get_source_layer_names : string -> result (list string))
    (load_json_file : string -> result json) :
  (forall url name source_layer attribution min_zoom max_zoom type color opacity
          logical_op feature operator value,
     updates_initial_filter feature operator
       (add_vectortile_layer objects uuid4 get_source_layer_names url name source_layer
          attribution min_zoom max_zoom type color opacity logical_op feature operator
          value)) /\
  (forall path data name type color opacity logical_op feature operator value,
     updates_initial_filter feature operator
       (add_geojson_layer objects uuid4 load_json_file path data name type color opacity
          logical_op feature operator value)).
Proof.
  split; intros; intros st _id st' Hrun lop f o v.
  - apply vectortile_layer_stored in Hrun as (l & Hstored & Hfilters).
    by eapply initial_filters_update.
  - apply geojson_layer_stored in Hrun as (l & Hstored & Hfilters).
    by eapply initial_filters_update.
Qed.

Lemma update_filter_on_built_layers_witness :
  exists st',
    add_geojson_layer Sample.objects Sample.uuid4 Sample.load_json_file
        (Some "towns.json") None "Towns" "circle" "#FF0000" (JInt 1)
        (Some "all") (Some "name") (Some "==") (JStr "Oslo") Sample.fresh
      = (Ok "id-|", st') /\
    (exists layer',
       update_filter "id-|" "any" "name" "!=" (JStr "Bergen") st'
         = (Ok tt, stored st' "id-|" layer') /\
       dict_get "filters" layer'
       = Some (JDict [("appliedFilters",
                       JList [JDict [("feature", JStr "name"); ("operator", JStr "==");
                                     ("value", JStr "Bergen")]]);
                      ("logicalOp", JStr "any")])) /\
    update_filter "id-|" "any" "size" "==" (JInt 3) st'
      = (Raise (ValueError "No feature found with ID: None in layer: id-|"), st').
Proof.
  assert (Hrun : exists st',
            add_geojson_layer Sample.objects Sample.uuid4 Sample.load_json_file
                (Some "towns.json") None "Towns" "circle" "#FF0000" (JInt 1)
                (Some "all") (Some "name") (Some "==") (JStr "Oslo") Sample.fresh
              = (Ok "id-|", st')).
  { eexists. vm_compute. reflexivity. }
  destruct Hrun as [st' Hrun]. exists st'.
  destruct (update_filter_on_built_layers Sample.objects Sample.uuid4
              Sample.get_source_layer_names Sample.load_json_file) as [_ Hgeojson].
  pose proof (Hgeojson _ _ _ _ _ _ _ _ _ _ _ _ _ Hrun) as Hupdate.
  split; [exact Hrun|]. split.
  - exact (Hupdate "any" "name" "!=" (JStr "Bergen")).
  - exact (Hupdate "any" "size" "==" (JInt 3)).
Defined.

(** *** A predicate without a feature *)

Lemma find_feature_malformed (feature : string) (before after : list json) (p : dict) :
  forallb (other_feature feature) before = true ->
  dict_get "feature" p = None ->
  find_feature feature (before ++ JDict p :: after) = Raise (KeyError "feature").
Proof.
  intros Hbefore Hp. induction before as [|f before IH]; cbn.
  - by rewrite Hp.
  - cbn in Hbefore. apply andb_prop in Hbefore as [Hf Hbefore].
    destruct f as [| | | | | |q]; try discriminate Hf. cbn in Hf |- *.
    destruct (dict_get "feature" q) as [w|]; [|discriminate Hf]. cbn.
    apply negb_true_iff in Hf. rewrite Hf. by rewrite (IH Hbefore).
Qed.

(** X19. [update_filter] reads the [feature] of every predicate up to the
    first match.  If a predicate with no [feature] key comes before any
    match, the call raises [KeyError] for that key, not the [ValueError]
    of a feature that is not found, and writes nothing, also when a later
    predicate is about the feature asked for. *)
Theorem update_filter_stops_at_a_predicate_without_feature
    (layer_id logical_op feature operator : string) (value : json) (st : State)
    (layer filters p : dict) (before after : list json) :
  _layers (ydoc st) !! layer_id = Some layer ->
  dict_get "filters" layer = Some (JDict filters) ->
  dict_get "appliedFilters" filters = Some (JList (before ++ JDict p :: after)) ->
  forallb (other_feature feature) before = true ->
  dict_get "feature" p = None ->
  update_filter layer_id logical_op feature operator value st
  = (Raise (KeyError "feature"), st).
Proof.
  intros Hlayer Hfilters Happlied Hbefore Hp. unfold update_filter. step.
  rewrite Hlayer, (dict_mem_true _ _ _ Hfilters). cbn.
  rewrite Hfilters. cbn. rewrite Happlied. cbn.
  by rewrite (find_feature_malformed _ _ _ _ Hbefore Hp).
Qed.

Lemma update_filter_stops_at_a_predicate_without_feature_witness :
  let layer :=
    [("name", JStr "Towns");
     ("filters",
      JDict [("appliedFilters",
              JList [JDict [("feature", JStr "size"); ("operator", JStr ">");
                            ("value", JInt 3)];
                     JDict [("operator", JStr "=="); ("value", JStr "Oslo")];
                     JDict [("feature", JStr "name"); ("operator", JStr "==");
                            ("value", JStr "Oslo")]]);
             ("logicalOp", JStr "all")])] in
  update_filter "L1" "any" "name" "==" (JStr "Bergen") (Sample.doc_with "L1" layer)
  = (Raise (KeyError "feature"), Sample.doc_with "L1" layer).
Proof.
  intros layer.
  apply (update_filter_stops_at_a_predicate_without_feature "L1" "any" "name" "=="
           (JStr "Bergen") (Sample.doc_with "L1" layer) layer
           [("appliedFilters",
             JList [JDict [("feature", JStr "size"); ("operator", JStr ">");
                           ("value", JInt 3)];
                    JDict [("operator", JStr "=="); ("value", JStr "Oslo")];
                    JDict [("feature", JStr "name"); ("operator", JStr "==");
                           ("value", JStr "Oslo")]]);
            ("logicalOp", JStr "all")]
           [("operator", JStr "=="); ("value", JStr "Oslo")]
           [JDict [("feature", JStr "size"); ("operator", JStr ">"); ("value", JInt 3)]]
           [JDict [("feature", JStr "name"); ("operator", JStr "==");
                   ("value", JStr "Oslo")]]);
    reflexivity.
Defined.
